(** * T-Deck-Pro OS: the post-build script [scripts/post_build.py]

    A shallow embedding of the script and the properties its
    specification states about it.  The script is a sequence of
    file-system effects (stat, mkdir, copy, write, unlink) and console
    prints, guarded by tests on the PlatformIO environment; it is modelled
    as a state-and-exception monad over a finite map from path names to
    nodes. *)

From Stdlib Require Import ZArith Ascii String List Lia Bool.
From stdpp Require Import gmap strings.

Local Open Scope string_scope.
Local Open Scope Z_scope.

(** ** Python strings

    A Python [str] is modelled as a [string] whose characters are code
    points below 256; text files are decoded one byte per character. *)

Module PyStr.

(** [needle in hay] *)
Fixpoint str_in (needle hay : string) : bool :=
  String.prefix needle hay ||
  match hay with
  | EmptyString => false
  | String _ hay' => str_in needle hay'
  end.

(** [s.split(sep)] for a one-character separator *)
Fixpoint split (sep : ascii) (s : string) : list string :=
  match s with
  | EmptyString => [EmptyString]
  | String c s' =>
      if Ascii.eqb c sep then EmptyString :: split sep s'
      else match split sep s' with
           | h :: t => String c h :: t
           | [] => [String c EmptyString]
           end
  end.

Definition LF : ascii := "010"%char.
Definition CR : ascii := "013"%char.
Definition DQUOTE : ascii := "034"%char.
Definition SLASH : ascii := "/"%char.

(** Text-mode reading ([open(p, 'r')], universal newlines): the sequences
    CR LF and CR become LF. *)
Fixpoint universal_newlines (s : string) : string :=
  match s with
  | EmptyString => EmptyString
  | String c s' =>
      if Ascii.eqb c CR then
        match s' with
        | String c' s'' =>
            if Ascii.eqb c' LF then String LF (universal_newlines s'')
            else String LF (universal_newlines s')
        | EmptyString => String LF EmptyString
        end
      else String c (universal_newlines s')
  end.

(** Decimal digits of a natural number, as [str(n)] prints them. *)
Definition digit (n : N) : ascii := ascii_of_N (48 + n).

Fixpoint decimal_fuel (fuel : nat) (n : N) (acc : string) : string :=
  match fuel with
  | O => acc
  | S fuel' =>
      let acc' := String (digit (n mod 10)) acc in
      if (n <? 10)%N then acc' else decimal_fuel fuel' (n / 10)%N acc'
  end.

Definition decimal (n : N) : string :=
  decimal_fuel (S (N.to_nat (N.log2 n))) n EmptyString.

End PyStr.

Import PyStr.

(** ** The clock: [datetime.now().strftime("%Y%m%d_%H%M%S")] *)

Record datetime := {
  year : N; month : N; day : N; hour : N; minute : N; second : N }.

(** The values [datetime.now()] can return at which [%Y] prints four
    digits. *)
Definition valid_datetime (d : datetime) : bool :=
  (1000 <=? year d)%N && (year d <=? 9999)%N &&
  (1 <=? month d)%N && (month d <=? 12)%N &&
  (1 <=? day d)%N && (day d <=? 31)%N &&
  (hour d <? 24)%N && (minute d <? 60)%N && (second d <? 60)%N.

Definition pad2 (n : N) : string :=
  String (digit (n / 10)) (String (digit (n mod 10)) EmptyString).

Definition pad4 (n : N) : string :=
  String (digit (n / 1000)) (String (digit ((n / 100) mod 10))
    (String (digit ((n / 10) mod 10)) (String (digit (n mod 10)) EmptyString))).

Definition strftime (d : datetime) : string :=
  pad4 (year d) ++ pad2 (month d) ++ pad2 (day d) ++ "_" ++
  pad2 (hour d) ++ pad2 (minute d) ++ pad2 (second d).

(** ** Formatted figures: [f"{n / d:.2f}"]

    For integers [0 <= n] and [0 < d] whose quotient the float holds
    exactly (in the script [d] is [1024 * 1024] and [n] is far below
    [2 ^ 53]), the format prints the quotient rounded to hundredths, a tie
    going to the even neighbour, with two digits after the point. *)

Definition round_half_even (n d : Z) : Z :=
  let q := n / d in
  let r := n mod d in
  if 2 * r <? d then q
  else if d <? 2 * r then q + 1
  else if Z.even q then q else q + 1.

(** The text of a number of hundredths. *)
Definition hundredths (h : Z) : string :=
  decimal (Z.to_N (h / 100)) ++ "." ++ pad2 (Z.to_N (h mod 100)).

Definition format_2f (n d : Z) : string :=
  hundredths (round_half_even (100 * n) d).

(** ** The OTA manifest: [json.dump(version_info, f, indent=2)] *)

Record version_info := {
  version : string;
  timestamp : string;
  environment : string;
  size : Z;
  filename : string }.

Module Json.

Definition BACKSLASH : ascii := "092"%char.

Definition hex_digit (n : N) : ascii :=
  if (n <? 10)%N then ascii_of_N (48 + n) else ascii_of_N (87 + n).

(** One character of a JSON string under [ensure_ascii=True]. *)
Definition escape_char (c : ascii) : string :=
  let n := N_of_ascii c in
  if Ascii.eqb c DQUOTE then String BACKSLASH (String DQUOTE EmptyString)
  else if Ascii.eqb c BACKSLASH then String BACKSLASH (String BACKSLASH EmptyString)
  else if (n =? 10)%N then String BACKSLASH "n"
  else if (n =? 13)%N then String BACKSLASH "r"
  else if (n =? 9)%N then String BACKSLASH "t"
  else if (n =? 8)%N then String BACKSLASH "b"
  else if (n =? 12)%N then String BACKSLASH "f"
  else if (32 <=? n)%N && (n <=? 126)%N then String c EmptyString
  else String BACKSLASH ("u00" ++
         String (hex_digit (n / 16)) (String (hex_digit (n mod 16)) EmptyString)).

Fixpoint escape (s : string) : string :=
  match s with
  | EmptyString => EmptyString
  | String c s' => escape_char c ++ escape s'
  end.

Definition quoted (s : string) : string :=
  String DQUOTE (escape s ++ String DQUOTE EmptyString).

Definition member (key value : string) : string :=
  "  " ++ quoted key ++ ": " ++ value.

Definition NL : string := String LF EmptyString.

(** A Python [int] in decimal. *)
Definition integer (z : Z) : string :=
  if z <? 0 then "-" ++ decimal (Z.to_N (- z)) else decimal (Z.to_N z).

(** The text [json.dump] writes for the [version_info] dictionary. *)
Definition dump (v : version_info) : string :=
  "{" ++ NL ++
  member "version" (quoted (version v)) ++ "," ++ NL ++
  member "timestamp" (quoted (timestamp v)) ++ "," ++ NL ++
  member "environment" (quoted (environment v)) ++ "," ++ NL ++
  member "size" (integer (size v)) ++ "," ++ NL ++
  member "filename" (quoted (filename v)) ++ NL ++
  "}".

End Json.

(** ** The build context

    [env] is the PlatformIO construction environment, or [None] when
    [Import("env")] failed (lines 13-17).  [PIOENV], [PIOPLATFORM] and
    [PIOFRAMEWORK] are the values [env.get] finds ([None]: key not set);
    [BUILD_DIR] is [env.subst("$BUILD_DIR")], a normalised path. *)

Record pio_env := {
  PIOENV : option string;
  PIOPLATFORM : option string;
  PIOFRAMEWORK : option string;
  BUILD_DIR : string }.

(** [env.get(key, dflt)] *)
Definition get (v : option string) (dflt : string) : string :=
  match v with Some s => s | None => dflt end.

(** ** The file system

    A finite map from path names to nodes.  Relative names are relative to
    the project directory, in which the script runs; distinct names denote
    distinct nodes (no links, no [..]).  Access rights and device errors
    are outside the model: an operation fails only for the kind of node it
    finds or misses. *)

Inductive node :=
  | File (data : string)
  | Dir.

Inductive exn :=
  | FileExistsError
  | FileNotFoundError
  | IsADirectoryError
  | NotADirectoryError
  | SameFileError
  | IndexError.

(** [Path(d) / name], for a normalised [d] and a relative [name] without
    empty or dot components: the two texts joined by a slash.  A [name]
    with a slash in it can hold such components, which [Path] and the
    operating system resolve; the properties of names that the script
    builds from an environment name or a version are stated for names
    without a slash. *)
Definition path_join (d name : string) : string := d ++ "/" ++ name.

(** [os.path.dirname]: the text before the last slash; [None] for a bare
    name, whose directory is the project directory. *)
Fixpoint dirname (p : string) : option string :=
  match p with
  | EmptyString => None
  | String c p' =>
      match dirname p' with
      | Some d => Some (String c d)
      | None => if Ascii.eqb c SLASH then Some EmptyString else None
      end
  end.

(** [os.path.basename] *)
Definition basename (p : string) : string := List.last (split SLASH p) EmptyString.

(** One line of console output per [print] call of the script.  A line
    that interpolates values carries them as the line shows them:
    [FirmwareSize] the byte count, which line 49 prints in full (with
    thousands separators) before its rounded KB and MB figures, and
    [RemainingSpace] the two-decimal MB figure of line 59, the only number
    on that line. *)
Inductive msg :=
  | Rule                         (* "=" * 60 *)
  | Title                        (* T-DECK-PRO OS - POST-BUILD SCRIPT *)
  | Environment (s : string)
  | Platform (s : string)
  | Framework (s : string)
  | Analyzing
  | SkipSizeAnalysis             (* Environment not available - skipping size analysis *)
  | FirmwareSize (size : Z)      (* {size:,} bytes, then the KB and MB figures *)
  | SizeExceeds                  (* Warning: Firmware size exceeds typical app partition limit! *)
  | ConsiderOptimization
  | RemainingSpace (mb : string) (* {remaining_mb:.2f} MB *)
  | FirmwareNotFound
  | Generating
  | SkipArtifacts
  | FirmwareCopied (dst : string)
  | ElfCopied (dst : string)
  | MapCopied (dst : string)
  | CreatingOta
  | SkipOtaNoEnv
  | SkipOtaNotRelease
  | OtaFirmwareNotFound          (* Firmware binary not found for OTA package *)
  | OtaCreated (pkg : string)
  | VersionInfo (file : string)
  | CleaningUp
  | CleanedUp
  | CouldNotRemove
  | BuildComplete                (* T-DECK-PRO OS BUILD COMPLETE! *)
  | NextSteps
  | Step (n : nat).

(** The state the script acts on: the file system, the console, and the
    names of the files it has created or overwritten, in order. *)
Record world := {
  fs : gmap string node;
  stdout : list msg;
  written : list string }.

Definition set_fs (f : gmap string node) (w : world) : world :=
  {| fs := f; stdout := stdout w; written := written w |}.

(** ** Statements: state passing with exceptions *)

Inductive outcome (A : Type) :=
  | Return (a : A)
  | Raise (e : exn).
Arguments Return {A} a.
Arguments Raise {A} e.

Definition M (A : Type) : Type := world -> outcome A * world.

Definition ret {A} (a : A) : M A := fun w => (Return a, w).

Definition raise {A} (e : exn) : M A := fun w => (Raise e, w).

Definition bind {A B} (m : M A) (k : A -> M B) : M B :=
  fun w =>
    match m w with
    | (Return a, w') => k a w'
    | (Raise e, w') => (Raise e, w')
    end.

(** [try: body  except: handler] *)
Definition try_except {A} (body handler : M A) : M A :=
  fun w =>
    match body w with
    | (Return a, w') => (Return a, w')
    | (Raise _, w') => handler w'
    end.

Declare Scope py_scope.
Delimit Scope py_scope with py.
Notation "x <- m ;; k" := (bind m (fun x => k))
  (at level 100, m at next level, right associativity) : py_scope.
Notation "m ;; k" := (bind m (fun _ => k))
  (at level 100, right associativity) : py_scope.
Local Open Scope py_scope.

Definition lift {A} (o : outcome A) : M A := fun w => (o, w).

Definition when (b : bool) (m : M unit) : M unit := if b then m else ret tt.

Module Os.

(** The size [stat] reports for a directory depends on the file system;
    one block is taken here. *)
Definition DIR_ST_SIZE : Z := 4096.

Definition print (m : msg) : M unit :=
  fun w => (Return tt,
            {| fs := fs w; stdout := stdout w ++ [m]; written := written w |}).

(** [Path.exists()] *)
Definition exists_ (p : string) : M bool :=
  fun w => (Return (match fs w !! p with Some _ => true | None => false end), w).

(** [Path.stat().st_size] *)
Definition st_size (p : string) : M Z :=
  fun w =>
    match fs w !! p with
    | Some (File data) => (Return (Z.of_nat (String.length data)), w)
    | Some Dir => (Return DIR_ST_SIZE, w)
    | None => (Raise FileNotFoundError, w)
    end.

(** Whether a name can be opened for writing, and the error otherwise.
    The directory of a name is its text before the last slash, which is
    the directory the operating system resolves for names without [..]
    components. *)
Definition open_w (f : gmap string node) (p : string) : option exn :=
  match f !! p with
  | Some Dir => Some IsADirectoryError
  | Some (File _) => None
  | None =>
      match dirname p with
      | None => None
      | Some d =>
          match f !! d with
          | Some Dir => None
          | Some (File _) => Some NotADirectoryError
          | None => Some FileNotFoundError
          end
      end
  end.

(** [Path.mkdir(exist_ok=True)] *)
Definition mkdir_exist_ok (p : string) : M unit :=
  fun w =>
    match fs w !! p with
    | Some Dir => (Return tt, w)
    | Some (File _) => (Raise FileExistsError, w)
    | None =>
        match open_w (fs w) p with
        | Some e => (Raise e, w)
        | None => (Return tt, set_fs (<[p := Dir]> (fs w)) w)
        end
    end.

(** [open(p, 'w')] followed by writing [text] *)
Definition write_text (p text : string) : M unit :=
  fun w =>
    match open_w (fs w) p with
    | Some e => (Raise e, w)
    | None =>
        (Return tt,
         {| fs := <[p := File text]> (fs w); stdout := stdout w;
            written := written w ++ [p] |})
    end.

(** [open(p, 'r')] followed by [f.read()] *)
Definition read_text (p : string) : M string :=
  fun w =>
    match fs w !! p with
    | Some (File data) => (Return (universal_newlines data), w)
    | Some Dir => (Raise IsADirectoryError, w)
    | None => (Raise FileNotFoundError, w)
    end.

(** [Path.unlink()] *)
Definition unlink (p : string) : M unit :=
  fun w =>
    match fs w !! p with
    | Some (File _) => (Return tt, set_fs (delete p (fs w)) w)
    | Some Dir => (Raise IsADirectoryError, w)
    | None => (Raise FileNotFoundError, w)
    end.

(** [shutil.copy2(src, dst)]: a directory as [dst] receives the file under
    the source's base name; the source is opened before the target.  The
    times and mode bits it copies along are not part of a [node]. *)
Definition copy2 (src dst : string) : M unit :=
  fun w =>
    let dst' := match fs w !! dst with
                | Some Dir => path_join dst (basename src)
                | _ => dst
                end in
    match fs w !! src with
    | None => (Raise FileNotFoundError, w)
    | Some n =>
        if String.eqb src dst' then (Raise SameFileError, w)
        else match n with
             | Dir => (Raise IsADirectoryError, w)
             | File data => write_text dst' data w
             end
    end.

End Os.

(** ** The script *)

Import Os.

Definition print_build_summary (env : option pio_env) : M unit :=
  print Rule ;;
  print Title ;;
  print Rule ;;
  match env with
  | Some e =>
      print (Environment (get (PIOENV e) "Unknown")) ;;
      print (Platform (get (PIOPLATFORM e) "Unknown")) ;;
      print (Framework (get (PIOFRAMEWORK e) "Unknown"))
  | None => ret tt
  end ;;
  print Rule.

Definition max_app_size : Z := 6 * 1024 * 1024.

Definition analyze_firmware_size (env : option pio_env) : M unit :=
  print Analyzing ;;
  match env with
  | None => print SkipSizeAnalysis
  | Some e =>
      let build_dir := BUILD_DIR e in
      let firmware_path := path_join build_dir "firmware.bin" in
      present <- exists_ firmware_path ;;
      if present then
        size <- st_size firmware_path ;;
        print (FirmwareSize size) ;;
        if max_app_size <? size then
          print SizeExceeds ;;
          print ConsiderOptimization
        else
          let remaining := max_app_size - size in
          let remaining_mb := format_2f remaining (1024 * 1024) in
          print (RemainingSpace remaining_mb)
      else
        print FirmwareNotFound
  end.

Definition artifacts_dir : string := "build_artifacts".

Definition firmware_dst (env_name timestamp : string) : string :=
  path_join artifacts_dir ("t-deck-pro-os_" ++ env_name ++ "_" ++ timestamp ++ ".bin").

Definition elf_dst (env_name : string) : string :=
  path_join artifacts_dir ("t-deck-pro-os_" ++ env_name ++ ".elf").

Definition map_dst (env_name : string) : string :=
  path_join artifacts_dir ("t-deck-pro-os_" ++ env_name ++ ".map").

(** [now] is what [datetime.now()] returns at line 83. *)
Definition generate_build_artifacts (env : option pio_env) (now : datetime) : M unit :=
  print Generating ;;
  match env with
  | None => print SkipArtifacts
  | Some e =>
      mkdir_exist_ok artifacts_dir ;;
      let build_dir := BUILD_DIR e in
      let env_name := get (PIOENV e) "unknown" in
      let firmware_src := path_join build_dir "firmware.bin" in
      present <- exists_ firmware_src ;;
      when present (
        let timestamp := strftime now in
        copy2 firmware_src (firmware_dst env_name timestamp) ;;
        print (FirmwareCopied (firmware_dst env_name timestamp))) ;;
      let elf_src := path_join build_dir "firmware.elf" in
      present <- exists_ elf_src ;;
      when present (
        copy2 elf_src (elf_dst env_name) ;;
        print (ElfCopied (elf_dst env_name))) ;;
      let map_src := path_join build_dir "firmware.map" in
      present <- exists_ map_src ;;
      when present (
        copy2 map_src (map_dst env_name) ;;
        print (MapCopied (map_dst env_name)))
  end.

Definition ota_dir : string := "ota_packages".

Definition build_info_path : string := "src/core/build_info.h".

Definition DEFAULT_VERSION : string := "1.0.0".

Definition ota_package_name (version timestamp : string) : string :=
  "t-deck-pro-os_v" ++ version ++ "_" ++ timestamp ++ ".bin".

Definition ota_package (version timestamp : string) : string :=
  path_join ota_dir (ota_package_name version timestamp).

Definition version_file (version timestamp : string) : string :=
  path_join ota_dir ("version_v" ++ version ++ "_" ++ timestamp ++ ".json").

(** Whether a line of the header is taken (line 141). *)
Definition version_line (line : string) : bool :=
  str_in "BUILD_VERSION" line && str_in (String DQUOTE EmptyString) line.

(** The loop of lines 140-143; [line.split(quote)[1]] raises [IndexError]
    when the list has a single element. *)
Fixpoint scan_version (version : string) (lines : list string) : outcome string :=
  match lines with
  | [] => Return version
  | line :: rest =>
      if version_line line then
        match nth_error (split DQUOTE line) 1 with
        | Some v => Return v
        | None => Raise IndexError
        end
      else scan_version version rest
  end.

(** Lines 134-145: the version, [DEFAULT_VERSION] unless the header yields
    one; whatever the [try] block raises is dropped. *)
Definition read_version : M string :=
  try_except
    (present <- exists_ build_info_path ;;
     if present then
       content <- read_text build_info_path ;;
       lift (scan_version DEFAULT_VERSION (split LF content))
     else ret DEFAULT_VERSION)
    (ret DEFAULT_VERSION).

(** [now] is what [datetime.now()] returns at line 131. *)
Definition create_ota_package (env : option pio_env) (now : datetime) : M unit :=
  print CreatingOta ;;
  match env with
  | None => print SkipOtaNoEnv
  | Some e =>
      let env_name := get (PIOENV e) "unknown" in
      if negb (str_in "release" env_name) && negb (str_in "ota" env_name) then
        print SkipOtaNotRelease
      else
        mkdir_exist_ok ota_dir ;;
        let build_dir := BUILD_DIR e in
        let firmware_src := path_join build_dir "firmware.bin" in
        present <- exists_ firmware_src ;;
        if negb present then
          print OtaFirmwareNotFound
        else
          let timestamp := strftime now in
          version <- read_version ;;
          copy2 firmware_src (ota_package version timestamp) ;;
          size <- st_size firmware_src ;;
          let info := {| version := version;
                         timestamp := timestamp;
                         environment := env_name;
                         size := size;
                         filename := basename (ota_package version timestamp) |} in
          write_text (version_file version timestamp) (Json.dump info) ;;
          print (OtaCreated (ota_package version timestamp)) ;;
          print (VersionInfo (version_file version timestamp))
  end.

Definition cleanup_build_files : M unit :=
  print CleaningUp ;;
  present <- exists_ build_info_path ;;
  when present (
    try_except
      (unlink build_info_path ;;
       print CleanedUp)
      (print CouldNotRemove)).

Definition print_build_success : M unit :=
  print Rule ;;
  print BuildComplete ;;
  print Rule ;;
  print NextSteps ;;
  print (Step 1) ;;
  print (Step 2) ;;
  print (Step 3) ;;
  print (Step 4) ;;
  print Rule.

(** [now_artifacts] and [now_ota] are the two readings of the clock, at
    lines 83 and 131. *)
Definition main (env : option pio_env) (now_artifacts now_ota : datetime) : M unit :=
  print_build_summary env ;;
  analyze_firmware_size env ;;
  generate_build_artifacts env now_artifacts ;;
  create_ota_package env now_ota ;;
  cleanup_build_files ;;
  print_build_success.

(** ** Observations on file-system states *)

Definition is_dir (f : gmap string node) (p : string) : bool :=
  match f !! p with Some Dir => true | _ => false end.

Definition is_file (f : gmap string node) (p : string) : bool :=
  match f !! p with Some (File _) => true | _ => false end.

(** Every node but the top ones lies in a directory of the map. *)
Definition wf_fs (f : gmap string node) : bool :=
  forallb (fun pn => match dirname (fst pn) with
                     | None => true
                     | Some d => is_dir f d
                     end) (map_to_list f).

(** The version lines 134-145 leave in [version] for a header with the
    text [content]: an exception of the scan is dropped by [except]. *)
Definition version_of_text (content : string) : string :=
  match scan_version DEFAULT_VERSION (split LF content) with
  | Return v => v
  | Raise _ => DEFAULT_VERSION
  end.

(** The same for a file-system state: a header that is missing or cannot
    be read leaves the default. *)
Definition header_version (f : gmap string node) : string :=
  match f !! build_info_path with
  | Some (File data) => version_of_text (universal_newlines data)
  | _ => DEFAULT_VERSION
  end.

(** [s] is a piece of [t]: the meaning of Python's [s in t]. *)
Definition substring_of (s t : string) : Prop :=
  exists a b, t = a ++ s ++ b.

Definition no_slash (s : string) : bool := negb (str_in "/" s).

(** ** Footprints

    [effects m touch say]: running [m] changes the file system only at
    names in [touch], writes only files in [touch], and prints only lines
    in [say], whether it returns or raises. *)
Definition effects {A} (m : M A) (touch : string -> Prop) (say : msg -> Prop) : Prop :=
  forall w,
    (forall p, ~ touch p -> fs (snd (m w)) !! p = fs w !! p) /\
    (exists l : list string, written (snd (m w)) = (written w ++ l)%list /\ Forall touch l) /\
    (exists o : list msg, stdout (snd (m w)) = (stdout w ++ o)%list /\ Forall say o).

(** [m] never raises. *)
Definition total {A} (m : M A) : Prop :=
  forall w, exists a, fst (m w) = Return a.

(** Names the artifact collector can create, overwrite or write into. *)
Definition artifacts_touch (env_name ts : string) (p : string) : Prop :=
  In p [artifacts_dir;
        firmware_dst env_name ts; path_join (firmware_dst env_name ts) "firmware.bin";
        elf_dst env_name; path_join (elf_dst env_name) "firmware.elf";
        map_dst env_name; path_join (map_dst env_name) "firmware.map"].

(** The OTA packager stays in its directory. *)
Definition ota_touch (p : string) : Prop :=
  p = ota_dir \/ String.prefix "ota_packages/" p = true.

Definition main_touch (env_name ts : string) (p : string) : Prop :=
  artifacts_touch env_name ts p \/ ota_touch p \/ p = build_info_path.

Definition anywhere (p : string) : Prop := True.
Definition nowhere (p : string) : Prop := False.
Definition anything (m : msg) : Prop := True.
Definition not_banner (m : msg) : Prop := m <> BuildComplete.

(** The lines of [print_build_success]. *)
Definition banner : list msg :=
  [Rule; BuildComplete; Rule; NextSteps; Step 1; Step 2; Step 3; Step 4; Rule].

(** [m] ends by printing the banner when it returns, and prints no banner
    line when it raises. *)
Definition banner_last {A} (m : M A) : Prop :=
  forall w,
    match fst (m w) with
    | Return _ => exists o : list msg, stdout (snd (m w)) = (stdout w ++ o ++ banner)%list
    | Raise _ => exists o : list msg, stdout (snd (m w)) = (stdout w ++ o)%list /\
                                      ~ In BuildComplete o
    end.

(** Lines 88-100, the part of [generate_build_artifacts] behind the copy of
    the binary: the symbol file and the memory map. *)
Definition collect_symbols (e : pio_env) : M unit :=
  let build_dir := BUILD_DIR e in
  let env_name := get (PIOENV e) "unknown" in
  let elf_src := path_join build_dir "firmware.elf" in
  present <- exists_ elf_src ;;
  when present (
    copy2 elf_src (elf_dst env_name) ;;
    print (ElfCopied (elf_dst env_name))) ;;
  let map_src := path_join build_dir "firmware.map" in
  present <- exists_ map_src ;;
  when present (
    copy2 map_src (map_dst env_name) ;;
    print (MapCopied (map_dst env_name))).

Definition symbols_touch (env_name : string) (p : string) : Prop :=
  In p [elf_dst env_name; path_join (elf_dst env_name) "firmware.elf";
        map_dst env_name; path_join (map_dst env_name) "firmware.map"].


(** ** The version line *)

Definition quote_free (s : string) : bool := negb (str_in (String DQUOTE "") s).

(** [v] stands in [line] strictly between its first and its second double
    quote. *)
Definition between_first_quotes (line v : string) : Prop :=
  exists a b, line = a ++ String DQUOTE (v ++ String DQUOTE b) /\
              quote_free a = true /\ quote_free v = true.

(** [v] is what follows the first double quote of [line], up to the next
    double quote or to the end of the line. *)
Definition after_first_quote (line v : string) : Prop :=
  exists a tail, line = a ++ String DQUOTE (v ++ tail) /\
                 quote_free a = true /\ quote_free v = true /\
                 (tail = "" \/ exists b, tail = String DQUOTE b).

(** No line of the header is a version line; a missing or unreadable
    header counts. *)
Definition header_silent (f : gmap string node) : bool :=
  match f !! build_info_path with
  | Some (File data) =>
      forallb (fun line => negb (version_line line)) (split LF (universal_newlines data))
  | _ => true
  end.

(** ** Sample projects *)

Module Sample.

Definition release_env : pio_env :=
  {| PIOENV := Some "t-deck-release";
     PIOPLATFORM := Some "espressif32";
     PIOFRAMEWORK := Some "arduino";
     BUILD_DIR := ".pio/build/t-deck-release" |}.

Definition debug_env : pio_env :=
  {| PIOENV := Some "t-deck-debug";
     PIOPLATFORM := Some "espressif32";
     PIOFRAMEWORK := Some "arduino";
     BUILD_DIR := ".pio/build/t-deck-debug" |}.

Definition noon : datetime :=
  {| year := 2025; month := 7; day := 14; hour := 12; minute := 0; second := 0 |}.

Definition noon_01 : datetime :=
  {| year := 2025; month := 7; day := 14; hour := 12; minute := 0; second := 1 |}.

Definition header_text : string :=
  "#define BUILD_VERSION " ++ String DQUOTE ("2.1.0" ++ String DQUOTE (String LF
  "#define BUILD_DATE " ++ String DQUOTE ("Jul 14 2025" ++ String DQUOTE (String LF "")))).

(** A header whose version literal is not closed. *)
Definition open_quote_line : string :=
  "#define BUILD_VERSION " ++ String DQUOTE "1.2.3".

Definition source_tree : gmap string node :=
  <["src" := Dir]> (<["src/core" := Dir]> ∅).

Definition build_tree (dir : string) (f : gmap string node) : gmap string node :=
  <[".pio" := Dir]> (<[".pio/build" := Dir]> (<[path_join ".pio/build" dir := Dir]> f)).

(** After a release build: binary, symbols, map and the generated header. *)
Definition release_fs : gmap string node :=
  <[".pio/build/t-deck-release/firmware.bin" := File "BINARY IMAGE"]>
  (<[".pio/build/t-deck-release/firmware.elf" := File "ELF SYMBOLS"]>
  (<[".pio/build/t-deck-release/firmware.map" := File "MEMORY MAP"]>
  (<[build_info_path := File header_text]>
  (build_tree "t-deck-release" source_tree)))).

(** The same without the binary. *)
Definition no_binary_fs : gmap string node :=
  delete ".pio/build/t-deck-release/firmware.bin" release_fs.

(** The same without the generated header. *)
Definition no_header_fs : gmap string node :=
  delete build_info_path release_fs.

(** A regular file occupies the name of the artifacts directory. *)
Definition blocked_artifacts_fs : gmap string node :=
  <[artifacts_dir := File "notes"]> release_fs.

(** A regular file occupies the name of the OTA directory, and the binary
    is missing. *)
Definition blocked_ota_fs : gmap string node :=
  <[ota_dir := File "notes"]> no_binary_fs.

Definition debug_fs : gmap string node :=
  <[".pio/build/t-deck-debug/firmware.bin" := File "BINARY IMAGE"]>
  (<[build_info_path := File header_text]>
  (build_tree "t-deck-debug" source_tree)).

Definition fresh (f : gmap string node) : world :=
  {| fs := f; stdout := []; written := [] |}.

End Sample.

(** ** What the script keeps

    [preserves except m]: whether [m] returns or raises, every directory is
    still a directory afterwards, and every regular file outside [except]
    is still a regular file. *)
Definition preserves {A} (except : string -> Prop) (m : M A) : Prop :=
  forall w p,
    (fs w !! p = Some Dir -> fs (snd (m w)) !! p = Some Dir) /\
    (~ except p -> is_file (fs w) p = true -> is_file (fs (snd (m w))) p = true).

Definition only_header (p : string) : Prop := p = build_info_path.

(** [p] is the directory [d] or a name under it. *)
Definition inside (d p : string) : bool :=
  String.eqb p d || String.prefix (d ++ "/") p.

(** The outputs of the build that the script reads. *)
Definition build_outputs : list string :=
  ["firmware.bin"; "firmware.elf"; "firmware.map"].

(** ** Header texts *)

Definition line_free (s : string) : bool := negb (str_in (String LF "") s).

(** The text of a file whose lines are [ls], each ended by a line feed. *)
Fixpoint unlines (ls : list string) : string :=
  match ls with
  | [] => ""
  | l :: rest => l ++ String LF (unlines rest)
  end.

(** A line that defines the version [v]: the marker somewhere before the
    first double quote, and [v] between the first two double quotes. *)
Definition define_line (pre mid v post : string) : string :=
  pre ++ "BUILD_VERSION" ++ mid ++ String DQUOTE (v ++ String DQUOTE post).

(** A release build whose header takes its version from a branch name. *)
Definition branch_header_text : string :=
  define_line "#define " " " "feature/ota-7" "".

Definition branch_fs : gmap string node :=
  <[build_info_path := File branch_header_text]> Sample.release_fs.

(** ** The specification's version line

    The specification describes the line the packager looks for as one
    holding the version marker and a quoted literal, a text enclosed in a
    pair of double quotes; [spec_version_line] reads it so.  The script
    (line 141, [version_line]) asks for the marker and one double
    quote. *)
Fixpoint count_char (c : ascii) (s : string) : nat :=
  match s with
  | EmptyString => O
  | String x s' => (if Ascii.eqb x c then 1 else 0) + count_char c s'
  end.

Definition spec_version_line (line : string) : bool :=
  str_in "BUILD_VERSION" line && (2 <=? count_char DQUOTE line)%nat.

Definition spec_header_silent (f : gmap string node) : bool :=
  match f !! build_info_path with
  | Some (File data) =>
      forallb (fun line => negb (spec_version_line line))
        (split LF (universal_newlines data))
  | _ => true
  end.

(** A release build whose header opens the quote of the version and does
    not close it. *)
Definition open_quote_fs : gmap string node :=
  <[build_info_path := File Sample.open_quote_line]> Sample.release_fs.

(** ** The names of the OTA packager

    What the packager can create or write for a version and a time
    stamp: its directory, the package (or the copy inside a directory that
    has the package's name) and the manifest. *)
Definition ota_names (v ts : string) : list string :=
  [ota_dir; ota_package v ts; path_join (ota_package v ts) "firmware.bin";
   version_file v ts].

(** * Properties *)

(** ** The sample projects *)

Example samples_well_formed :
  forallb wf_fs [Sample.release_fs; Sample.no_binary_fs; Sample.no_header_fs;
                 Sample.blocked_artifacts_fs; Sample.blocked_ota_fs;
                 Sample.debug_fs] = true.
Proof. reflexivity. Qed.

Example sample_clock_valid :
  valid_datetime Sample.noon = true /\ valid_datetime Sample.noon_01 = true.
Proof. split; reflexivity. Qed.

(** A release build, from the summary to the banner. *)
Example sample_release_run :
  let r := main (Some Sample.release_env) Sample.noon Sample.noon
             (Sample.fresh Sample.release_fs) in
  fst r = Return tt /\
  stdout (snd r) =
    ([Rule; Title; Rule; Environment "t-deck-release"; Platform "espressif32";
     Framework "arduino"; Rule;
     Analyzing; FirmwareSize 12; RemainingSpace "6.00";
     Generating;
     FirmwareCopied "build_artifacts/t-deck-pro-os_t-deck-release_20250714_120000.bin";
     ElfCopied "build_artifacts/t-deck-pro-os_t-deck-release.elf";
     MapCopied "build_artifacts/t-deck-pro-os_t-deck-release.map";
     CreatingOta;
     OtaCreated "ota_packages/t-deck-pro-os_v2.1.0_20250714_120000.bin";
     VersionInfo "ota_packages/version_v2.1.0_20250714_120000.json";
     CleaningUp; CleanedUp] ++ banner)%list /\
  fs (snd r) !! build_info_path = None /\
  fs (snd r) !! "ota_packages/version_v2.1.0_20250714_120000.json" =
    Some (File (Json.dump
                  {| version := "2.1.0";
                     timestamp := "20250714_120000";
                     environment := "t-deck-release";
                     size := 12;
                     filename := "t-deck-pro-os_v2.1.0_20250714_120000.bin" |})).
Proof. repeat split; reflexivity. Qed.

(** The manifest of that run begins with its opening brace, the version
    member and the time stamp. *)
Example sample_manifest_text :
  String.prefix
    ("{" ++ Json.NL ++ "  " ++ Json.quoted "version" ++ ": " ++ Json.quoted "2.1.0" ++ ","
     ++ Json.NL ++ "  " ++ Json.quoted "timestamp" ++ ": " ++ Json.quoted "20250714_120000")
    (Json.dump
       {| version := "2.1.0";
          timestamp := "20250714_120000";
          environment := "t-deck-release";
          size := 12;
          filename := "t-deck-pro-os_v2.1.0_20250714_120000.bin" |}) = true.
Proof. reflexivity. Qed.


(** ** Strings *)

Section Strings.

Lemma sapp_nil_l (s : string) : "" ++ s = s.
Proof. reflexivity. Qed.

Lemma sapp_cons (c : ascii) (s t : string) : String c s ++ t = String c (s ++ t).
Proof. reflexivity. Qed.

Lemma sapp_nil_r (s : string) : s ++ "" = s.
Proof. induction s as [|c s IH]; [reflexivity | now rewrite sapp_cons, IH]. Qed.

Lemma sapp_assoc (a b c : string) : (a ++ b) ++ c = a ++ b ++ c.
Proof. induction a as [|x a IH]; [reflexivity | now rewrite !sapp_cons, IH]. Qed.

Lemma slength_app (a b : string) :
  String.length (a ++ b) = (String.length a + String.length b)%nat.
Proof.
  induction a as [|x a IH]; [reflexivity|].
  rewrite sapp_cons. simpl. now rewrite IH.
Qed.

Lemma prefix_spec (n h : string) :
  String.prefix n h = true <-> exists b, h = n ++ b.
Proof.
  revert h; induction n as [|c n IH]; intros h.
  - split; [intros _; now exists h | intros _; now destruct h].
  - destruct h as [|x h]; simpl.
    + split; [discriminate | intros [b Hb]; discriminate].
    + destruct (ascii_dec c x) as [->|Hne].
      * rewrite IH. split; intros [b Hb]; exists b.
        -- now rewrite sapp_cons, Hb.
        -- rewrite sapp_cons in Hb. now injection Hb.
      * split; [discriminate |].
        intros [b Hb]. rewrite sapp_cons in Hb. injection Hb; intros _ Hx; congruence.
Qed.

Lemma str_in_nil (n : string) : str_in n "" = String.prefix n "".
Proof. unfold str_in. apply orb_false_r. Qed.

Lemma str_in_cons (n : string) (x : ascii) (h : string) :
  str_in n (String x h) = String.prefix n (String x h) || str_in n h.
Proof. reflexivity. Qed.

Lemma str_in_spec (n h : string) : str_in n h = true <-> substring_of n h.
Proof.
  unfold substring_of. induction h as [|x h IH].
  - rewrite str_in_nil, prefix_spec. split.
    + intros [b Hb]. now exists "", b.
    + intros (a & b & H). destruct a; [now exists b | discriminate].
  - rewrite str_in_cons, orb_true_iff, IH, prefix_spec. split.
    + intros [[b Hb] | (a & b & Hab)].
      * now exists "", b.
      * exists (String x a), b. now rewrite sapp_cons, Hab.
    + intros (a & b & Hab). destruct a as [|y a].
      * left. now exists b.
      * right. rewrite sapp_cons in Hab. injection Hab as _ Hab. now exists a, b.
Qed.

(** Membership of one character. *)
Lemma str_in_char (c x : ascii) (s : string) :
  str_in (String c "") (String x s) = Ascii.eqb x c || str_in (String c "") s.
Proof.
  simpl. destruct (ascii_dec c x) as [->|Hne].
  - rewrite Ascii.eqb_refl. now destruct s.
  - apply Ascii.eqb_neq in Hne. rewrite Ascii.eqb_sym in Hne. now rewrite Hne.
Qed.

Lemma str_in_char_app (c : ascii) (a b : string) :
  str_in (String c "") (a ++ b) = str_in (String c "") a || str_in (String c "") b.
Proof.
  induction a as [|x a IH].
  - reflexivity.
  - change (String x a ++ b) with (String x (a ++ b)).
    now rewrite !str_in_char, IH, orb_assoc.
Qed.

Lemma no_slash_app (a b : string) : no_slash (a ++ b) = no_slash a && no_slash b.
Proof. unfold no_slash. now rewrite str_in_char_app, negb_orb. Qed.

Lemma no_slash_cons (x : ascii) (s : string) :
  no_slash (String x s) = negb (Ascii.eqb x SLASH) && no_slash s.
Proof. unfold no_slash. now rewrite str_in_char, negb_orb. Qed.

Lemma dirname_no_slash (s : string) : no_slash s = true -> dirname s = None.
Proof.
  induction s as [|x s IH]; [reflexivity|].
  rewrite no_slash_cons, andb_true_iff, negb_true_iff. intros [Hx Hs].
  simpl. now rewrite (IH Hs), Hx.
Qed.

Lemma dirname_join (d name : string) :
  no_slash name = true -> dirname (path_join d name) = Some d.
Proof.
  intros Hn. unfold path_join. induction d as [|x d IH].
  - change ("" ++ "/" ++ name) with (String SLASH name).
    simpl. now rewrite (dirname_no_slash _ Hn).
  - rewrite sapp_cons. simpl. now rewrite IH.
Qed.

Lemma dirname_join_is_Some (d name : string) : dirname (path_join d name) <> None.
Proof.
  unfold path_join. induction d as [|x d IH].
  - change ("" ++ "/" ++ name) with (String SLASH name).
    simpl. now destruct (dirname name).
  - rewrite sapp_cons. simpl. now destruct (dirname (d ++ "/" ++ name)).
Qed.

(** A bare name is not a name inside a directory. *)
Lemma top_ne_join (p d name : string) : dirname p = None -> p <> path_join d name.
Proof. intros Hp ->. now apply dirname_join_is_Some in Hp. Qed.

Lemma split_no_sep (c : ascii) (s : string) :
  str_in (String c "") s = false -> split c s = [s].
Proof.
  induction s as [|x s IH]; [reflexivity|].
  rewrite str_in_char, orb_false_iff. intros [Hx Hs].
  simpl. now rewrite Hx, (IH Hs).
Qed.

Lemma split_not_nil (c : ascii) (s : string) : split c s <> [].
Proof.
  destruct s as [|x s]; simpl; [discriminate|].
  destruct (Ascii.eqb x c); [discriminate|].
  destruct (split c s); discriminate.
Qed.

Lemma split_app (c : ascii) (a b : string) :
  split c (a ++ String c b) = (split c a ++ split c b)%list.
Proof.
  induction a as [|x a IH].
  - rewrite sapp_nil_l. simpl. now rewrite Ascii.eqb_refl.
  - rewrite sapp_cons. simpl. rewrite IH. destruct (Ascii.eqb x c); [reflexivity|].
    pose proof (split_not_nil c a) as Hne.
    destruct (split c a); [congruence | reflexivity].
Qed.

Lemma basename_join (d name : string) :
  no_slash name = true -> basename (path_join d name) = name.
Proof.
  intros Hn. unfold basename, path_join.
  change ("/" ++ name) with (String SLASH name).
  rewrite split_app, (split_no_sep SLASH name).
  - apply last_last.
  - unfold no_slash in Hn. now apply negb_true_iff in Hn.
Qed.

(** Two names with different directories differ. *)
Lemma path_join_inj (d d' n n' : string) :
  no_slash n = true -> no_slash n' = true ->
  path_join d n = path_join d' n' -> d = d' /\ n = n'.
Proof.
  intros Hn Hn' H.
  assert (Hd : d = d').
  { apply (f_equal dirname) in H. rewrite !dirname_join in H by assumption.
    congruence. }
  subst d'. split; [reflexivity|].
  unfold path_join in H. now do 2 apply String.app_inj in H.
Qed.

Lemma path_join_ne_dir (d n : string) : path_join d n <> d.
Proof.
  intros H. apply (f_equal String.length) in H.
  unfold path_join in H. rewrite slength_app in H. simpl in H. lia.
Qed.

End Strings.

(** ** Time stamps *)

Section Timestamps.

Lemma digit_cases (k : N) :
  (k < 10)%N ->
  In (digit k) ["0"; "1"; "2"; "3"; "4"; "5"; "6"; "7"; "8"; "9"]%char.
Proof.
  intros Hk.
  assert (H : In k [0; 1; 2; 3; 4; 5; 6; 7; 8; 9]%N).
  { simpl. lia. }
  apply (in_map digit) in H. exact H.
Qed.

Lemma digit_not_slash (k : N) : (k < 10)%N -> Ascii.eqb (digit k) SLASH = false.
Proof.
  intros Hk. apply digit_cases in Hk. simpl in Hk.
  repeat (destruct Hk as [<- | Hk]; [reflexivity|]). contradiction.
Qed.

Lemma digit_inj (a b : N) : (a < 10)%N -> (b < 10)%N -> digit a = digit b -> a = b.
Proof.
  intros Ha Hb H. unfold digit in H.
  apply (f_equal N_of_ascii) in H.
  rewrite !N_ascii_embedding in H by lia. lia.
Qed.

Lemma pad2_no_slash (n : N) : (n < 100)%N -> no_slash (pad2 n) = true.
Proof.
  intros Hn. unfold pad2. rewrite !no_slash_cons, !digit_not_slash; [reflexivity| |].
  - apply N.mod_lt; lia.
  - apply N.Div0.div_lt_upper_bound; lia.
Qed.

Lemma pad4_no_slash (n : N) : (n < 10000)%N -> no_slash (pad4 n) = true.
Proof.
  intros Hn. unfold pad4.
  rewrite !no_slash_cons, !digit_not_slash; [reflexivity| | | |];
    try (apply N.mod_lt; lia).
  apply N.Div0.div_lt_upper_bound; lia.
Qed.

Lemma valid_datetime_bounds (d : datetime) :
  valid_datetime d = true ->
  (1000 <= year d < 10000 /\ month d < 100 /\ day d < 100 /\
   hour d < 100 /\ minute d < 100 /\ second d < 100)%N.
Proof.
  unfold valid_datetime. rewrite !andb_true_iff, !N.leb_le, !N.ltb_lt. lia.
Qed.

Lemma strftime_length (d : datetime) : String.length (strftime d) = 15%nat.
Proof. reflexivity. Qed.

Lemma strftime_no_slash (d : datetime) :
  valid_datetime d = true -> no_slash (strftime d) = true.
Proof.
  intros Hv. apply valid_datetime_bounds in Hv. unfold strftime.
  rewrite !no_slash_app, pad4_no_slash, !pad2_no_slash by lia. reflexivity.
Qed.

Lemma pad2_inj (a b : N) : (a < 100)%N -> (b < 100)%N -> pad2 a = pad2 b -> a = b.
Proof.
  intros Ha Hb H. unfold pad2 in H. injection H as H1 H0.
  apply digit_inj in H1, H0;
    try (apply N.mod_lt; lia); try (apply N.Div0.div_lt_upper_bound; lia).
  rewrite (N.div_mod a 10), (N.div_mod b 10) by lia. congruence.
Qed.

Lemma pad4_inj (a b : N) : (a < 10000)%N -> (b < 10000)%N -> pad4 a = pad4 b -> a = b.
Proof.
  intros Ha Hb H. unfold pad4 in H. injection H as H3 H2 H1 H0.
  apply digit_inj in H3, H2, H1, H0;
    try (apply N.mod_lt; lia); try (apply N.Div0.div_lt_upper_bound; lia).
  assert (Hdec : forall n : N, n = (1000 * (n / 1000) + 100 * ((n / 100) mod 10) +
                               10 * ((n / 10) mod 10) + n mod 10)%N).
  { intros n.
    assert (D2 : (n / 10 / 10 = n / 100)%N) by (now rewrite N.Div0.div_div).
    assert (D3 : (n / 100 / 10 = n / 1000)%N) by (now rewrite N.Div0.div_div).
    assert (E1 := N.div_mod n 10). assert (E2 := N.div_mod (n / 10) 10).
    assert (E3 := N.div_mod (n / 100) 10).
    rewrite D2 in E2. rewrite D3 in E3. lia. }
  rewrite (Hdec a), (Hdec b). congruence.
Qed.

(** At the resolution of one second the stamp determines the time. *)
Lemma strftime_inj (d1 d2 : datetime) :
  valid_datetime d1 = true -> valid_datetime d2 = true ->
  strftime d1 = strftime d2 -> d1 = d2.
Proof.
  intros H1 H2 H.
  apply valid_datetime_bounds in H1, H2.
  destruct d1 as [y1 mo1 da1 h1 mi1 s1], d2 as [y2 mo2 da2 h2 mi2 s2].
  unfold strftime in H. simpl in H1, H2, H.
  assert (Hy : pad4 y1 = pad4 y2 /\
               pad2 mo1 = pad2 mo2 /\ pad2 da1 = pad2 da2 /\
               pad2 h1 = pad2 h2 /\ pad2 mi1 = pad2 mi2 /\ pad2 s1 = pad2 s2).
  { unfold pad4, pad2 in *. rewrite ?sapp_cons, ?sapp_nil_l in H.
    injection H. intros. repeat split; congruence. }
  destruct Hy as (Hy & Hmo & Hda & Hh & Hmi & Hs).
  apply pad4_inj in Hy; [|lia..].
  apply pad2_inj in Hmo, Hda, Hh, Hmi, Hs; [|lia..].
  congruence.
Qed.

End Timestamps.

(** ** Symbolic execution *)

Ltac run :=
  repeat (unfold bind, print, exists_, st_size, mkdir_exist_ok, write_text, read_text,
            unlink, copy2, ret, raise, lift, when, try_except, set_fs;
          cbn [fs stdout written negb andb orb fst snd]).

(** The same, keeping the calls that change the file system folded. *)
Ltac steps :=
  repeat (unfold bind, print, exists_, st_size, read_text, ret, raise, lift, when,
            try_except, set_fs;
          cbn [fs stdout written negb andb orb fst snd]).

Ltac lookups :=
  repeat match goal with
         | H : ?f !! ?p = _ |- context [?f !! ?p] => rewrite H
         end.

Ltac exec := repeat (progress (run; lookups)).

Ltac normalize_out := rewrite <- ?List.app_assoc; cbn [List.app].

(** ** Footprint rules *)

Section Footprints.

Context {touch : string -> Prop} {say : msg -> Prop}.

Lemma effects_skip {A} (o : outcome A) : effects (lift o) touch say.
Proof.
  intros w. run. split; [reflexivity|].
  split; exists []; now rewrite List.app_nil_r.
Qed.

Lemma effects_ret {A} (a : A) : effects (ret a) touch say.
Proof. apply (effects_skip (Return a)). Qed.

Lemma effects_raise {A} (e : exn) : effects (@raise A e) touch say.
Proof. apply (effects_skip (Raise e)). Qed.

Lemma effects_bind {A B} (m : M A) (k : A -> M B) :
  effects m touch say -> (forall a, effects (k a) touch say) ->
  effects (bind m k) touch say.
Proof.
  intros Hm Hk w. unfold bind.
  destruct (Hm w) as (Hfs & (l & Hl & Hlt) & (o & Ho & Hos)).
  destruct (m w) as [[a|e] w1]; cbn [snd] in *.
  - destruct (Hk a w1) as (Hfs' & (l' & Hl' & Hlt') & (o' & Ho' & Hos')).
    split; [|split].
    + intros p Hp. now rewrite Hfs', Hfs.
    + exists (l ++ l')%list. rewrite Hl', Hl, List.app_assoc. split; [reflexivity|].
      apply Forall_app; auto.
    + exists (o ++ o')%list. rewrite Ho', Ho, List.app_assoc. split; [reflexivity|].
      apply Forall_app; auto.
  - split; [assumption|]. split; eauto.
Qed.

Lemma effects_try {A} (body handler : M A) :
  effects body touch say -> effects handler touch say ->
  effects (try_except body handler) touch say.
Proof.
  intros Hb Hh w. unfold try_except.
  destruct (Hb w) as (Hfs & (l & Hl & Hlt) & (o & Ho & Hos)).
  destruct (body w) as [[a|e] w1]; cbn [snd] in *.
  - split; [assumption|]. split; eauto.
  - destruct (Hh w1) as (Hfs' & (l' & Hl' & Hlt') & (o' & Ho' & Hos')).
    split; [|split].
    + intros p Hp. now rewrite Hfs', Hfs.
    + exists (l ++ l')%list. rewrite Hl', Hl, List.app_assoc. split; [reflexivity|].
      apply Forall_app; auto.
    + exists (o ++ o')%list. rewrite Ho', Ho, List.app_assoc. split; [reflexivity|].
      apply Forall_app; auto.
Qed.

Lemma effects_when (b : bool) (m : M unit) :
  effects m touch say -> effects (when b m) touch say.
Proof. destruct b; [trivial | intros _; apply effects_ret]. Qed.

Lemma effects_print (m : msg) : say m -> effects (print m) touch say.
Proof.
  intros Hm w. run. split; [reflexivity|]. split.
  - exists []. now rewrite List.app_nil_r.
  - exists [m]. split; [reflexivity | now constructor].
Qed.

Lemma effects_exists (p : string) : effects (exists_ p) touch say.
Proof.
  intros w. run. split; [reflexivity|].
  split; exists []; now rewrite List.app_nil_r.
Qed.

Lemma effects_st_size (p : string) : effects (st_size p) touch say.
Proof.
  intros w. run. destruct (fs w !! p) as [[]|]; cbn [snd];
    (split; [reflexivity|]; split; exists []; now rewrite List.app_nil_r).
Qed.

Lemma effects_read_text (p : string) : effects (read_text p) touch say.
Proof.
  intros w. run. destruct (fs w !! p) as [[]|]; cbn [snd];
    (split; [reflexivity|]; split; exists []; now rewrite List.app_nil_r).
Qed.

Lemma effects_mkdir (p : string) : touch p -> effects (mkdir_exist_ok p) touch say.
Proof.
  intros Hp w. run.
  destruct (fs w !! p) as [[]|]; [| |destruct (open_w (fs w) p)]; cbn [snd fs stdout written];
    (split; [|split; exists []; now rewrite List.app_nil_r]); try reflexivity.
  intros q Hq. apply lookup_insert_ne. congruence.
Qed.

Lemma effects_write_text (p text : string) :
  touch p -> effects (write_text p text) touch say.
Proof.
  intros Hp w. run. destruct (open_w (fs w) p); cbn [snd fs stdout written].
  - split; [reflexivity|]. split; exists []; now rewrite List.app_nil_r.
  - split; [|split].
    + intros q Hq. apply lookup_insert_ne. congruence.
    + exists [p]. split; [reflexivity | now constructor].
    + exists []. now rewrite List.app_nil_r.
Qed.

Lemma effects_unlink (p : string) : touch p -> effects (unlink p) touch say.
Proof.
  intros Hp w. run.
  destruct (fs w !! p) as [[]|]; cbn [snd fs stdout written];
    (split; [|split; exists []; now rewrite List.app_nil_r]); try reflexivity.
  intros q Hq. apply lookup_delete_ne. congruence.
Qed.

Lemma effects_copy2 (src dst : string) :
  touch dst -> touch (path_join dst (basename src)) ->
  effects (copy2 src dst) touch say.
Proof.
  intros Hd Hd' w. unfold copy2.
  set (dst' := match fs w !! dst with Some Dir => _ | _ => dst end).
  assert (Ht : touch dst').
  { subst dst'. destruct (fs w !! dst) as [[]|]; assumption. }
  destruct (fs w !! src) as [n|].
  - destruct (String.eqb src dst').
    + apply (effects_raise SameFileError w).
    + destruct n.
      * apply (effects_write_text dst' data Ht w).
      * apply (effects_raise IsADirectoryError w).
  - apply (effects_raise FileNotFoundError w).
Qed.

End Footprints.

Lemma effects_mono {A} (m : M A) (touch touch' : string -> Prop) (say say' : msg -> Prop) :
  (forall p, touch p -> touch' p) -> (forall x, say x -> say' x) ->
  effects m touch say -> effects m touch' say'.
Proof.
  intros Ht Hs Hm w. destruct (Hm w) as (Hfs & (l & Hl & Hlt) & (o & Ho & Hos)).
  split; [|split].
  - intros p Hp. apply Hfs. auto.
  - exists l. split; [assumption|]. eapply Forall_impl; eauto.
  - exists o. split; [assumption|]. eapply Forall_impl; eauto.
Qed.

(** ** Totality rules *)

Lemma total_bind {A B} (m : M A) (k : A -> M B) :
  total m -> (forall a, total (k a)) -> total (bind m k).
Proof.
  intros Hm Hk w. unfold bind. destruct (Hm w) as [a Ha].
  destruct (m w) as [[a'|e] w1]; cbn [fst] in Ha; [|discriminate].
  apply Hk.
Qed.

Lemma total_print (m : msg) : total (print m).
Proof. intros w. now exists tt. Qed.

Lemma total_ret {A} (a : A) : total (ret a).
Proof. intros w. now exists a. Qed.

Lemma total_exists (p : string) : total (exists_ p).
Proof. intros w. unfold exists_. eauto. Qed.

Lemma total_try {A} (body handler : M A) : total handler -> total (try_except body handler).
Proof.
  intros Hh w. unfold try_except. destruct (body w) as [[a|e] w1]; [now exists a | apply Hh].
Qed.

Lemma total_when (b : bool) (m : M unit) : total m -> total (when b m).
Proof. destruct b; [trivial | intros _; apply total_ret]. Qed.

(** ** The size analyzer *)

Lemma string_of_length (n : nat) : exists data : string, String.length data = n.
Proof.
  induction n as [|n [data IH]].
  - now exists "".
  - exists (String "000" data). simpl. now rewrite IH.
Qed.

(** ** Rounding to hundredths *)

Section Rounding.

(** The rounded quotient is within half a unit of the exact one. *)
Lemma round_half_even_near (n d : Z) :
  0 < d -> 2 * Z.abs (n - d * round_half_even n d) <= d.
Proof.
  intros Hd. unfold round_half_even.
  pose proof (Z.div_mod n d ltac:(lia)) as E.
  pose proof (Z.mod_pos_bound n d Hd) as B.
  destruct (Z.ltb_spec (2 * (n mod d)) d); [lia|].
  destruct (Z.ltb_spec d (2 * (n mod d))); [lia|].
  destruct (Z.even (n / d)); lia.
Qed.

(** A tie goes to the even neighbour. *)
Lemma round_half_even_tie (n d : Z) :
  0 < d -> 2 * Z.abs (n - d * round_half_even n d) = d ->
  Z.even (round_half_even n d) = true.
Proof.
  intros Hd. unfold round_half_even.
  pose proof (Z.div_mod n d ltac:(lia)) as E.
  pose proof (Z.mod_pos_bound n d Hd) as B.
  destruct (Z.ltb_spec (2 * (n mod d)) d); [lia|].
  destruct (Z.ltb_spec d (2 * (n mod d))); [lia|].
  destruct (Z.even (n / d)) eqn:Hq; intros _; [assumption|].
  change (n / d + 1) with (Z.succ (n / d)).
  now rewrite Z.even_succ, <- Z.negb_even, Hq.
Qed.

Lemma round_half_even_range (n d k : Z) :
  0 < d -> 0 <= n <= k * d -> 0 <= round_half_even n d <= k.
Proof.
  intros Hd Hn. pose proof (round_half_even_near n d Hd) as H.
  set (h := round_half_even n d) in *. split.
  - destruct (Z.le_gt_cases 0 h) as [|Hneg]; [assumption|].
    assert (d * h <= - d) by nia. lia.
  - destruct (Z.le_gt_cases h k) as [|Hbig]; [assumption|].
    assert (d * (k + 1) <= d * h) by nia. lia.
Qed.

End Rounding.

(** The analyzer on a binary that is there: one line for the size, then
    the warning or the remaining space. *)
Lemma analyze_run (e : pio_env) (w : world) (data : string) :
  fs w !! path_join (BUILD_DIR e) "firmware.bin" = Some (File data) ->
  let S := Z.of_nat (String.length data) in
  analyze_firmware_size (Some e) w =
    (Return tt,
     {| fs := fs w;
        stdout := stdout w ++
                  [Analyzing; FirmwareSize S] ++
                  (if max_app_size <? S then [SizeExceeds; ConsiderOptimization]
                   else [RemainingSpace (format_2f (max_app_size - S) (1024 * 1024))]);
        written := written w |}).
Proof.
  intros Hbin S. unfold analyze_firmware_size. exec. fold S.
  destruct (max_app_size <? S); run; now normalize_out.
Qed.

(** C2, as amended.  For a firmware binary of [S] bytes and the threshold
    of [6 * 1024 * 1024] bytes: when [S] is at most the threshold the
    analyzer prints the size, no warning, and the remaining space
    [threshold - S] as a number [h] of hundredths of a mebibyte, the
    nearest one (a tie going to the even one), so that the line fixes the
    remaining space to within half a hundredth of a mebibyte and not to
    the byte; when [S] exceeds the threshold it prints the warning and no
    remaining space. *)
Theorem analyze_reports_headroom (e : pio_env) (w : world) (data : string) :
  fs w !! path_join (BUILD_DIR e) "firmware.bin" = Some (File data) ->
  let S := Z.of_nat (String.length data) in
  max_app_size = 6 * 1024 * 1024 /\
  (S <= max_app_size ->
   exists h : Z,
     (analyze_firmware_size (Some e) w =
        (Return tt,
         {| fs := fs w;
            stdout := stdout w ++
                      [Analyzing; FirmwareSize S;
                       RemainingSpace (decimal (Z.to_N (h / 100)) ++ "." ++
                                       pad2 (Z.to_N (h mod 100)))];
            written := written w |})) /\
     (0 <= h /\ h <= 600) /\
     (2 * Z.abs (100 * (max_app_size - S) - 1024 * 1024 * h) <= 1024 * 1024) /\
     (2 * Z.abs (100 * (max_app_size - S) - 1024 * 1024 * h) = 1024 * 1024 ->
      Z.even h = true)) /\
  (S > max_app_size ->
   analyze_firmware_size (Some e) w =
     (Return tt,
      {| fs := fs w;
         stdout := stdout w ++
                   [Analyzing; FirmwareSize S; SizeExceeds; ConsiderOptimization];
         written := written w |})).
Proof.
  intros Hbin S. split; [reflexivity|].
  rewrite (analyze_run e w data Hbin). fold S.
  split; intros HS.
  - exists (round_half_even (100 * (max_app_size - S)) (1024 * 1024)).
    split; [|split; [|split]].
    + destruct (Z.ltb_spec max_app_size S) as [Hlt|_]; [lia | reflexivity].
    + apply round_half_even_range; [lia|]. unfold max_app_size in *. lia.
    + apply round_half_even_near. lia.
    + apply round_half_even_tie. lia.
  - destruct (Z.ltb_spec max_app_size S) as [_|Hle]; [reflexivity | lia].
Qed.

Lemma analyze_reports_headroom_witness :
  exists h : Z,
    (analyze_firmware_size (Some Sample.release_env) (Sample.fresh Sample.release_fs) =
       (Return tt,
        {| fs := Sample.release_fs;
           stdout := [Analyzing; FirmwareSize 12;
                      RemainingSpace (decimal (Z.to_N (h / 100)) ++ "." ++
                                      pad2 (Z.to_N (h mod 100)))];
           written := [] |})) /\
    (0 <= h /\ h <= 600) /\
    (2 * Z.abs (100 * (max_app_size - 12) - 1024 * 1024 * h) <= 1024 * 1024) /\
    (2 * Z.abs (100 * (max_app_size - 12) - 1024 * 1024 * h) = 1024 * 1024 ->
     Z.even h = true).
Proof.
  apply (analyze_reports_headroom Sample.release_env (Sample.fresh Sample.release_fs)
           "BINARY IMAGE").
  - reflexivity.
  - vm_compute. discriminate.
Defined.

(** C2, the claim as stated fails on the console: the line of the
    remaining space shows two decimals of a mebibyte, so an empty binary
    and a binary of one byte, whose remaining spaces differ, give the same
    figure. *)
Lemma remaining_space_line_is_rounded :
  stdout (snd (analyze_firmware_size (Some Sample.release_env)
                 (Sample.fresh (<[".pio/build/t-deck-release/firmware.bin" := File ""]>
                                  Sample.release_fs)))) =
    [Analyzing; FirmwareSize 0; RemainingSpace "6.00"] /\
  stdout (snd (analyze_firmware_size (Some Sample.release_env)
                 (Sample.fresh (<[".pio/build/t-deck-release/firmware.bin" := File "B"]>
                                  Sample.release_fs)))) =
    [Analyzing; FirmwareSize 1; RemainingSpace "6.00"] /\
  max_app_size - 0 = 6291456 /\ max_app_size - 1 = 6291455.
Proof. repeat split; reflexivity. Qed.

(** The overflow branch is inhabited: binaries above the threshold exist,
    and the analyzer warns about each of them. *)
Lemma analyze_warns_oversize (e : pio_env) (f : gmap string node) :
  exists data,
    Z.of_nat (String.length data) > max_app_size /\
    stdout (snd (analyze_firmware_size (Some e)
                   (Sample.fresh (<[path_join (BUILD_DIR e) "firmware.bin" := File data]> f)))) =
      [Analyzing; FirmwareSize (Z.of_nat (String.length data));
       SizeExceeds; ConsiderOptimization].
Proof.
  destruct (string_of_length (Z.to_nat (max_app_size + 1))) as [data Hlen].
  assert (Hbig : max_app_size < Z.of_nat (String.length data)).
  { rewrite Hlen, Z2Nat.id; unfold max_app_size; lia. }
  exists data. split; [lia|].
  rewrite (analyze_run e _ data) by apply lookup_insert_eq.
  apply Z.ltb_lt in Hbig. now rewrite Hbig.
Qed.

(** ** The OTA gate *)

(** C5.  When the environment name contains neither [release] nor [ota],
    the OTA packager prints its notice and leaves the file system as it
    was: nothing is created under the OTA directory and nothing is
    written. *)
Theorem ota_skipped_outside_release (e : pio_env) (now : datetime) (w : world) :
  str_in "release" (get (PIOENV e) "unknown") = false ->
  str_in "ota" (get (PIOENV e) "unknown") = false ->
  create_ota_package (Some e) now w =
    (Return tt,
     {| fs := fs w;
        stdout := stdout w ++ [CreatingOta; SkipOtaNotRelease];
        written := written w |}).
Proof.
  intros Hr Ho. unfold create_ota_package. run. rewrite Hr, Ho. run.
  now normalize_out.
Qed.

Lemma ota_skipped_outside_release_witness :
  create_ota_package (Some Sample.debug_env) Sample.noon (Sample.fresh Sample.debug_fs) =
    (Return tt,
     {| fs := Sample.debug_fs;
        stdout := [CreatingOta; SkipOtaNotRelease];
        written := [] |}).
Proof.
  apply (ota_skipped_outside_release Sample.debug_env Sample.noon
           (Sample.fresh Sample.debug_fs)); reflexivity.
Defined.

Lemma ota_dir_top : dirname ota_dir = None.
Proof. reflexivity. Qed.

Lemma gate_open (name : string) :
  str_in "release" name || str_in "ota" name = true ->
  negb (str_in "release" name) && negb (str_in "ota" name) = false.
Proof. intros H. now rewrite <- negb_orb, H. Qed.

(** C9.  In a release or OTA build whose firmware binary is absent, the
    packager has created the missing [ota_packages] directory by the time
    it gives up: the run returns with the error printed, no file written,
    and the file system larger by that empty directory. *)
Theorem ota_abort_leaves_directory (e : pio_env) (now : datetime) (w : world) :
  str_in "release" (get (PIOENV e) "unknown") ||
    str_in "ota" (get (PIOENV e) "unknown") = true ->
  fs w !! path_join (BUILD_DIR e) "firmware.bin" = None ->
  fs w !! ota_dir = None ->
  create_ota_package (Some e) now w =
    (Return tt,
     {| fs := <[ota_dir := Dir]> (fs w);
        stdout := stdout w ++ [CreatingOta; OtaFirmwareNotFound];
        written := written w |}).
Proof.
  intros Hg Hbin Hota. unfold create_ota_package. run.
  rewrite (gate_open _ Hg). run.
  exec. unfold open_w. rewrite Hota, ota_dir_top. exec.
  rewrite lookup_insert_ne by (now apply top_ne_join). exec.
  now normalize_out.
Qed.

Lemma ota_abort_leaves_directory_witness :
  create_ota_package (Some Sample.release_env) Sample.noon
      (Sample.fresh Sample.no_binary_fs) =
    (Return tt,
     {| fs := <[ota_dir := Dir]> Sample.no_binary_fs;
        stdout := [CreatingOta; OtaFirmwareNotFound];
        written := [] |}).
Proof.
  apply (ota_abort_leaves_directory Sample.release_env Sample.noon
           (Sample.fresh Sample.no_binary_fs)); reflexivity.
Defined.

(** ** Cleanup *)

(** C8.  Cleanup does not consult the build context: it removes the
    generated header whenever it is there, and a run of the whole script
    without an environment ([env] is [None]) still deletes it. *)
Theorem cleanup_ignores_env (t1 t2 : datetime) (w : world) (text : string) :
  fs w !! build_info_path = Some (File text) ->
  cleanup_build_files w =
    (Return tt,
     {| fs := delete build_info_path (fs w);
        stdout := stdout w ++ [CleaningUp; CleanedUp];
        written := written w |}) /\
  main None t1 t2 w =
    (Return tt,
     {| fs := delete build_info_path (fs w);
        stdout := stdout w ++
          [Rule; Title; Rule; Rule; Analyzing; SkipSizeAnalysis;
           Generating; SkipArtifacts; CreatingOta; SkipOtaNoEnv;
           CleaningUp; CleanedUp] ++ banner;
        written := written w |}).
Proof.
  intros Hh. split.
  - unfold cleanup_build_files. exec. now normalize_out.
  - unfold main, print_build_summary, analyze_firmware_size, generate_build_artifacts,
      create_ota_package, cleanup_build_files, print_build_success. run.
    exec. now normalize_out.
Qed.

Lemma cleanup_ignores_env_witness :
  fs (snd (main None Sample.noon Sample.noon (Sample.fresh Sample.release_fs)))
    !! build_info_path = None.
Proof.
  destruct (cleanup_ignores_env Sample.noon Sample.noon (Sample.fresh Sample.release_fs)
              Sample.header_text) as [_ Hmain].
  - reflexivity.
  - rewrite Hmain. apply lookup_delete_eq.
Defined.

(** ** The version line *)

Section VersionLine.

Lemma quote_free_cons (x : ascii) (s : string) :
  quote_free (String x s) = negb (Ascii.eqb x DQUOTE) && quote_free s.
Proof. unfold quote_free. now rewrite str_in_char, negb_orb. Qed.

Lemma split_length (c : ascii) (s : string) : (1 <= length (split c s))%nat.
Proof.
  pose proof (split_not_nil c s). destruct (split c s); [congruence | simpl; lia].
Qed.

(** The first piece of a split runs up to the first separator. *)
Lemma split_head (s : string) :
  exists v rest tail,
    split DQUOTE s = v :: rest /\ s = v ++ tail /\ quote_free v = true /\
    (tail = "" \/ exists b, tail = String DQUOTE b).
Proof.
  induction s as [|c s (v & rest & tail & Hs & Hv & Hq & Ht)].
  - exists "", [], "". repeat split; auto.
  - simpl. destruct (Ascii.eqb_spec c DQUOTE) as [->|Hc].
    + exists "", (split DQUOTE s), (String DQUOTE s). repeat split; eauto.
    + rewrite Hs. exists (String c v), rest, tail. repeat split.
      * now rewrite sapp_cons, <- Hv.
      * rewrite quote_free_cons, Hq. apply Ascii.eqb_neq in Hc. now rewrite Hc.
      * assumption.
Qed.

(** [line.split(quote)[1]] exists as soon as the line holds a quote, and
    is the text behind the first one. *)
Lemma split_second (line : string) :
  str_in (String DQUOTE "") line = true ->
  exists v, nth_error (split DQUOTE line) 1 = Some v /\ after_first_quote line v.
Proof.
  induction line as [|c line IH]; [discriminate|].
  rewrite str_in_char. simpl. destruct (Ascii.eqb_spec c DQUOTE) as [->|Hc].
  - intros _. destruct (split_head line) as (v & rest & tail & Hs & Hv & Hq & Ht).
    exists v. rewrite Hs. split; [reflexivity|].
    exists "", tail. rewrite sapp_nil_l, <- Hv. auto.
  - simpl. intros Hin. destruct (IH Hin) as (v & Hnth & a & tail & Hl & Ha & Hv & Ht).
    exists v. split.
    + pose proof (split_not_nil DQUOTE line).
      destruct (split DQUOTE line); [congruence | exact Hnth].
    + exists (String c a), tail. rewrite sapp_cons, <- Hl. repeat split; auto.
      rewrite quote_free_cons, Ha. apply Ascii.eqb_neq in Hc. now rewrite Hc.
Qed.

Lemma version_line_quote (line : string) :
  version_line line = true -> str_in (String DQUOTE "") line = true.
Proof. unfold version_line. now intros [_ H]%andb_true_iff. Qed.

Lemma scan_version_spec (dflt : string) (lines : list string) :
  match find version_line lines with
  | Some line => exists v, scan_version dflt lines = Return v /\ after_first_quote line v
  | None => scan_version dflt lines = Return dflt
  end.
Proof.
  induction lines as [|line lines IH]; [reflexivity|].
  simpl. destruct (version_line line) eqn:Hline; [|exact IH].
  destruct (split_second line (version_line_quote _ Hline)) as (v & Hnth & Hv).
  exists v. simpl in Hnth. now rewrite Hnth.
Qed.

Lemma scan_version_returns (dflt : string) (lines : list string) :
  exists v, scan_version dflt lines = Return v.
Proof.
  pose proof (scan_version_spec dflt lines) as H.
  destruct (find version_line lines); [destruct H as (v & Hv & _)|]; eauto.
Qed.

Lemma scan_version_silent (dflt : string) (lines : list string) :
  forallb (fun line => negb (version_line line)) lines = true ->
  scan_version dflt lines = Return dflt.
Proof.
  induction lines as [|line lines IH]; [reflexivity|].
  simpl. intros [Hl Hr]%andb_true_iff. apply negb_true_iff in Hl. rewrite Hl. auto.
Qed.

(** Lines 134-145 never raise and leave the state alone; the version they
    produce is a function of the header. *)
Lemma read_version_run (w : world) : read_version w = (Return (header_version (fs w)), w).
Proof.
  unfold read_version, header_version, version_of_text.
  destruct (fs w !! build_info_path) as [[data|]|] eqn:Hh; exec; try reflexivity.
  destruct (scan_version_returns DEFAULT_VERSION (split LF (universal_newlines data)))
    as [v Hv].
  now rewrite Hv.
Qed.

Lemma header_silent_default (f : gmap string node) :
  header_silent f = true -> header_version f = DEFAULT_VERSION.
Proof.
  unfold header_silent, header_version, version_of_text.
  destruct (f !! build_info_path) as [[data|]|]; try reflexivity.
  intros H. now rewrite (scan_version_silent _ _ H).
Qed.

End VersionLine.

(** C10, as amended.  For every text of the header the extraction is a
    total function and the scan never raises.  It takes the first line
    that contains both [BUILD_VERSION] and a double quote and returns what
    follows the first double quote of that line, up to the second double
    quote or, when the line has no second one, up to the end of the line;
    without such a line the version stays [1.0.0]. *)
Theorem version_extraction (content : string) (w : world) :
  (exists v, scan_version DEFAULT_VERSION (split LF content) = Return v /\
             version_of_text content = v) /\
  match find version_line (split LF content) with
  | Some line => after_first_quote line (version_of_text content)
  | None => version_of_text content = DEFAULT_VERSION
  end /\
  read_version w = (Return (header_version (fs w)), w).
Proof.
  split; [|split].
  - destruct (scan_version_returns DEFAULT_VERSION (split LF content)) as [v Hv].
    exists v. unfold version_of_text. now rewrite Hv.
  - pose proof (scan_version_spec DEFAULT_VERSION (split LF content)) as H.
    unfold version_of_text.
    destruct (find version_line (split LF content)).
    + destruct H as (v & -> & Hv). exact Hv.
    + now rewrite H.
  - apply read_version_run.
Qed.

(** C10, the claim as stated fails: a version line with a single double
    quote is taken, its version is the rest of the line, and no text of
    it stands between a first and a second double quote. *)
Lemma open_quote_line_has_no_closing_quote :
  find version_line (split LF Sample.open_quote_line) = Some Sample.open_quote_line /\
  version_of_text Sample.open_quote_line = "1.2.3" /\
  forall v, ~ between_first_quotes Sample.open_quote_line v.
Proof.
  split; [reflexivity|]. split; [reflexivity|].
  intros v (a & b & H & _).
  assert (Hl : length (split DQUOTE Sample.open_quote_line) = 2%nat) by reflexivity.
  rewrite H, !split_app, !length_app in Hl.
  pose proof (split_length DQUOTE a). pose proof (split_length DQUOTE v).
  pose proof (split_length DQUOTE b). lia.
Qed.

(** ** Running the primitives *)

Section Primitives.

Lemma mkdir_run (p : string) (w : world) :
  is_file (fs w) p = false -> dirname p = None ->
  mkdir_exist_ok p w = (Return tt, set_fs (<[p := Dir]> (fs w)) w).
Proof.
  unfold is_file, mkdir_exist_ok, open_w. intros Hf Hp.
  destruct (fs w !! p) as [[data|]|] eqn:Hl; [discriminate| |].
  - rewrite insert_id by assumption. now destruct w.
  - now rewrite Hp.
Qed.

Lemma open_w_ok (f : gmap string node) (p d : string) :
  is_dir f p = false -> dirname p = Some d -> f !! d = Some Dir ->
  open_w f p = None.
Proof.
  unfold is_dir, open_w. intros Hp Hd Hdir.
  destruct (f !! p) as [[data|]|]; [reflexivity | discriminate |].
  now rewrite Hd, Hdir.
Qed.

Lemma is_dir_insert_ne (f : gmap string node) (p q : string) (n : node) :
  p <> q -> is_dir (<[p := n]> f) q = is_dir f q.
Proof. intros H. unfold is_dir. now rewrite lookup_insert_ne. Qed.

(** Copying a regular file to a free or regular name inside a directory. *)
Lemma copy2_run (src dst d data : string) (w : world) :
  fs w !! src = Some (File data) ->
  is_dir (fs w) dst = false -> src <> dst ->
  dirname dst = Some d -> fs w !! d = Some Dir ->
  copy2 src dst w =
    (Return tt,
     {| fs := <[dst := File data]> (fs w); stdout := stdout w;
        written := written w ++ [dst] |}).
Proof.
  intros Hsrc Hdst Hne Hd Hdir. unfold copy2.
  assert (Ht : match fs w !! dst with
               | Some Dir => path_join dst (basename src)
               | _ => dst
               end = dst).
  { unfold is_dir in Hdst. destruct (fs w !! dst) as [[]|]; congruence. }
  rewrite Ht, Hsrc. apply String.eqb_neq in Hne. rewrite Hne.
  unfold write_text. now rewrite (open_w_ok _ _ _ Hdst Hd Hdir).
Qed.

Lemma write_text_run (p d text : string) (w : world) :
  is_dir (fs w) p = false -> dirname p = Some d -> fs w !! d = Some Dir ->
  write_text p text w =
    (Return tt,
     {| fs := <[p := File text]> (fs w); stdout := stdout w;
        written := written w ++ [p] |}).
Proof. intros Hp Hd Hdir. unfold write_text. now rewrite (open_w_ok _ _ _ Hp Hd Hdir). Qed.

Lemma mkdir_inv (p : string) (w w1 : world) :
  mkdir_exist_ok p w = (Return tt, w1) ->
  fs w1 = fs w \/ fs w1 = <[p := Dir]> (fs w).
Proof.
  unfold mkdir_exist_ok.
  destruct (fs w !! p) as [[?|]|]; [discriminate | intros [= <-]; now left |].
  destruct (open_w (fs w) p); [discriminate | intros [= <-]; now right].
Qed.

Lemma write_text_inv (p text : string) (w w1 : world) :
  write_text p text w = (Return tt, w1) -> fs w1 = <[p := File text]> (fs w).
Proof.
  unfold write_text. destruct (open_w (fs w) p); [discriminate | now intros [= <-]].
Qed.

Lemma copy2_inv (src dst : string) (w w1 : world) :
  copy2 src dst w = (Return tt, w1) ->
  exists data dst',
    fs w !! src = Some (File data) /\ src <> dst' /\
    fs w1 = <[dst' := File data]> (fs w).
Proof.
  unfold copy2.
  set (dst' := match fs w !! dst with Some Dir => _ | _ => dst end).
  destruct (fs w !! src) as [[data|]|]; [| |discriminate].
  - destruct (String.eqb_spec src dst') as [|Hne]; [discriminate|].
    intros H%write_text_inv. now exists data, dst'.
  - destruct (String.eqb src dst'); discriminate.
Qed.

End Primitives.

(** ** Names of the script *)

(** Disequations of names that are at hand or hold by the shape of the
    names. *)
Ltac ne :=
  first [ assumption
        | apply not_eq_sym; assumption
        | apply top_ne_join; reflexivity
        | apply not_eq_sym, top_ne_join; reflexivity
        | apply path_join_ne_dir
        | apply not_eq_sym, path_join_ne_dir
        | discriminate ].

(** Symbolic execution through the lookups of updated file systems. *)
Ltac go :=
  repeat (progress (steps; rewrite ?lookup_insert_eq;
                    rewrite ?lookup_insert_ne by ne; lookups)).

(** Decides a disequation of names by their first characters. *)
Ltac differ H := exfalso; cbv in H; discriminate H.

(** Decides a disequation of names by their lengths. *)
Ltac by_length H :=
  exfalso; apply (f_equal String.length) in H;
  unfold firmware_dst, elf_dst, map_dst, path_join in H;
  repeat rewrite slength_app in H; rewrite ?strftime_length in H;
  simpl in H; lia.

Section Names.

Lemma ota_package_name_no_slash (v : string) (now : datetime) :
  no_slash v = true -> valid_datetime now = true ->
  no_slash (ota_package_name v (strftime now)) = true.
Proof.
  intros Hv Hn. unfold ota_package_name.
  now rewrite !no_slash_app, Hv, (strftime_no_slash _ Hn).
Qed.

Lemma version_file_name_no_slash (v : string) (now : datetime) :
  no_slash v = true -> valid_datetime now = true ->
  no_slash ("version_v" ++ v ++ "_" ++ strftime now ++ ".json") = true.
Proof.
  intros Hv Hn. now rewrite !no_slash_app, Hv, (strftime_no_slash _ Hn).
Qed.

Lemma artifact_name_no_slash (name ext : string) :
  no_slash name = true -> no_slash ext = true ->
  no_slash ("t-deck-pro-os_" ++ name ++ ext) = true.
Proof. intros Hn He. now rewrite !no_slash_app, Hn, He. Qed.

Lemma header_ne_ota_dir : ota_dir <> build_info_path.
Proof. discriminate. Qed.

Lemma header_version_insert_ne (f : gmap string node) (p : string) (n : node) :
  p <> build_info_path -> header_version (<[p := n]> f) = header_version f.
Proof. intros H. unfold header_version. now rewrite lookup_insert_ne. Qed.

(** A build output is none of the names the OTA packager writes. *)
Lemma build_output_ne_ota_package (bd v ts : string) :
  no_slash (ota_package_name v ts) = true ->
  path_join bd "firmware.bin" <> ota_package v ts.
Proof.
  intros Hn H. apply path_join_inj in H as [_ H]; [differ H | reflexivity | assumption].
Qed.

Lemma ota_package_ne_version_file (v ts : string) :
  ota_package v ts <> version_file v ts.
Proof.
  unfold ota_package, version_file, path_join. intros H.
  do 2 apply String.app_inj in H. differ H.
Qed.

End Names.

(** ** The OTA packager *)

Section OtaPackager.

Variables (e : pio_env) (now : datetime) (w : world).

Let name := get (PIOENV e) "unknown".
Let src := path_join (BUILD_DIR e) "firmware.bin".
Let ts := strftime now.
Let v := header_version (fs w).

Hypothesis gate : str_in "release" name || str_in "ota" name = true.

(** With the binary in place, the directory free to be made, and the two
    target names usable, the packager writes the copy and the manifest. *)
Lemma ota_package_run (data : string) :
  fs w !! src = Some (File data) ->
  is_file (fs w) ota_dir = false ->
  no_slash v = true ->
  valid_datetime now = true ->
  is_dir (fs w) (ota_package v ts) = false ->
  is_dir (fs w) (version_file v ts) = false ->
  create_ota_package (Some e) now w =
    (Return tt,
     {| fs := <[version_file v ts :=
                  File (Json.dump {| version := v;
                                     timestamp := ts;
                                     environment := name;
                                     size := Z.of_nat (String.length data);
                                     filename := ota_package_name v ts |})]>
              (<[ota_package v ts := File data]> (<[ota_dir := Dir]> (fs w)));
        stdout := stdout w ++
                  [CreatingOta; OtaCreated (ota_package v ts);
                   VersionInfo (version_file v ts)];
        written := written w ++ [ota_package v ts; version_file v ts] |}).
Proof.
  intros Hsrc Hota Hv Hnow Hpkg Hvf.
  assert (Hn1 := ota_package_name_no_slash v now Hv Hnow).
  assert (Hn2 := version_file_name_no_slash v now Hv Hnow).
  assert (Hsrc_ota : ota_dir <> src) by (now apply top_ne_join).
  assert (Hsrc_pkg : src <> ota_package v ts) by (now apply build_output_ne_ota_package).
  unfold create_ota_package. fold name src. steps.
  rewrite (gate_open _ gate). steps.
  rewrite mkdir_run by (exact Hota || reflexivity). steps.
  rewrite lookup_insert_ne, Hsrc by assumption. steps.
  rewrite read_version_run. steps.
  rewrite (header_version_insert_ne _ _ _ header_ne_ota_dir). fold v ts.
  assert (Hbase : basename (ota_package v ts) = ota_package_name v ts)
    by (now apply basename_join).
  rewrite Hbase.
  erewrite (copy2_run src (ota_package v ts) ota_dir data); steps; first last.
  - apply lookup_insert_eq.
  - now apply dirname_join.
  - assumption.
  - rewrite is_dir_insert_ne; [assumption|]. intros H; symmetry in H.
    now apply path_join_ne_dir in H.
  - now rewrite lookup_insert_ne.
  - rewrite lookup_insert_ne by (intros H; now symmetry in H).
    rewrite lookup_insert_ne, Hsrc by assumption. steps.
    erewrite (write_text_run (version_file v ts) ota_dir); steps; first last.
    + rewrite lookup_insert_ne; [apply lookup_insert_eq|].
      apply path_join_ne_dir.
    + now apply dirname_join.
    + rewrite !is_dir_insert_ne; [assumption| |].
      * intros H; symmetry in H. now apply path_join_ne_dir in H.
      * apply ota_package_ne_version_file.
    + now normalize_out.
Qed.

(** A run that returns after finding a binary has written the manifest,
    with the version the header gives. *)
Lemma ota_manifest_inv (n : node) (w' : world) :
  fs w !! src = Some n ->
  create_ota_package (Some e) now w = (Return tt, w') ->
  exists data,
    n = File data /\
    fs w' !! version_file v ts =
      Some (File (Json.dump {| version := v;
                               timestamp := ts;
                               environment := name;
                               size := Z.of_nat (String.length data);
                               filename := basename (ota_package v ts) |})).
Proof.
  intros Hsrc.
  assert (Hsrc_ota : ota_dir <> src) by (now apply top_ne_join).
  unfold create_ota_package. fold name src. steps.
  rewrite (gate_open _ gate). steps.
  destruct (mkdir_exist_ok ota_dir _) as [[[]|ex] w1] eqn:Hmk; [|discriminate].
  assert (Hw1 : fs w1 !! src = Some n /\ header_version (fs w1) = v).
  { apply mkdir_inv in Hmk as [-> | ->]; cbn [fs]; [now split|].
    now rewrite lookup_insert_ne, header_version_insert_ne by (assumption || discriminate). }
  destruct Hw1 as [Hs Hver]. steps. rewrite Hs. steps.
  rewrite read_version_run. steps. rewrite Hver. fold ts.
  destruct (copy2 src _ w1) as [[[]|ex] w2] eqn:Hcp; [|discriminate].
  apply copy2_inv in Hcp as (data & dst' & Hdata & Hne & Hw2).
  assert (n = File data) as -> by congruence.
  steps. rewrite Hw2, lookup_insert_ne, Hs by congruence. steps.
  destruct (write_text _ _ _) as [[[]|ex] w3] eqn:Hwr; [|discriminate].
  apply write_text_inv in Hwr. cbn [fs] in Hwr.
  intros [= <-]. cbn [fs]. exists data. split; [reflexivity|].
  rewrite Hwr. apply lookup_insert_eq.
Qed.

End OtaPackager.

(** C3, as amended.  In a release build whose firmware binary is a regular
    file, with [ota_packages] absent or a directory, a version without a
    slash and both target names free or regular files, the packager
    returns having written two files and no more: the copy of the binary
    and the manifest.  One reading of the clock gives the stamp in both
    file names and in the manifest's [timestamp] field. *)
Theorem release_package_written
    (e : pio_env) (now : datetime) (w : world) (data : string) :
  str_in "release" (get (PIOENV e) "unknown") = true ->
  fs w !! path_join (BUILD_DIR e) "firmware.bin" = Some (File data) ->
  is_file (fs w) ota_dir = false ->
  no_slash (header_version (fs w)) = true ->
  valid_datetime now = true ->
  is_dir (fs w) (ota_package (header_version (fs w)) (strftime now)) = false ->
  is_dir (fs w) (version_file (header_version (fs w)) (strftime now)) = false ->
  let v := header_version (fs w) in
  let ts := strftime now in
  create_ota_package (Some e) now w =
    (Return tt,
     {| fs := <[version_file v ts :=
                  File (Json.dump {| version := v;
                                     timestamp := ts;
                                     environment := get (PIOENV e) "unknown";
                                     size := Z.of_nat (String.length data);
                                     filename := ota_package_name v ts |})]>
              (<[ota_package v ts := File data]> (<[ota_dir := Dir]> (fs w)));
        stdout := stdout w ++
                  [CreatingOta; OtaCreated (ota_package v ts);
                   VersionInfo (version_file v ts)];
        written := written w ++ [ota_package v ts; version_file v ts] |}).
Proof.
  intros Hrel Hsrc Hota Hv Hnow Hpkg Hvf v ts.
  apply ota_package_run; try assumption. now rewrite Hrel.
Qed.

Lemma release_package_written_witness :
  written (snd (create_ota_package (Some Sample.release_env) Sample.noon
                  (Sample.fresh Sample.release_fs))) =
    ["ota_packages/t-deck-pro-os_v2.1.0_20250714_120000.bin";
     "ota_packages/version_v2.1.0_20250714_120000.json"].
Proof.
  rewrite (release_package_written Sample.release_env Sample.noon
             (Sample.fresh Sample.release_fs) "BINARY IMAGE");
    reflexivity.
Defined.

(** C3, the claim as stated fails: a release build without the binary
    passes the gate, and the packager writes no file at all. *)
Lemma release_without_binary_writes_nothing :
  str_in "release" (get (PIOENV Sample.release_env) "unknown") = true /\
  create_ota_package (Some Sample.release_env) Sample.noon
      (Sample.fresh Sample.no_binary_fs) =
    (Return tt,
     {| fs := <[ota_dir := Dir]> Sample.no_binary_fs;
        stdout := [CreatingOta; OtaFirmwareNotFound];
        written := [] |}).
Proof. split; reflexivity. Qed.

(** C6, as amended.  In every packaging run that finds the binary and
    returns, when the version header is absent, unreadable or without a
    line that holds both the marker and a double quote, the manifest
    written carries the version [1.0.0]. *)
Theorem manifest_default_version
    (e : pio_env) (now : datetime) (w w' : world) (n : node) :
  str_in "release" (get (PIOENV e) "unknown") ||
    str_in "ota" (get (PIOENV e) "unknown") = true ->
  fs w !! path_join (BUILD_DIR e) "firmware.bin" = Some n ->
  header_silent (fs w) = true ->
  create_ota_package (Some e) now w = (Return tt, w') ->
  header_version (fs w) = "1.0.0" /\
  exists data,
    n = File data /\
    fs w' !! version_file "1.0.0" (strftime now) =
      Some (File (Json.dump {| version := "1.0.0";
                               timestamp := strftime now;
                               environment := get (PIOENV e) "unknown";
                               size := Z.of_nat (String.length data);
                               filename := basename (ota_package "1.0.0" (strftime now)) |})).
Proof.
  intros Hgate Hsrc Hsilent Hrun.
  pose proof (header_silent_default _ Hsilent) as Hv.
  split; [exact Hv|].
  destruct (ota_manifest_inv e now w Hgate n w' Hsrc Hrun) as (data & Hn & Hm).
  exists data. split; [assumption|]. now rewrite Hv in Hm.
Qed.

Lemma manifest_default_version_witness :
  header_version Sample.no_header_fs = "1.0.0" /\
  exists data,
    File "BINARY IMAGE" = File data /\
    fs (snd (create_ota_package (Some Sample.release_env) Sample.noon
               (Sample.fresh Sample.no_header_fs)))
      !! version_file "1.0.0" (strftime Sample.noon) =
      Some (File (Json.dump {| version := "1.0.0";
                               timestamp := strftime Sample.noon;
                               environment := get (PIOENV Sample.release_env) "unknown";
                               size := Z.of_nat (String.length data);
                               filename := basename (ota_package "1.0.0"
                                                       (strftime Sample.noon)) |})).
Proof.
  apply (manifest_default_version Sample.release_env Sample.noon
           (Sample.fresh Sample.no_header_fs)); reflexivity.
Defined.

(** C6, the claim as stated fails: a header whose version line opens a
    quote and does not close it holds no line with the marker and a quoted
    literal, and yet the packager takes the version from it, so the
    manifest carries [1.2.3] and not the default. *)
Lemma unclosed_quote_sets_manifest_version :
  spec_header_silent open_quote_fs = true /\
  fst (create_ota_package (Some Sample.release_env) Sample.noon
         (Sample.fresh open_quote_fs)) = Return tt /\
  fs (snd (create_ota_package (Some Sample.release_env) Sample.noon
             (Sample.fresh open_quote_fs)))
    !! "ota_packages/version_v1.2.3_20250714_120000.json" =
    Some (File (Json.dump
                  {| version := "1.2.3";
                     timestamp := "20250714_120000";
                     environment := "t-deck-release";
                     size := 12;
                     filename := "t-deck-pro-os_v1.2.3_20250714_120000.bin" |})) /\
  fs (snd (create_ota_package (Some Sample.release_env) Sample.noon
             (Sample.fresh open_quote_fs)))
    !! version_file "1.0.0" (strftime Sample.noon) = None.
Proof. repeat split; reflexivity. Qed.

(** ** The artifact collector *)

Section ArtifactCollector.

Variables (e : pio_env) (now : datetime) (w : world).

Let name := get (PIOENV e) "unknown".
Let bin_src := path_join (BUILD_DIR e) "firmware.bin".
Let elf_src := path_join (BUILD_DIR e) "firmware.elf".
Let map_src := path_join (BUILD_DIR e) "firmware.map".

Hypothesis name_plain : no_slash name = true.

Lemma build_output_ne_artifact (out ext : string) :
  no_slash out = true -> no_slash ext = true ->
  String.prefix "firmware" out = true ->
  path_join (BUILD_DIR e) out <>
  path_join artifacts_dir ("t-deck-pro-os_" ++ name ++ ext).
Proof.
  intros Ho He Hp H.
  apply path_join_inj in H as [_ H]; [|assumption|now apply artifact_name_no_slash].
  rewrite H in Hp. differ Hp.
Qed.

Lemma elf_dst_ne_map_dst : elf_dst name <> map_dst name.
Proof.
  unfold elf_dst, map_dst, path_join. intros H.
  do 4 apply String.app_inj in H. differ H.
Qed.

Lemma artifact_dirname (ext : string) :
  no_slash ext = true ->
  dirname (path_join artifacts_dir ("t-deck-pro-os_" ++ name ++ ext)) = Some artifacts_dir.
Proof. intros He. apply dirname_join. now apply artifact_name_no_slash. Qed.

(** Without the binary, the symbol file and the memory map are collected
    as they are found. *)
Lemma artifacts_without_binary :
  fs w !! bin_src = None ->
  is_file (fs w) artifacts_dir = false ->
  is_dir (fs w) elf_src = false -> is_dir (fs w) (elf_dst name) = false ->
  is_dir (fs w) map_src = false -> is_dir (fs w) (map_dst name) = false ->
  exists w',
    generate_build_artifacts (Some e) now w = (Return tt, w') /\
    (forall d, fs w !! elf_src = Some (File d) -> fs w' !! elf_dst name = Some (File d)) /\
    (forall d, fs w !! map_src = Some (File d) -> fs w' !! map_dst name = Some (File d)) /\
    written w' = (written w ++
                  match fs w !! elf_src with Some _ => [elf_dst name] | None => [] end ++
                  match fs w !! map_src with Some _ => [map_dst name] | None => [] end)%list /\
    fs w' !! bin_src = None /\ fs w' !! ota_dir = fs w !! ota_dir.
Proof.
  intros Hbin Hdir Helf Helf' Hmap Hmap'.
  assert (Ntop : forall out, artifacts_dir <> path_join (BUILD_DIR e) out)
    by (intros out; now apply top_ne_join).
  assert (Nelf := build_output_ne_artifact "firmware.elf" ".elf" eq_refl eq_refl eq_refl).
  assert (Nmap := build_output_ne_artifact "firmware.map" ".map" eq_refl eq_refl eq_refl).
  assert (Nme := build_output_ne_artifact "firmware.map" ".elf" eq_refl eq_refl eq_refl).
  assert (Nbe := build_output_ne_artifact "firmware.bin" ".elf" eq_refl eq_refl eq_refl).
  assert (Nbm := build_output_ne_artifact "firmware.bin" ".map" eq_refl eq_refl eq_refl).
  fold (elf_dst name) in Nbe. fold (map_dst name) in Nbm. fold bin_src in Nbe, Nbm.
  assert (Nem := elf_dst_ne_map_dst).
  assert (Delf := artifact_dirname ".elf" eq_refl).
  assert (Dmap := artifact_dirname ".map" eq_refl).
  fold (elf_dst name) in Nelf, Nme, Delf. fold (map_dst name) in Nmap, Dmap.
  fold elf_src in Nelf. fold map_src in Nmap, Nme.
  assert (Ndir1 : artifacts_dir <> elf_dst name)
    by (intros H; symmetry in H; now apply path_join_ne_dir in H).
  assert (Ndir2 : artifacts_dir <> map_dst name)
    by (intros H; symmetry in H; now apply path_join_ne_dir in H).
  unfold generate_build_artifacts. fold name bin_src elf_src map_src. steps.
  rewrite mkdir_run by (exact Hdir || reflexivity). go.
  unfold is_dir in Helf, Hmap.
  destruct (fs w !! elf_src) as [[delf|]|] eqn:Eelf; [|discriminate|]; go.
  - erewrite (copy2_run elf_src (elf_dst name) artifacts_dir delf); go; first last.
    { reflexivity. } { exact Delf. } { exact Nelf. }
    { now rewrite is_dir_insert_ne. } { reflexivity. }
    destruct (fs w !! map_src) as [[dmap|]|] eqn:Emap; [|discriminate|]; go.
    + erewrite (copy2_run map_src (map_dst name) artifacts_dir dmap); go; first last.
      { reflexivity. } { exact Dmap. } { exact Nmap. }
      { now rewrite !is_dir_insert_ne. } { reflexivity. }
      eexists. split; [reflexivity|]. cbn [fs written]. repeat split.
      * intros d [= <-]. now go.
      * intros d [= <-]. now go.
      * now normalize_out.
      * now go.
      * now go.
    + eexists. split; [reflexivity|]. cbn [fs written]. repeat split.
      * intros d [= <-]. now go.
      * discriminate.
      * now go.
      * now go.
  - destruct (fs w !! map_src) as [[dmap|]|] eqn:Emap; [|discriminate|]; go.
    + erewrite (copy2_run map_src (map_dst name) artifacts_dir dmap); go; first last.
      { reflexivity. } { exact Dmap. } { exact Nmap. }
      { now rewrite is_dir_insert_ne. } { reflexivity. }
      eexists. split; [reflexivity|]. cbn [fs written]. repeat split.
      * discriminate.
      * intros d [= <-]. now go.
      * now go.
      * now go.
    + eexists. split; [reflexivity|]. cbn [fs written]. repeat split.
      * discriminate.
      * discriminate.
      * now rewrite List.app_nil_r.
      * now go.
      * now go.
Qed.

End ArtifactCollector.

Lemma ota_abort_run (e : pio_env) (now : datetime) (w : world) :
  str_in "release" (get (PIOENV e) "unknown") ||
    str_in "ota" (get (PIOENV e) "unknown") = true ->
  fs w !! path_join (BUILD_DIR e) "firmware.bin" = None ->
  is_file (fs w) ota_dir = false ->
  create_ota_package (Some e) now w =
    (Return tt,
     {| fs := <[ota_dir := Dir]> (fs w);
        stdout := stdout w ++ [CreatingOta; OtaFirmwareNotFound];
        written := written w |}).
Proof.
  intros Hg Hbin Hota. unfold create_ota_package. steps.
  rewrite (gate_open _ Hg). steps.
  rewrite mkdir_run by (exact Hota || reflexivity). go.
  now normalize_out.
Qed.

(** C4, as amended.  In a release or OTA build without the firmware
    binary, when no regular file takes the name of either output
    directory, the environment name has no slash and the symbol and map
    files and their targets are not directories: artifact collection
    returns having copied the symbol file and the memory map that exist,
    and the OTA packager, run next, prints its error, writes no file and
    returns. *)
Theorem missing_binary_is_local (e : pio_env) (t1 t2 : datetime) (w : world) :
  let name := get (PIOENV e) "unknown" in
  let elf_src := path_join (BUILD_DIR e) "firmware.elf" in
  let map_src := path_join (BUILD_DIR e) "firmware.map" in
  str_in "release" name || str_in "ota" name = true ->
  fs w !! path_join (BUILD_DIR e) "firmware.bin" = None ->
  is_file (fs w) artifacts_dir = false ->
  is_file (fs w) ota_dir = false ->
  no_slash name = true ->
  is_dir (fs w) elf_src = false -> is_dir (fs w) (elf_dst name) = false ->
  is_dir (fs w) map_src = false -> is_dir (fs w) (map_dst name) = false ->
  exists w1,
    generate_build_artifacts (Some e) t1 w = (Return tt, w1) /\
    (forall d, fs w !! elf_src = Some (File d) -> fs w1 !! elf_dst name = Some (File d)) /\
    (forall d, fs w !! map_src = Some (File d) -> fs w1 !! map_dst name = Some (File d)) /\
    create_ota_package (Some e) t2 w1 =
      (Return tt,
       {| fs := <[ota_dir := Dir]> (fs w1);
          stdout := stdout w1 ++ [CreatingOta; OtaFirmwareNotFound];
          written := written w1 |}).
Proof.
  intros name elf_src map_src Hg Hbin Hart Hota Hname Helf Helf' Hmap Hmap'.
  destruct (artifacts_without_binary e t1 w Hname Hbin Hart Helf Helf' Hmap Hmap')
    as (w1 & Hrun & Hcopy_elf & Hcopy_map & _ & Hbin1 & Hota1).
  exists w1. repeat split; try assumption.
  apply ota_abort_run; try assumption.
  unfold is_file in *. now rewrite Hota1.
Qed.

Lemma missing_binary_is_local_witness :
  exists w1,
    generate_build_artifacts (Some Sample.release_env) Sample.noon
        (Sample.fresh Sample.no_binary_fs) = (Return tt, w1) /\
    (forall d, Sample.no_binary_fs !! ".pio/build/t-deck-release/firmware.elf" = Some (File d) ->
               fs w1 !! "build_artifacts/t-deck-pro-os_t-deck-release.elf" = Some (File d)) /\
    (forall d, Sample.no_binary_fs !! ".pio/build/t-deck-release/firmware.map" = Some (File d) ->
               fs w1 !! "build_artifacts/t-deck-pro-os_t-deck-release.map" = Some (File d)) /\
    create_ota_package (Some Sample.release_env) Sample.noon_01 w1 =
      (Return tt,
       {| fs := <[ota_dir := Dir]> (fs w1);
          stdout := stdout w1 ++ [CreatingOta; OtaFirmwareNotFound];
          written := written w1 |}).
Proof.
  apply (missing_binary_is_local Sample.release_env Sample.noon Sample.noon_01
           (Sample.fresh Sample.no_binary_fs)); reflexivity.
Defined.

(** C4, the claim as stated fails: with a regular file named
    [ota_packages] and the binary missing, the packager raises before it
    looks for the binary, and prints no error. *)
Lemma ota_raises_on_taken_directory_name :
  str_in "release" (get (PIOENV Sample.release_env) "unknown") = true /\
  Sample.blocked_ota_fs !! path_join (BUILD_DIR Sample.release_env) "firmware.bin" = None /\
  create_ota_package (Some Sample.release_env) Sample.noon
      (Sample.fresh Sample.blocked_ota_fs) =
    (Raise FileExistsError,
     {| fs := Sample.blocked_ota_fs; stdout := [CreatingOta]; written := [] |}).
Proof. repeat split; reflexivity. Qed.

(** ** Footprints of the steps *)

Ltac footprint :=
  repeat first
    [ progress cbv zeta
    | apply effects_bind; [|intros ?]
    | apply effects_try
    | apply effects_when
    | apply effects_print
    | apply effects_exists
    | apply effects_st_size
    | apply effects_read_text
    | apply effects_mkdir
    | apply effects_write_text
    | apply effects_unlink
    | apply effects_copy2
    | apply effects_ret
    | apply effects_skip
    | match goal with |- effects (if ?b then _ else _) _ _ => destruct b end
    | match goal with |- effects (match ?x with _ => _ end) _ _ => destruct x end ].

Section StepFootprints.

Lemma summary_effects (env : option pio_env) (touch : string -> Prop) :
  effects (print_build_summary env) touch not_banner.
Proof. unfold print_build_summary. footprint; discriminate. Qed.

Lemma analyze_effects (env : option pio_env) (touch : string -> Prop) :
  effects (analyze_firmware_size env) touch not_banner.
Proof. unfold analyze_firmware_size. footprint; discriminate. Qed.

Lemma artifacts_effects (e : pio_env) (now : datetime) :
  effects (generate_build_artifacts (Some e) now)
    (artifacts_touch (get (PIOENV e) "unknown") (strftime now)) not_banner.
Proof.
  unfold generate_build_artifacts. footprint; try discriminate;
    rewrite ?basename_join by reflexivity; unfold artifacts_touch; simpl; tauto.
Qed.

Lemma artifacts_skip_effects (now : datetime) (touch : string -> Prop) :
  effects (generate_build_artifacts None now) touch not_banner.
Proof. unfold generate_build_artifacts. footprint; discriminate. Qed.

Lemma ota_touch_join (x : string) : ota_touch (path_join ota_dir x).
Proof. right. apply prefix_spec. now exists x. Qed.

Lemma ota_touch_join2 (x y : string) : ota_touch (path_join (path_join ota_dir x) y).
Proof.
  replace (path_join (path_join ota_dir x) y) with (path_join ota_dir (path_join x y)).
  - apply ota_touch_join.
  - unfold path_join. now rewrite !sapp_assoc.
Qed.

Lemma read_version_effects (touch : string -> Prop) (say : msg -> Prop) :
  effects read_version touch say.
Proof.
  intros w. rewrite read_version_run. cbn [snd]. split; [reflexivity|].
  split; exists []; now rewrite List.app_nil_r.
Qed.

Lemma ota_effects (env : option pio_env) (now : datetime) :
  effects (create_ota_package env now) ota_touch not_banner.
Proof.
  unfold create_ota_package. footprint; try discriminate;
    try apply read_version_effects;
    first [ now left | apply ota_touch_join | apply ota_touch_join2 ].
Qed.

Lemma cleanup_effects :
  effects cleanup_build_files (fun p => p = build_info_path) not_banner.
Proof. unfold cleanup_build_files. footprint; (discriminate || reflexivity). Qed.

Lemma success_effects (touch : string -> Prop) :
  effects print_build_success touch anything.
Proof. unfold print_build_success. footprint; exact I. Qed.

(** The whole script changes and writes nothing outside the artifact
    names, the OTA directory and the header. *)
Lemma main_effects (e : pio_env) (t1 t2 : datetime) :
  effects (main (Some e) t1 t2)
    (main_touch (get (PIOENV e) "unknown") (strftime t1)) anything.
Proof.
  unfold main.
  apply effects_bind; [|intros _].
  { eapply effects_mono; [| |apply summary_effects]; [intros p Hp; exact Hp | intros; exact I]. }
  apply effects_bind; [|intros _].
  { eapply effects_mono; [| |apply analyze_effects]; [intros p Hp; exact Hp | intros; exact I]. }
  apply effects_bind; [|intros _].
  { eapply effects_mono; [| |apply artifacts_effects]; [intros p Hp; now left | intros; exact I]. }
  apply effects_bind; [|intros _].
  { eapply effects_mono; [| |apply ota_effects]; [intros p Hp; right; now left | intros; exact I]. }
  apply effects_bind; [|intros _].
  { eapply effects_mono; [| |apply cleanup_effects]; [intros p Hp; right; now right | intros; exact I]. }
  apply success_effects.
Qed.

Lemma summary_total (env : option pio_env) : total (print_build_summary env).
Proof.
  unfold print_build_summary.
  repeat first [ apply total_bind; [|intros ?] | apply total_print | apply total_ret
               | match goal with |- total (match ?x with _ => _ end) => destruct x end ].
Qed.

Lemma analyze_total (env : option pio_env) : total (analyze_firmware_size env).
Proof.
  intros w. unfold analyze_firmware_size. destruct env as [e|]; steps; [|eauto].
  destruct (fs w !! path_join (BUILD_DIR e) "firmware.bin") as [[data|]|] eqn:Hbin; exec;
    try match goal with |- context [if ?b then _ else _] => destruct b end; exec; eauto.
Qed.

Lemma cleanup_total : total cleanup_build_files.
Proof.
  unfold cleanup_build_files.
  repeat first [ apply total_bind; [|intros ?] | apply total_print | apply total_exists
               | apply total_when | apply total_try ].
Qed.

Lemma success_total : total print_build_success.
Proof.
  unfold print_build_success.
  repeat first [ apply total_bind; [|intros ?] | apply total_print ].
Qed.

End StepFootprints.

(** ** The whole script *)

Section Main.

Lemma banner_last_success : banner_last print_build_success.
Proof. intros w. unfold print_build_success. run. exists []. now normalize_out. Qed.

Lemma not_banner_In (o : list msg) : Forall not_banner o -> ~ In BuildComplete o.
Proof.
  intros H Hin. rewrite List.Forall_forall in H. now apply (H _ Hin).
Qed.

Lemma banner_last_bind {A B} (m : M A) (k : A -> M B) (touch : string -> Prop) :
  effects m touch not_banner -> (forall a, banner_last (k a)) ->
  banner_last (bind m k).
Proof.
  intros Hm Hk w. unfold bind.
  destruct (Hm w) as (_ & _ & (o & Ho & Hnb)).
  destruct (m w) as [[a|x] w1]; cbn [fst snd] in *.
  - specialize (Hk a w1). destruct (fst (k a w1)).
    + destruct Hk as [o' Ho']. exists (o ++ o')%list.
      now rewrite Ho', Ho, <- !List.app_assoc.
    + destruct Hk as (o' & Ho' & Hnb'). exists (o ++ o')%list. split.
      * now rewrite Ho', Ho, <- !List.app_assoc.
      * intros [Hin | Hin]%in_app_or; [now apply (not_banner_In o) | contradiction].
  - exists o. split; [assumption | now apply not_banner_In].
Qed.

Lemma main_banner_last (env : option pio_env) (t1 t2 : datetime) :
  banner_last (main env t1 t2).
Proof.
  unfold main.
  eapply banner_last_bind; [apply (summary_effects env anywhere)|intros _].
  eapply banner_last_bind; [apply (analyze_effects env anywhere)|intros _].
  destruct env as [e|].
  all: eapply banner_last_bind;
    [first [apply artifacts_effects | apply (artifacts_skip_effects t1 anywhere)]|intros _].
  all: eapply banner_last_bind; [apply ota_effects|intros _].
  all: eapply banner_last_bind; [apply cleanup_effects|intros _].
  all: apply banner_last_success.
Qed.

Lemma main_returns_iff (env : option pio_env) (t1 t2 : datetime) (w : world) :
  let w2 := snd (analyze_firmware_size env (snd (print_build_summary env w))) in
  let w3 := snd (generate_build_artifacts env t1 w2) in
  fst (main env t1 t2 w) = Return tt <->
  fst (generate_build_artifacts env t1 w2) = Return tt /\
  fst (create_ota_package env t2 w3) = Return tt.
Proof.
  intros w2 w3. subst w2 w3. unfold main, bind.
  destruct (summary_total env w) as [[] H1].
  destruct (print_build_summary env w) as [r1 w1]. cbn [fst snd] in *. subst r1.
  destruct (analyze_total env w1) as [[] H2].
  destruct (analyze_firmware_size env w1) as [r2 w2]. cbn [fst snd] in *. subst r2.
  destruct (generate_build_artifacts env t1 w2) as [[[]|x3] w3]; cbn [fst snd].
  - destruct (create_ota_package env t2 w3) as [[[]|x4] w4]; cbn [fst snd].
    + destruct (cleanup_total w4) as [[] H5].
      destruct (cleanup_build_files w4) as [r5 w5]. cbn [fst] in H5. subst r5.
      destruct (success_total w5) as [[] H6].
      destruct (print_build_success w5) as [r6 w6]. cbn [fst] in *. now subst r6.
    + split; [discriminate | intros [_ H]; discriminate].
  - split; [discriminate | intros [H _]; discriminate].
Qed.

Lemma main_without_env (t1 t2 : datetime) (w : world) :
  fst (main None t1 t2 w) = Return tt.
Proof.
  apply main_returns_iff. split.
  - reflexivity.
  - reflexivity.
Qed.

(** An exception of the collector or of the packager ends the script
    where it is raised: the state [main] leaves is the state of the failed
    step, so nothing that comes later has run.  A run that returns has gone
    through the cleanup and the banner. *)
Lemma main_stops_at_raise (env : option pio_env) (t1 t2 : datetime) (w : world) :
  let w2 := snd (analyze_firmware_size env (snd (print_build_summary env w))) in
  let w3 := snd (generate_build_artifacts env t1 w2) in
  (forall x w', generate_build_artifacts env t1 w2 = (Raise x, w') ->
                main env t1 t2 w = (Raise x, w')) /\
  (forall x w', fst (generate_build_artifacts env t1 w2) = Return tt ->
                create_ota_package env t2 w3 = (Raise x, w') ->
                main env t1 t2 w = (Raise x, w')) /\
  (fst (main env t1 t2 w) = Return tt ->
   main env t1 t2 w =
     print_build_success
       (snd (cleanup_build_files (snd (create_ota_package env t2 w3))))).
Proof.
  intros w2 w3. subst w2 w3. unfold main, bind.
  destruct (summary_total env w) as [[] H1].
  destruct (print_build_summary env w) as [r1 w1]. cbn [fst snd] in *. subst r1.
  destruct (analyze_total env w1) as [[] H2].
  destruct (analyze_firmware_size env w1) as [r2 w2]. cbn [fst snd] in *. subst r2.
  destruct (generate_build_artifacts env t1 w2) as [[[]|x3] w3]; cbn [fst snd].
  - split; [discriminate|].
    destruct (create_ota_package env t2 w3) as [[[]|x4] w4]; cbn [fst snd].
    + split; [discriminate|]. intros _.
      destruct (cleanup_total w4) as [[] H5].
      destruct (cleanup_build_files w4) as [r5 w5]. cbn [fst snd] in *. now subst r5.
    + split; [now intros x w' _ [= <- <-] | discriminate].
  - split; [now intros x w' [= <- <-]|]. split; discriminate.
Qed.

End Main.

(** C1, as amended.  The summary, the size analysis, the cleanup and the
    banner never raise.  The script returns exactly when artifact
    collection and OTA packaging both return, which they always do without
    an environment; it then has run the cleanup and the banner after the
    packager and ends with the banner.  An exception raised by one of
    those two steps leaves [main] with the state of the step that raised
    it: the later steps do not run, and no banner is printed. *)
Theorem main_outcome (env : option pio_env) (t1 t2 : datetime) (w : world) :
  let w2 := snd (analyze_firmware_size env (snd (print_build_summary env w))) in
  let w3 := snd (generate_build_artifacts env t1 w2) in
  let r := fst (main env t1 t2 w) in
  let out := stdout (snd (main env t1 t2 w)) in
  (total (print_build_summary env) /\ total (analyze_firmware_size env) /\
   total cleanup_build_files /\ total print_build_success) /\
  (r = Return tt <->
   fst (generate_build_artifacts env t1 w2) = Return tt /\
   fst (create_ota_package env t2 w3) = Return tt) /\
  (env = None -> r = Return tt) /\
  (r = Return tt -> exists o, out = (stdout w ++ o ++ banner)%list) /\
  (forall x, r = Raise x ->
             exists o, out = (stdout w ++ o)%list /\ ~ In BuildComplete o) /\
  (forall x w', generate_build_artifacts env t1 w2 = (Raise x, w') ->
                main env t1 t2 w = (Raise x, w')) /\
  (forall x w', fst (generate_build_artifacts env t1 w2) = Return tt ->
                create_ota_package env t2 w3 = (Raise x, w') ->
                main env t1 t2 w = (Raise x, w')) /\
  (r = Return tt ->
   main env t1 t2 w =
     print_build_success
       (snd (cleanup_build_files (snd (create_ota_package env t2 w3))))).
Proof.
  intros w2 w3 r out. split; [|split; [|split; [|split; [|split]]]].
  - auto using summary_total, analyze_total, cleanup_total, success_total.
  - apply main_returns_iff.
  - intros ->. apply main_without_env.
  - intros Hr. pose proof (main_banner_last env t1 t2 w) as H.
    fold r in H. now rewrite Hr in H.
  - intros x Hr. pose proof (main_banner_last env t1 t2 w) as H.
    fold r in H. now rewrite Hr in H.
  - apply main_stops_at_raise.
Qed.

(** C1, the claim as stated fails: with a regular file named
    [build_artifacts], [mkdir] raises [FileExistsError] in the artifact
    collector; the exception leaves [main], and neither the OTA step, the
    cleanup nor the banner runs. *)
Lemma main_raises_on_taken_directory_name :
  main (Some Sample.release_env) Sample.noon Sample.noon
      (Sample.fresh Sample.blocked_artifacts_fs) =
    (Raise FileExistsError,
     {| fs := Sample.blocked_artifacts_fs;
        stdout := [Rule; Title; Rule; Environment "t-deck-release";
                   Platform "espressif32"; Framework "arduino"; Rule;
                   Analyzing; FirmwareSize 12; RemainingSpace "6.00";
                   Generating];
        written := [] |}).
Proof. reflexivity. Qed.

(** ** Two runs *)

Section TwoRuns.

Lemma app_inj_len (a b x y : string) :
  String.length a = String.length b -> a ++ x = b ++ y -> a = b /\ x = y.
Proof.
  revert b; induction a as [|c a IH]; intros [|d b] Hlen H; try discriminate.
  - now split.
  - rewrite !sapp_cons in H. injection H as -> H. injection Hlen as Hlen.
    destruct (IH b Hlen H) as [-> ->]. now split.
Qed.

Variables (name : string) (t1 t2 : datetime).

Hypothesis valid1 : valid_datetime t1 = true.
Hypothesis valid2 : valid_datetime t2 = true.
Hypothesis later : t1 <> t2.

Let bin1 := firmware_dst name (strftime t1).

Lemma stamps_differ (x y : string) : strftime t2 ++ x <> strftime t1 ++ y.
Proof.
  intros H. apply app_inj_len in H as [H _]; [|now rewrite !strftime_length].
  apply strftime_inj in H; [congruence | assumption | assumption].
Qed.

Lemma firmware_dst_differs : firmware_dst name (strftime t2) <> bin1.
Proof.
  unfold bin1, firmware_dst, path_join. intros H.
  do 5 apply String.app_inj in H. now apply stamps_differ in H.
Qed.

(** The second run's names avoid the first run's binary copy, whether
    that was written at its stamped name or inside a directory of that
    name. *)
Lemma first_binary_untouched (p : string) :
  p = bin1 \/ p = path_join bin1 "firmware.bin" ->
  ~ main_touch name (strftime t2) p.
Proof.
  unfold main_touch, artifacts_touch, ota_touch. simpl In.
  intros [-> | ->] [H | [[H | H] | H]].
  - destruct H as [H | [H | [H | [H | [H | [H | [H | []]]]]]]];
      try (unfold bin1 in H; by_length H).
    now apply firmware_dst_differs in H.
  - unfold bin1 in H. by_length H.
  - differ H.
  - unfold bin1 in H. by_length H.
  - destruct H as [H | [H | [H | [H | [H | [H | [H | []]]]]]]];
      try (unfold bin1 in H; by_length H).
    unfold bin1, firmware_dst, path_join in H. rewrite !sapp_assoc in H.
    do 5 apply String.app_inj in H. now apply stamps_differ in H.
  - unfold bin1 in H. by_length H.
  - differ H.
  - unfold bin1 in H. by_length H.
Qed.

End TwoRuns.


(** ** The first run's binary copy *)

Section FirstRun.

Lemma fs_unchanged {A} (m : M A) (say : msg -> Prop) (w : world) :
  effects m nowhere say -> fs (snd (m w)) = fs w.
Proof.
  intros Hm. destruct (Hm w) as (Hfs & _). apply map_eq. intros p.
  apply Hfs. intros [].
Qed.

(** What holds after [m] when it returns and after what follows, or when
    it raises, holds after the sequence. *)
Lemma after_bind {A B} (Q : world -> Prop) (m : M A) (k : A -> M B) (w : world) :
  (forall a, fst (m w) = Return a -> Q (snd (k a (snd (m w))))) ->
  (forall x, fst (m w) = Raise x -> Q (snd (m w))) ->
  Q (snd (bind m k w)).
Proof.
  unfold bind. destruct (m w) as [[a|x] w1]; cbn [fst snd]; intros Hr Hx; eauto.
Qed.

Lemma snd_bind_Return {A B} (m : M A) (k : A -> M B) (w w1 : world) (a : A) :
  m w = (Return a, w1) -> snd (bind m k w) = snd (k a w1).
Proof. intros H. unfold bind. now rewrite H. Qed.

Lemma exists_run (p : string) (n : node) (w : world) :
  fs w !! p = Some n -> exists_ p w = (Return true, w).
Proof. intros H. unfold exists_. now rewrite H. Qed.

Lemma generate_unfold (e : pio_env) (now : datetime) :
  generate_build_artifacts (Some e) now =
  (print Generating ;;
   mkdir_exist_ok artifacts_dir ;;
   present <- exists_ (path_join (BUILD_DIR e) "firmware.bin") ;;
   when present (
     copy2 (path_join (BUILD_DIR e) "firmware.bin")
           (firmware_dst (get (PIOENV e) "unknown") (strftime now)) ;;
     print (FirmwareCopied (firmware_dst (get (PIOENV e) "unknown") (strftime now)))) ;;
   collect_symbols e).
Proof. reflexivity. Qed.

Lemma collect_symbols_effects (e : pio_env) :
  effects (collect_symbols e) (symbols_touch (get (PIOENV e) "unknown")) not_banner.
Proof.
  unfold collect_symbols. footprint; try discriminate;
    rewrite ?basename_join by reflexivity; unfold symbols_touch; simpl; tauto.
Qed.

Variables (e : pio_env) (now : datetime).

Let name := get (PIOENV e) "unknown".
Let bin_src := path_join (BUILD_DIR e) "firmware.bin".
Let bin := firmware_dst name (strftime now).

Hypothesis name_plain : no_slash name = true.
Hypothesis now_valid : valid_datetime now = true.

Lemma binary_not_symbol : ~ symbols_touch name bin.
Proof.
  unfold symbols_touch. simpl In.
  intros [H | [H | [H | [H | []]]]]; unfold bin in H; by_length H.
Qed.

Lemma binary_not_ota : ~ ota_touch bin.
Proof. intros [H | H]; [unfold bin in H; by_length H | differ H]. Qed.

Lemma binary_not_header : bin <> build_info_path.
Proof. intros H. differ H. Qed.

(** Once the binary is copied, the rest of the collector leaves the copy
    alone, whether it returns or raises. *)
Lemma artifacts_binary_copied (w : world) (data : string) :
  fs w !! bin_src = Some (File data) ->
  is_file (fs w) artifacts_dir = false ->
  is_dir (fs w) bin = false ->
  fs (snd (generate_build_artifacts (Some e) now w)) !! bin = Some (File data).
Proof.
  intros Hsrc Hdir Hbin.
  assert (Hstamp : no_slash ("_" ++ strftime now ++ ".bin") = true).
  { now rewrite !no_slash_app, (strftime_no_slash _ now_valid). }
  assert (Nsrc := build_output_ne_artifact e name_plain "firmware.bin" _ eq_refl Hstamp eq_refl).
  assert (Dbin := artifact_dirname e name_plain _ Hstamp).
  fold name in Nsrc, Dbin. fold bin_src in Nsrc.
  change (path_join artifacts_dir ("t-deck-pro-os_" ++ name ++ "_" ++ strftime now ++ ".bin"))
    with bin in Nsrc, Dbin.
  rewrite generate_unfold. fold name bin_src bin.
  erewrite snd_bind_Return by reflexivity.
  erewrite snd_bind_Return by (apply mkdir_run; [exact Hdir | reflexivity]).
  erewrite snd_bind_Return; first last.
  { apply (exists_run _ (File data)). cbn [fs set_fs]. now rewrite lookup_insert_ne by ne. }
  erewrite snd_bind_Return; first last.
  { unfold when, bind.
    erewrite (copy2_run bin_src bin artifacts_dir data); [reflexivity|..].
    - cbn [fs set_fs]. now rewrite lookup_insert_ne by ne.
    - cbn [fs set_fs]. rewrite is_dir_insert_ne; [assumption|].
      intros H; symmetry in H. now apply path_join_ne_dir in H.
    - assumption.
    - assumption.
    - apply lookup_insert_eq. }
  destruct (collect_symbols_effects e
              {| fs := <[bin := File data]> (<[artifacts_dir := Dir]> (fs w));
                 stdout := (stdout w ++ [Generating]) ++ [FirmwareCopied bin];
                 written := written w ++ [bin] |}) as (Hkeep & _).
  cbn [print snd fs stdout written set_fs] in *.
  rewrite Hkeep by apply binary_not_symbol. apply lookup_insert_eq.
Qed.

(** The whole first run leaves the copy of the binary at its stamped
    name. *)
Lemma main_binary_copied (t' : datetime) (w : world) (data : string) :
  fs w !! bin_src = Some (File data) ->
  is_file (fs w) artifacts_dir = false ->
  is_dir (fs w) bin = false ->
  fs (snd (main (Some e) now t' w)) !! bin = Some (File data).
Proof.
  intros Hsrc Hdir Hbin. unfold main.
  apply after_bind; intros a1 H1;
    [|destruct (summary_total (Some e) w) as [? Ht]; congruence].
  pose proof (fs_unchanged _ _ w (summary_effects (Some e) nowhere)) as E1.
  set (w1 := snd (print_build_summary (Some e) w)) in *.
  apply after_bind; intros a2 H2;
    [|destruct (analyze_total (Some e) w1) as [? Ht]; congruence].
  pose proof (fs_unchanged _ _ w1 (analyze_effects (Some e) nowhere)) as E2.
  set (w2 := snd (analyze_firmware_size (Some e) w1)) in *.
  assert (Hcopied : fs (snd (generate_build_artifacts (Some e) now w2)) !! bin =
                    Some (File data)).
  { apply artifacts_binary_copied; rewrite E2, E1; assumption. }
  set (w3 := snd (generate_build_artifacts (Some e) now w2)) in *.
  apply after_bind; intros a3 H3; [|exact Hcopied].
  destruct (ota_effects (Some e) t' w3) as (K4 & _).
  set (w4 := snd (create_ota_package (Some e) t' w3)) in *.
  assert (H4 : fs w4 !! bin = Some (File data))
    by (now rewrite K4 by apply binary_not_ota).
  apply after_bind; intros a4 _; [|exact H4].
  destruct (cleanup_effects w4) as (K5 & _).
  set (w5 := snd (cleanup_build_files w4)) in *.
  assert (H5 : fs w5 !! bin = Some (File data))
    by (now rewrite K5 by apply binary_not_header).
  apply after_bind; intros a5 _; [|exact H5].
  destruct (success_effects nowhere w5) as (K6 & _).
  rewrite K6 by (intros []). exact H5.
Qed.

End FirstRun.

(** C7, as amended.  For two runs whose time stamps differ, the binary
    copy of the second run has another name than that of the first, and
    the second run neither changes nor writes the first run's binary copy,
    at its stamped name or inside a directory of that name.  When the
    first run finds the binary, a regular file, with the artifacts
    directory free to be made, no slash in the environment name and the
    stamped name not a directory, its copy holds the binary after the
    first run and after the second.  (The copies of the symbol file and of
    the memory map carry no stamp.) *)
Theorem second_run_keeps_first_binary
    (e : pio_env) (t1 t1' t2 t2' : datetime) (w : world) :
  valid_datetime t1 = true -> valid_datetime t2 = true -> t1 <> t2 ->
  let name := get (PIOENV e) "unknown" in
  let bin1 := firmware_dst name (strftime t1) in
  let w1 := snd (main (Some e) t1 t1' w) in
  let w2 := snd (main (Some e) t2 t2' w1) in
  firmware_dst name (strftime t2) <> bin1 /\
  (forall p, p = bin1 \/ p = path_join bin1 "firmware.bin" ->
             fs w2 !! p = fs w1 !! p) /\
  (exists l, written w2 = (written w1 ++ l)%list /\
             ~ In bin1 l /\ ~ In (path_join bin1 "firmware.bin") l) /\
  (forall data,
     fs w !! path_join (BUILD_DIR e) "firmware.bin" = Some (File data) ->
     is_file (fs w) artifacts_dir = false ->
     no_slash name = true ->
     is_dir (fs w) bin1 = false ->
     fs w1 !! bin1 = Some (File data) /\ fs w2 !! bin1 = Some (File data)).
Proof.
  intros Hv1 Hv2 Hne name bin1 w1 w2.
  destruct (main_effects e t2 t2' w1) as (Hfs & (l & Hl & Hlt) & _).
  fold w2 name in Hfs, Hl, Hlt.
  assert (Hkeep : forall p, p = bin1 \/ p = path_join bin1 "firmware.bin" ->
                            fs w2 !! p = fs w1 !! p).
  { intros p Hp. apply Hfs. now apply (first_binary_untouched name t1 t2). }
  split; [now apply firmware_dst_differs|]. split; [exact Hkeep|]. split.
  - exists l. split; [assumption|]. rewrite List.Forall_forall in Hlt.
    split; intros Hin%Hlt; revert Hin;
      apply (first_binary_untouched name t1 t2); auto.
  - intros data Hsrc Hdir Hname Hbin.
    assert (H1 : fs w1 !! bin1 = Some (File data))
      by (now apply main_binary_copied).
    split; [exact H1|]. rewrite Hkeep by (now left). exact H1.
Qed.

Lemma second_run_keeps_first_binary_witness :
  fs (snd (main (Some Sample.release_env) Sample.noon_01 Sample.noon_01
             (snd (main (Some Sample.release_env) Sample.noon Sample.noon
                     (Sample.fresh Sample.release_fs)))))
    !! "build_artifacts/t-deck-pro-os_t-deck-release_20250714_120000.bin" =
  Some (File "BINARY IMAGE").
Proof.
  destruct (second_run_keeps_first_binary Sample.release_env
              Sample.noon Sample.noon Sample.noon_01 Sample.noon_01
              (Sample.fresh Sample.release_fs))
    as (_ & _ & _ & Hcopy).
  - reflexivity.
  - reflexivity.
  - discriminate.
  - destruct (Hcopy "BINARY IMAGE") as [_ H2]; [reflexivity.. | exact H2].
Defined.

(** C7, the claim as stated fails: of two runs one second apart, the
    second writes the symbol file and the memory map under the names the
    first run used. *)
Lemma second_run_overwrites_symbols_and_map :
  written (snd (main (Some Sample.release_env) Sample.noon Sample.noon
                  (Sample.fresh Sample.release_fs))) =
    ["build_artifacts/t-deck-pro-os_t-deck-release_20250714_120000.bin";
     "build_artifacts/t-deck-pro-os_t-deck-release.elf";
     "build_artifacts/t-deck-pro-os_t-deck-release.map";
     "ota_packages/t-deck-pro-os_v2.1.0_20250714_120000.bin";
     "ota_packages/version_v2.1.0_20250714_120000.json"] /\
  written (snd (main (Some Sample.release_env) Sample.noon_01 Sample.noon_01
                  (Sample.fresh
                     (fs (snd (main (Some Sample.release_env) Sample.noon Sample.noon
                                 (Sample.fresh Sample.release_fs))))))) =
    ["build_artifacts/t-deck-pro-os_t-deck-release_20250714_120001.bin";
     "build_artifacts/t-deck-pro-os_t-deck-release.elf";
     "build_artifacts/t-deck-pro-os_t-deck-release.map";
     "ota_packages/t-deck-pro-os_v1.0.0_20250714_120001.bin";
     "ota_packages/version_v1.0.0_20250714_120001.json"].
Proof. split; reflexivity. Qed.

(** * Further properties of the script *)

(** ** Cleanup and the reporting steps *)

Lemma cleanup_run (w : world) :
  cleanup_build_files w =
    (Return tt,
     match fs w !! build_info_path with
     | None =>
         {| fs := fs w; stdout := stdout w ++ [CleaningUp]; written := written w |}
     | Some (File _) =>
         {| fs := delete build_info_path (fs w);
            stdout := stdout w ++ [CleaningUp; CleanedUp];
            written := written w |}
     | Some Dir =>
         {| fs := fs w;
            stdout := stdout w ++ [CleaningUp; CouldNotRemove];
            written := written w |}
     end).
Proof.
  unfold cleanup_build_files.
  destruct (fs w !! build_info_path) as [[text|]|] eqn:Hh; exec; now normalize_out.
Qed.

(** X1.  Cleanup never raises.  Without the header it only announces
    itself; a header that is a regular file is deleted; when [unlink]
    fails, as it does on a directory of that name, the failure is caught,
    the warning is printed and the file system is left as it was. *)
Theorem cleanup_outcomes (w : world) :
  cleanup_build_files w =
    (Return tt,
     match fs w !! build_info_path with
     | None =>
         {| fs := fs w; stdout := stdout w ++ [CleaningUp]; written := written w |}
     | Some (File _) =>
         {| fs := delete build_info_path (fs w);
            stdout := stdout w ++ [CleaningUp; CleanedUp];
            written := written w |}
     | Some Dir =>
         {| fs := fs w;
            stdout := stdout w ++ [CleaningUp; CouldNotRemove];
            written := written w |}
     end).
Proof. apply cleanup_run. Qed.

Lemma nowhere_nil (l : list string) : Forall nowhere l -> l = [].
Proof. destruct l as [|p l]; [reflexivity|]. intros H. now inversion H. Qed.

Lemma read_only {A} (m : M A) (say : msg -> Prop) (w : world) :
  effects m nowhere say ->
  fs (snd (m w)) = fs w /\ written (snd (m w)) = written w.
Proof.
  intros Hm. split; [now apply (fs_unchanged m say)|].
  destruct (Hm w) as (_ & (l & Hl & Hnil) & _).
  apply nowhere_nil in Hnil. subst l. now rewrite List.app_nil_r in Hl.
Qed.

(** X2.  The summary and the size analysis only report: for every
    environment and every state, a missing binary or a directory in its
    place included, they return without raising, change no node of the
    file system and write no file. *)
Theorem report_steps_read_only (env : option pio_env) (w : world) :
  (fst (print_build_summary env w) = Return tt /\
   fs (snd (print_build_summary env w)) = fs w /\
   written (snd (print_build_summary env w)) = written w) /\
  (fst (analyze_firmware_size env w) = Return tt /\
   fs (snd (analyze_firmware_size env w)) = fs w /\
   written (snd (analyze_firmware_size env w)) = written w).
Proof.
  split; split.
  - destruct (summary_total env w) as [[] H]. exact H.
  - apply (read_only _ not_banner), summary_effects.
  - destruct (analyze_total env w) as [[] H]. exact H.
  - apply (read_only _ not_banner), analyze_effects.
Qed.

(** ** A complete build *)

Section CompleteBuild.

Variables (e : pio_env) (now : datetime).

Let name := get (PIOENV e) "unknown".
Let bin_src := path_join (BUILD_DIR e) "firmware.bin".
Let elf_src := path_join (BUILD_DIR e) "firmware.elf".
Let map_src := path_join (BUILD_DIR e) "firmware.map".
Let bin := firmware_dst name (strftime now).

Hypothesis name_plain : no_slash name = true.
Hypothesis now_valid : valid_datetime now = true.

Lemma stamp_ext_no_slash : no_slash ("_" ++ strftime now ++ ".bin") = true.
Proof. now rewrite !no_slash_app, (strftime_no_slash _ now_valid). Qed.

Lemma bin_dirname : dirname bin = Some artifacts_dir.
Proof. apply (artifact_dirname e name_plain _ stamp_ext_no_slash). Qed.

Lemma output_ne_bin (out : string) :
  no_slash out = true -> String.prefix "firmware" out = true ->
  path_join (BUILD_DIR e) out <> bin.
Proof.
  intros Ho Hp. apply (build_output_ne_artifact e name_plain out _ Ho stamp_ext_no_slash Hp).
Qed.

Lemma bin_ne_elf_dst : bin <> elf_dst name.
Proof.
  unfold bin, firmware_dst, elf_dst, path_join. intros H.
  do 4 apply String.app_inj in H. differ H.
Qed.

Lemma bin_ne_map_dst : bin <> map_dst name.
Proof.
  unfold bin, firmware_dst, map_dst, path_join. intros H.
  do 4 apply String.app_inj in H. differ H.
Qed.

(** The collector on a build that left all three outputs. *)
Lemma artifacts_run (w : world) (data delf dmap : string) :
  fs w !! bin_src = Some (File data) ->
  fs w !! elf_src = Some (File delf) ->
  fs w !! map_src = Some (File dmap) ->
  is_file (fs w) artifacts_dir = false ->
  is_dir (fs w) bin = false ->
  is_dir (fs w) (elf_dst name) = false ->
  is_dir (fs w) (map_dst name) = false ->
  generate_build_artifacts (Some e) now w =
    (Return tt,
     {| fs := <[map_dst name := File dmap]>
              (<[elf_dst name := File delf]>
              (<[bin := File data]> (<[artifacts_dir := Dir]> (fs w))));
        stdout := stdout w ++
                  [Generating; FirmwareCopied bin; ElfCopied (elf_dst name);
                   MapCopied (map_dst name)];
        written := written w ++ [bin; elf_dst name; map_dst name] |}).
Proof.
  intros Hbin Helf Hmap Hdir Dbin Delf Dmap.
  assert (Nbb := output_ne_bin "firmware.bin" eq_refl eq_refl).
  assert (Neb := output_ne_bin "firmware.elf" eq_refl eq_refl).
  assert (Nmb := output_ne_bin "firmware.map" eq_refl eq_refl).
  assert (Nbe := build_output_ne_artifact e name_plain "firmware.bin" ".elf" eq_refl eq_refl eq_refl).
  assert (Nee := build_output_ne_artifact e name_plain "firmware.elf" ".elf" eq_refl eq_refl eq_refl).
  assert (Nme := build_output_ne_artifact e name_plain "firmware.map" ".elf" eq_refl eq_refl eq_refl).
  assert (Nbm := build_output_ne_artifact e name_plain "firmware.bin" ".map" eq_refl eq_refl eq_refl).
  assert (Nem := build_output_ne_artifact e name_plain "firmware.elf" ".map" eq_refl eq_refl eq_refl).
  assert (Nmm := build_output_ne_artifact e name_plain "firmware.map" ".map" eq_refl eq_refl eq_refl).
  assert (Kbe := bin_ne_elf_dst). assert (Kbm := bin_ne_map_dst).
  assert (Kem := elf_dst_ne_map_dst e).
  assert (Pbin := bin_dirname).
  assert (Pelf := artifact_dirname e name_plain ".elf" eq_refl).
  assert (Pmap := artifact_dirname e name_plain ".map" eq_refl).
  fold name in Nbe, Nee, Nme, Nbm, Nem, Nmm, Kem, Pelf, Pmap.
  fold (elf_dst name) in Nbe, Nee, Nme, Pelf. fold (map_dst name) in Nbm, Nem, Nmm, Pmap.
  fold bin_src in Nbb, Nbe, Nbm. fold elf_src in Neb, Nee, Nem.
  fold map_src in Nmb, Nme, Nmm.
  unfold generate_build_artifacts. fold name bin_src elf_src map_src bin. steps.
  rewrite mkdir_run by (exact Hdir || reflexivity). go.
  erewrite (copy2_run bin_src bin artifacts_dir data); go; first last.
  { reflexivity. } { exact Pbin. } { exact Nbb. }
  { now rewrite is_dir_insert_ne by ne. } { reflexivity. }
  erewrite (copy2_run elf_src (elf_dst name) artifacts_dir delf); go; first last.
  { reflexivity. } { exact Pelf. } { exact Nee. }
  { now rewrite !is_dir_insert_ne by ne. } { reflexivity. }
  erewrite (copy2_run map_src (map_dst name) artifacts_dir dmap); go; first last.
  { reflexivity. } { exact Pmap. } { exact Nmm. }
  { now rewrite !is_dir_insert_ne by ne. } { reflexivity. }
  now normalize_out.
Qed.

End CompleteBuild.

(** ** Where the script writes *)

Section Inputs.

Lemma prefix_cons (a c : ascii) (s t : string) :
  String.prefix (String a s) (String c t) = true -> a = c /\ String.prefix s t = true.
Proof. simpl. destruct (ascii_dec a c); [now split | discriminate]. Qed.

(** A name inside a directory lies under [d] only when the directory
    does. *)
Lemma prefix_dir (d bd x : string) :
  no_slash d = true ->
  String.prefix (d ++ "/") (path_join bd x) = true ->
  bd = d \/ String.prefix (d ++ "/") bd = true.
Proof.
  unfold path_join. revert bd. induction d as [|a d IH]; intros bd Hd H.
  - destruct bd as [|c bd]; [now left|]. right.
    rewrite sapp_nil_l in *. rewrite sapp_cons in H.
    apply prefix_cons in H as [<- _]. simpl. now destruct bd.
  - rewrite no_slash_cons, andb_true_iff, negb_true_iff in Hd. destruct Hd as [Ha Hd].
    rewrite sapp_cons in *. destruct bd as [|c bd].
    + rewrite sapp_nil_l in H. change ("/" ++ x) with (String SLASH x) in H.
      apply prefix_cons in H as [-> _]. now rewrite Ascii.eqb_refl in Ha.
    + rewrite sapp_cons in H. apply prefix_cons in H as [<- H].
      destruct (IH bd Hd H) as [-> | Hp]; [now left|]. right.
      simpl. destruct (ascii_dec a a); [assumption | congruence].
Qed.

Lemma inside_join (d bd x : string) :
  no_slash d = true -> inside d (path_join bd x) = true -> inside d bd = true.
Proof.
  unfold inside. intros Hd [Heq | Hp]%orb_true_iff; apply orb_true_iff.
  - apply String.eqb_eq in Heq. symmetry in Heq.
    now apply top_ne_join in Heq; [|apply dirname_no_slash].
  - destruct (prefix_dir d bd x Hd Hp) as [-> | H]; [left; apply String.eqb_refl | now right].
Qed.

Lemma inside_self_join (d x : string) : inside d (path_join d x) = true.
Proof.
  unfold inside. apply orb_true_iff. right. apply prefix_spec. exists x.
  unfold path_join. now rewrite sapp_assoc.
Qed.

Lemma inside_self_join2 (d x y : string) : inside d (path_join (path_join d x) y) = true.
Proof.
  replace (path_join (path_join d x) y) with (path_join d (path_join x y)).
  - apply inside_self_join.
  - unfold path_join. now rewrite !sapp_assoc.
Qed.

Lemma artifacts_touch_inside (name ts p : string) :
  artifacts_touch name ts p -> inside artifacts_dir p = true.
Proof.
  unfold artifacts_touch. simpl In.
  intros [<- | [<- | [<- | [<- | [<- | [<- | [<- | []]]]]]]];
    first [ reflexivity | apply inside_self_join | apply inside_self_join2 ].
Qed.

Lemma ota_touch_inside (p : string) : ota_touch p -> inside ota_dir p = true.
Proof.
  unfold ota_touch, inside. intros [-> | H]; apply orb_true_iff;
    [left; apply String.eqb_refl | now right].
Qed.

Lemma build_output_untouched (e : pio_env) (ts x : string) :
  inside artifacts_dir (BUILD_DIR e) = false ->
  inside ota_dir (BUILD_DIR e) = false ->
  In x build_outputs ->
  ~ main_touch (get (PIOENV e) "unknown") ts (path_join (BUILD_DIR e) x).
Proof.
  intros Ha Ho Hx [H | [H | H]].
  - apply artifacts_touch_inside, inside_join in H; [congruence | reflexivity].
  - apply ota_touch_inside, inside_join in H; [congruence | reflexivity].
  - change build_info_path with (path_join "src/core" "build_info.h") in H.
    apply path_join_inj in H as [_ ->]; [| |reflexivity].
    + simpl in Hx. intuition discriminate.
    + simpl in Hx. destruct Hx as [<- | [<- | [<- | []]]]; reflexivity.
Qed.

End Inputs.

(** X3.  The script does not change what it reads from the build: when
    the build directory is neither an output directory nor under one, the
    nodes at [firmware.bin], [firmware.elf] and [firmware.map] are after
    [main] what they were before, and none of them is among the files
    written, whether [main] returns or raises. *)
Theorem build_outputs_untouched
    (e : pio_env) (t1 t2 : datetime) (w : world) (x : string) :
  inside artifacts_dir (BUILD_DIR e) = false ->
  inside ota_dir (BUILD_DIR e) = false ->
  In x build_outputs ->
  fs (snd (main (Some e) t1 t2 w)) !! path_join (BUILD_DIR e) x =
    fs w !! path_join (BUILD_DIR e) x /\
  exists l, written (snd (main (Some e) t1 t2 w)) = (written w ++ l)%list /\
            ~ In (path_join (BUILD_DIR e) x) l.
Proof.
  intros Ha Ho Hx.
  pose proof (build_output_untouched e (strftime t1) x Ha Ho Hx) as Hout.
  destruct (main_effects e t1 t2 w) as (Hfs & (l & Hl & Hlt) & _).
  split; [now apply Hfs|].
  exists l. split; [assumption|].
  rewrite List.Forall_forall in Hlt. intros Hin. now apply Hout, Hlt.
Qed.

Lemma build_outputs_untouched_witness :
  fs (snd (main (Some Sample.release_env) Sample.noon Sample.noon
             (Sample.fresh Sample.release_fs)))
    !! ".pio/build/t-deck-release/firmware.elf" = Some (File "ELF SYMBOLS").
Proof.
  destruct (build_outputs_untouched Sample.release_env Sample.noon Sample.noon
              (Sample.fresh Sample.release_fs) "firmware.elf") as [H _].
  - reflexivity.
  - reflexivity.
  - simpl. tauto.
  - exact H.
Defined.

(** ** The header after a run *)

Section HeaderAfterRun.

Lemma bind_Return_inv {A B} (m : M A) (k : A -> M B) (w : world) (b : B) :
  fst (bind m k w) = Return b ->
  exists a, fst (m w) = Return a /\ bind m k w = k a (snd (m w)).
Proof.
  unfold bind. destruct (m w) as [[a|x] w1]; cbn [fst snd]; [|discriminate].
  intros _. now exists a.
Qed.

Lemma header_not_artifact (name ts : string) : ~ artifacts_touch name ts build_info_path.
Proof. intros H%artifacts_touch_inside. discriminate. Qed.

Lemma header_not_ota : ~ ota_touch build_info_path.
Proof. intros H%ota_touch_inside. discriminate. Qed.

(** Up to cleanup no step changes the header. *)
Lemma header_until_cleanup (env : option pio_env) (t1 t2 : datetime) (w : world) :
  let w1 := snd (print_build_summary env w) in
  let w2 := snd (analyze_firmware_size env w1) in
  let w3 := snd (generate_build_artifacts env t1 w2) in
  let w4 := snd (create_ota_package env t2 w3) in
  fs w4 !! build_info_path = fs w !! build_info_path.
Proof.
  intros w1 w2 w3 w4.
  destruct (ota_effects env t2 w3) as (K4 & _). fold w4 in K4.
  rewrite K4 by apply header_not_ota.
  assert (K3 : fs w3 !! build_info_path = fs w2 !! build_info_path).
  { subst w3. destruct env as [e|].
    - destruct (artifacts_effects e t1 w2) as (K & _). apply K, header_not_artifact.
    - now rewrite (fs_unchanged _ _ w2 (artifacts_skip_effects t1 nowhere)). }
  rewrite K3. subst w2 w1.
  now rewrite (fs_unchanged _ _ _ (analyze_effects env nowhere)),
              (fs_unchanged _ _ _ (summary_effects env nowhere)).
Qed.

Lemma main_header_removed (env : option pio_env) (t1 t2 : datetime) (w : world)
    (text : string) :
  fs w !! build_info_path = Some (File text) ->
  fst (main env t1 t2 w) = Return tt ->
  fs (snd (main env t1 t2 w)) !! build_info_path = None.
Proof.
  intros Hh Hret. pose proof (header_until_cleanup env t1 t2 w) as Hkeep.
  cbv zeta in Hkeep. unfold main in *.
  destruct (bind_Return_inv _ _ _ _ Hret) as ([] & _ & E1). rewrite E1 in *. clear E1.
  destruct (bind_Return_inv _ _ _ _ Hret) as ([] & _ & E2). rewrite E2 in *. clear E2.
  destruct (bind_Return_inv _ _ _ _ Hret) as ([] & _ & E3). rewrite E3 in *. clear E3.
  destruct (bind_Return_inv _ _ _ _ Hret) as ([] & _ & E4). rewrite E4 in *. clear E4.
  set (w4 := snd (create_ota_package env t2 _)) in *.
  unfold bind at 1. rewrite cleanup_run, Hkeep, Hh.
  rewrite (fs_unchanged _ _ _ (success_effects nowhere)). cbn [fs].
  apply lookup_delete_eq.
Qed.

End HeaderAfterRun.

(** X5.  Whenever [main] returns, with or without an environment, a header
    that was a regular file is gone: the steps before cleanup leave it in
    place, so the OTA step of this run still reads it, and a packaging run
    that follows without a rebuild finds no header and falls back to
    version [1.0.0]. *)
Theorem main_removes_header
    (env : option pio_env) (t1 t2 : datetime) (w : world) (text : string) :
  fs w !! build_info_path = Some (File text) ->
  fst (main env t1 t2 w) = Return tt ->
  fs (snd (create_ota_package env t2
             (snd (generate_build_artifacts env t1
                     (snd (analyze_firmware_size env
                             (snd (print_build_summary env w))))))))
    !! build_info_path = Some (File text) /\
  fs (snd (main env t1 t2 w)) !! build_info_path = None /\
  header_version (fs (snd (main env t1 t2 w))) = "1.0.0".
Proof.
  intros Hh Hret. split; [|split].
  - now rewrite (header_until_cleanup env t1 t2 w).
  - now apply (main_header_removed env t1 t2 w text).
  - unfold header_version.
    now rewrite (main_header_removed env t1 t2 w text Hh Hret).
Qed.

Lemma main_removes_header_witness :
  fs (snd (main (Some Sample.release_env) Sample.noon Sample.noon
             (Sample.fresh Sample.release_fs))) !! build_info_path = None.
Proof.
  apply (main_removes_header (Some Sample.release_env) Sample.noon Sample.noon
           (Sample.fresh Sample.release_fs) Sample.header_text); reflexivity.
Defined.

(** ** What the script keeps *)

Section Preservation.

Context {except : string -> Prop}.

Lemma preserves_skip {A} (o : outcome A) : preserves except (lift o).
Proof. intros w p. now split. Qed.

Lemma preserves_ret {A} (a : A) : preserves except (ret a).
Proof. apply (preserves_skip (Return a)). Qed.

Lemma preserves_bind {A B} (m : M A) (k : A -> M B) :
  preserves except m -> (forall a, preserves except (k a)) ->
  preserves except (bind m k).
Proof.
  intros Hm Hk w p. unfold bind. destruct (Hm w p) as [Hd Hf].
  destruct (m w) as [[a|x] w1]; cbn [snd] in *; [|now split].
  destruct (Hk a w1 p) as [Hd' Hf']. split; auto.
Qed.

Lemma preserves_try {A} (body handler : M A) :
  preserves except body -> preserves except handler ->
  preserves except (try_except body handler).
Proof.
  intros Hb Hh w p. unfold try_except. destruct (Hb w p) as [Hd Hf].
  destruct (body w) as [[a|x] w1]; cbn [snd] in *; [now split|].
  destruct (Hh w1 p) as [Hd' Hf']. split; auto.
Qed.

Lemma preserves_when (b : bool) (m : M unit) :
  preserves except m -> preserves except (when b m).
Proof. destruct b; [trivial | intros _; apply preserves_ret]. Qed.

Lemma preserves_print (m : msg) : preserves except (print m).
Proof. intros w p. now split. Qed.

Lemma preserves_exists (q : string) : preserves except (exists_ q).
Proof. intros w p. now split. Qed.

Lemma preserves_st_size (q : string) : preserves except (st_size q).
Proof. intros w p. unfold st_size. destruct (fs w !! q) as [[]|]; now split. Qed.

Lemma preserves_read_text (q : string) : preserves except (read_text q).
Proof. intros w p. unfold read_text. destruct (fs w !! q) as [[]|]; now split. Qed.

Lemma preserves_mkdir (q : string) : preserves except (mkdir_exist_ok q).
Proof.
  intros w p. unfold mkdir_exist_ok, is_file.
  destruct (fs w !! q) as [[]|] eqn:Hq; [now split..|].
  destruct (open_w (fs w) q); [now split|]. cbn [snd fs set_fs].
  destruct (String.eqb_spec q p) as [->|Hne].
  - rewrite Hq. split; [discriminate | intros _; discriminate].
  - now rewrite lookup_insert_ne.
Qed.

Lemma preserves_write_text (q text : string) : preserves except (write_text q text).
Proof.
  intros w p. unfold write_text, open_w, is_file.
  destruct (String.eqb_spec q p) as [->|Hne].
  - destruct (fs w !! p) as [[]|] eqn:Hp; cbn [snd fs]; [|now split|].
    + rewrite lookup_insert_eq. split; [discriminate | reflexivity].
    + split; [discriminate | intros _; discriminate].
  - destruct (match fs w !! q with
              | Some Dir => Some IsADirectoryError
              | Some (File _) => None
              | None => _
              end); cbn [snd fs]; [now split|].
    now rewrite lookup_insert_ne.
Qed.

Lemma preserves_copy2 (src dst : string) : preserves except (copy2 src dst).
Proof.
  intros w p. unfold copy2.
  destruct (fs w !! src) as [[data|]|]; [| |now split];
    destruct (String.eqb src _); try (now split).
  apply preserves_write_text.
Qed.

Lemma preserves_unlink (q : string) : except q -> preserves except (unlink q).
Proof.
  intros Hq w p. unfold unlink, is_file.
  destruct (fs w !! q) as [[]|] eqn:Hl; [|now split..]. cbn [snd fs set_fs].
  destruct (String.eqb_spec q p) as [->|Hne].
  - rewrite Hl. split; [discriminate | intros Hp; contradiction].
  - now rewrite lookup_delete_ne.
Qed.

End Preservation.

Ltac keeping :=
  repeat first
    [ progress cbv zeta
    | apply preserves_bind; [|intros ?]
    | apply preserves_try
    | apply preserves_when
    | apply preserves_print
    | apply preserves_exists
    | apply preserves_st_size
    | apply preserves_read_text
    | apply preserves_mkdir
    | apply preserves_write_text
    | apply preserves_copy2
    | apply preserves_unlink
    | apply preserves_ret
    | apply preserves_skip
    | match goal with |- preserves _ (if ?b then _ else _) => destruct b end
    | match goal with |- preserves _ (match ?x with _ => _ end) => destruct x end ].

Lemma main_preserves (env : option pio_env) (t1 t2 : datetime) :
  preserves only_header (main env t1 t2).
Proof.
  unfold main, print_build_summary, analyze_firmware_size, generate_build_artifacts,
    create_ota_package, read_version, cleanup_build_files, print_build_success.
  keeping. reflexivity.
Qed.

(** X6.  The script deletes nothing but the generated header: whether
    [main] returns or raises, every directory is still a directory
    afterwards, and every regular file other than [src/core/build_info.h]
    is still a regular file (its content may be that of a new copy). *)
Theorem main_deletes_only_header
    (env : option pio_env) (t1 t2 : datetime) (w : world) (p : string) :
  (fs w !! p = Some Dir -> fs (snd (main env t1 t2 w)) !! p = Some Dir) /\
  (p <> build_info_path -> is_file (fs w) p = true ->
   is_file (fs (snd (main env t1 t2 w))) p = true).
Proof. apply (main_preserves env t1 t2 w p). Qed.

(** ** Writing and reading the version *)

Section VersionRoundTrip.

Lemma quote_free_app (a b : string) :
  quote_free (a ++ b) = quote_free a && quote_free b.
Proof. unfold quote_free. now rewrite str_in_char_app, negb_orb. Qed.

Lemma split_unlines (ls : list string) (s : string) :
  forallb line_free ls = true ->
  split LF (unlines ls ++ s) = (ls ++ split LF s)%list.
Proof.
  induction ls as [|l ls IH]; [reflexivity|].
  simpl forallb. intros [Hl Hls]%andb_true_iff.
  simpl unlines. rewrite sapp_assoc, sapp_cons, split_app, IH by assumption.
  rewrite split_no_sep; [reflexivity|]. unfold line_free in Hl.
  now apply negb_true_iff in Hl.
Qed.

Lemma define_line_taken (pre mid v post : string) :
  version_line (define_line pre mid v post) = true.
Proof.
  unfold version_line, define_line. apply andb_true_iff. split.
  - apply str_in_spec. now exists pre, (mid ++ String DQUOTE (v ++ String DQUOTE post)).
  - apply str_in_spec.
    exists (pre ++ "BUILD_VERSION" ++ mid), (v ++ String DQUOTE post).
    now rewrite !sapp_assoc.
Qed.

Lemma define_line_split (pre mid v post : string) :
  quote_free pre = true -> quote_free mid = true -> quote_free v = true ->
  nth_error (split DQUOTE (define_line pre mid v post)) 1 = Some v.
Proof.
  intros Hpre Hmid Hv. unfold define_line.
  replace (pre ++ "BUILD_VERSION" ++ mid ++ String DQUOTE (v ++ String DQUOTE post))
    with ((pre ++ "BUILD_VERSION" ++ mid) ++ String DQUOTE (v ++ String DQUOTE post))
    by (now rewrite !sapp_assoc).
  rewrite !split_app.
  rewrite (split_no_sep DQUOTE (pre ++ "BUILD_VERSION" ++ mid)).
  - rewrite (split_no_sep DQUOTE v); [reflexivity|].
    unfold quote_free in Hv. now apply negb_true_iff in Hv.
  - assert (H : quote_free (pre ++ "BUILD_VERSION" ++ mid) = true)
      by (now rewrite !quote_free_app, Hpre, Hmid).
    unfold quote_free in H. now apply negb_true_iff in H.
Qed.

Lemma scan_version_define (dflt : string) (before after : list string)
    (pre mid v post : string) :
  forallb (fun line => negb (version_line line)) before = true ->
  quote_free pre = true -> quote_free mid = true -> quote_free v = true ->
  scan_version dflt (before ++ define_line pre mid v post :: after) = Return v.
Proof.
  intros Hb Hpre Hmid Hv. induction before as [|l before IH].
  - cbn [List.app scan_version]. now rewrite define_line_taken, define_line_split.
  - cbn [forallb] in Hb. apply andb_true_iff in Hb as [Hl Hb]. apply negb_true_iff in Hl.
    cbn [List.app scan_version]. rewrite Hl. now apply IH.
Qed.

End VersionRoundTrip.

(** X7.  Reading back a written version: for a header whose lines before
    the defining line hold no version line, and whose defining line has the
    marker before its first double quote and the version [v] between its
    first two double quotes, the extraction returns [v], whatever follows
    on the line or in later lines: the first version line wins. *)
Theorem version_round_trip
    (before : list string) (pre mid v post tail : string) :
  forallb line_free before = true ->
  forallb (fun line => negb (version_line line)) before = true ->
  line_free (define_line pre mid v post) = true ->
  quote_free pre = true -> quote_free mid = true -> quote_free v = true ->
  version_of_text (unlines before ++ define_line pre mid v post ++ String LF tail) = v /\
  version_of_text (unlines before ++ define_line pre mid v post) = v.
Proof.
  intros Hlines Hsilent Hline Hpre Hmid Hv.
  assert (Hl : str_in (String LF "") (define_line pre mid v post) = false)
    by (unfold line_free in Hline; now apply negb_true_iff in Hline).
  unfold version_of_text. split.
  - rewrite split_unlines, split_app, (split_no_sep LF _ Hl) by assumption.
    simpl List.app. now rewrite scan_version_define.
  - rewrite split_unlines, (split_no_sep LF _ Hl) by assumption.
    now rewrite scan_version_define.
Qed.

Lemma version_round_trip_witness :
  version_of_text
    (unlines ["#pragma once"; "#define BUILD_NUMBER 42"] ++
     define_line "#define " " " "3.4.5-rc1" " // generated" ++
     String LF (define_line "#define OLD_" " " "0.0.1" "")) = "3.4.5-rc1".
Proof.
  apply (version_round_trip ["#pragma once"; "#define BUILD_NUMBER 42"]
           "#define " " " "3.4.5-rc1" " // generated"
           (define_line "#define OLD_" " " "0.0.1" "")); reflexivity.
Defined.

(** ** Names of the outputs *)

Section OutputNames.



End OutputNames.



(** ** The gate of the OTA packager *)

(** X9.  The gate is a test for substrings: in a project without
    [ota_packages], the packager leaves that directory behind exactly when
    the environment name contains [release] or [ota] somewhere, whatever
    happens after the directory is made; a missing [PIOENV] counts as
    [unknown] and is skipped. *)
Theorem ota_gate_is_substring_test (e : pio_env) (now : datetime) (w : world) :
  fs w !! ota_dir = None ->
  (fs (snd (create_ota_package (Some e) now w)) !! ota_dir = Some Dir <->
   substring_of "release" (get (PIOENV e) "unknown") \/
   substring_of "ota" (get (PIOENV e) "unknown")) /\
  (PIOENV e = None ->
   fs (snd (create_ota_package (Some e) now w)) !! ota_dir = None).
Proof.
  intros Hota.
  assert (Hskip : str_in "release" (get (PIOENV e) "unknown") ||
                  str_in "ota" (get (PIOENV e) "unknown") = false ->
                  fs (snd (create_ota_package (Some e) now w)) = fs w).
  { intros [Hr Ho]%orb_false_iff. unfold create_ota_package. run.
    rewrite Hr, Ho. now run. }
  split.
  - rewrite <- !str_in_spec, <- orb_true_iff.
    destruct (str_in "release" (get (PIOENV e) "unknown") ||
              str_in "ota" (get (PIOENV e) "unknown")) eqn:Hg.
    + split; [reflexivity | intros _].
      unfold create_ota_package.
      erewrite snd_bind_Return by reflexivity.
      rewrite (gate_open _ Hg).
      erewrite snd_bind_Return; first last.
      { apply mkdir_run; [|reflexivity]. cbn [print snd fs]. unfold is_file.
        now rewrite Hota. }
      match goal with
      | |- fs (snd (?m ?w1)) !! _ = _ =>
          assert (Hp : preserves only_header m)
            by (unfold read_version; keeping);
          apply (Hp w1 ota_dir)
      end.
      cbn [print snd fs set_fs]. apply lookup_insert_eq.
    + rewrite (Hskip eq_refl), Hota. split; discriminate.
  - intros Henv. rewrite Hskip, Hota; [reflexivity|]. now rewrite Henv.
Qed.

Lemma ota_gate_is_substring_test_witness :
  fs (snd (create_ota_package
             (Some {| PIOENV := Some "rotary-debug"; PIOPLATFORM := None;
                      PIOFRAMEWORK := None; BUILD_DIR := ".pio/build/rotary-debug" |})
             Sample.noon (Sample.fresh Sample.source_tree)))
    !! ota_dir = Some Dir.
Proof.
  apply (ota_gate_is_substring_test
           {| PIOENV := Some "rotary-debug"; PIOPLATFORM := None;
              PIOFRAMEWORK := None; BUILD_DIR := ".pio/build/rotary-debug" |}
           Sample.noon (Sample.fresh Sample.source_tree)).
  - reflexivity.
  - right. now exists "r", "ry-debug".
Defined.

(** ** Complete runs of the two writing steps *)

(** X10.  Artifact collection on a complete build: with the binary, the
    symbol file and the memory map present as regular files, the artifacts
    directory free to be made, an environment name without a slash and no
    directory in the way of a target, the collector returns having made
    the directory and written three files, in this order: the stamped copy
    of the binary, the symbol file and the memory map, each with the
    content of its source. *)
Theorem artifacts_collected
    (e : pio_env) (now : datetime) (w : world) (data delf dmap : string) :
  let name := get (PIOENV e) "unknown" in
  let bin := firmware_dst name (strftime now) in
  no_slash name = true ->
  valid_datetime now = true ->
  fs w !! path_join (BUILD_DIR e) "firmware.bin" = Some (File data) ->
  fs w !! path_join (BUILD_DIR e) "firmware.elf" = Some (File delf) ->
  fs w !! path_join (BUILD_DIR e) "firmware.map" = Some (File dmap) ->
  is_file (fs w) artifacts_dir = false ->
  is_dir (fs w) bin = false ->
  is_dir (fs w) (elf_dst name) = false ->
  is_dir (fs w) (map_dst name) = false ->
  generate_build_artifacts (Some e) now w =
    (Return tt,
     {| fs := <[map_dst name := File dmap]>
              (<[elf_dst name := File delf]>
              (<[bin := File data]> (<[artifacts_dir := Dir]> (fs w))));
        stdout := stdout w ++
                  [Generating; FirmwareCopied bin; ElfCopied (elf_dst name);
                   MapCopied (map_dst name)];
        written := written w ++ [bin; elf_dst name; map_dst name] |}).
Proof. intros name bin Hname Hnow. now apply artifacts_run. Qed.

Lemma artifacts_collected_witness :
  written (snd (generate_build_artifacts (Some Sample.release_env) Sample.noon
                  (Sample.fresh Sample.release_fs))) =
    ["build_artifacts/t-deck-pro-os_t-deck-release_20250714_120000.bin";
     "build_artifacts/t-deck-pro-os_t-deck-release.elf";
     "build_artifacts/t-deck-pro-os_t-deck-release.map"].
Proof.
  rewrite (artifacts_collected Sample.release_env Sample.noon
             (Sample.fresh Sample.release_fs)
             "BINARY IMAGE" "ELF SYMBOLS" "MEMORY MAP"); reflexivity.
Defined.

Lemma build_output_ne_version_file (bd v : string) (now : datetime) :
  no_slash v = true -> valid_datetime now = true ->
  path_join bd "firmware.bin" <> version_file v (strftime now).
Proof.
  intros Hv Hnow H. unfold version_file in H.
  apply path_join_inj in H as [_ H];
    [differ H | reflexivity | now apply version_file_name_no_slash].
Qed.

(** X11.  The manifest describes the package beside it.  In a build whose
    environment name contains [release] or [ota], with the binary a regular
    file and the target names usable, after the packager has returned the
    package holds the bytes of the binary, the manifest's [size] is their
    number and its [filename] is the base name of the package, and the
    binary in the build directory is as it was. *)
Theorem manifest_matches_package
    (e : pio_env) (now : datetime) (w : world) (data : string) :
  let name := get (PIOENV e) "unknown" in
  let src := path_join (BUILD_DIR e) "firmware.bin" in
  let v := header_version (fs w) in
  let ts := strftime now in
  let w' := snd (create_ota_package (Some e) now w) in
  str_in "release" name || str_in "ota" name = true ->
  fs w !! src = Some (File data) ->
  is_file (fs w) ota_dir = false ->
  no_slash v = true ->
  valid_datetime now = true ->
  is_dir (fs w) (ota_package v ts) = false ->
  is_dir (fs w) (version_file v ts) = false ->
  fst (create_ota_package (Some e) now w) = Return tt /\
  fs w' !! ota_package v ts = Some (File data) /\
  fs w' !! version_file v ts =
    Some (File (Json.dump {| version := v;
                             timestamp := ts;
                             environment := name;
                             size := Z.of_nat (String.length data);
                             filename := basename (ota_package v ts) |})) /\
  basename (ota_package v ts) = ota_package_name v ts /\
  fs w' !! src = Some (File data).
Proof.
  intros name src v ts w' Hgate Hsrc Hota Hv Hnow Hpkg Hvf. subst w'.
  assert (Hbase : basename (ota_package v ts) = ota_package_name v ts)
    by (apply basename_join; now apply ota_package_name_no_slash).
  rewrite (ota_package_run e now w Hgate data Hsrc Hota Hv Hnow Hpkg Hvf).
  cbn [fst snd fs]. fold name src v ts. rewrite Hbase.
  assert (N1 : ota_package v ts <> src).
  { apply not_eq_sym, build_output_ne_ota_package.
    now apply ota_package_name_no_slash. }
  assert (N2 : version_file v ts <> src)
    by (now apply not_eq_sym, build_output_ne_version_file).
  assert (N3 := ota_package_ne_version_file v ts).
  repeat split.
  - rewrite lookup_insert_ne by (now apply not_eq_sym). apply lookup_insert_eq.
  - apply lookup_insert_eq.
  - rewrite !lookup_insert_ne; [assumption | now apply top_ne_join | assumption..].
Qed.

Lemma manifest_matches_package_witness :
  fs (snd (create_ota_package
             (Some {| PIOENV := Some "t-deck-ota"; PIOPLATFORM := None;
                      PIOFRAMEWORK := None;
                      BUILD_DIR := ".pio/build/t-deck-release" |})
             Sample.noon (Sample.fresh Sample.release_fs)))
    !! "ota_packages/t-deck-pro-os_v2.1.0_20250714_120000.bin" =
  Some (File "BINARY IMAGE").
Proof.
  destruct (manifest_matches_package
              {| PIOENV := Some "t-deck-ota"; PIOPLATFORM := None;
                 PIOFRAMEWORK := None; BUILD_DIR := ".pio/build/t-deck-release" |}
              Sample.noon (Sample.fresh Sample.release_fs) "BINARY IMAGE")
    as (_ & Hpkg & _); [reflexivity..|exact Hpkg].
Defined.

(** ** A complete release build, end to end *)

Section EndToEnd.

Lemma bind_run {A B} (m : M A) (k : A -> M B) (w w1 : world) (a : A) :
  m w = (Return a, w1) -> bind m k w = k a w1.
Proof. intros H. unfold bind. now rewrite H. Qed.

Lemma summary_run (e : pio_env) (w : world) :
  print_build_summary (Some e) w =
    (Return tt,
     {| fs := fs w;
        stdout := stdout w ++
                  [Rule; Title; Rule;
                   Environment (get (PIOENV e) "Unknown");
                   Platform (get (PIOPLATFORM e) "Unknown");
                   Framework (get (PIOFRAMEWORK e) "Unknown"); Rule];
        written := written w |}).
Proof. unfold print_build_summary. run. now normalize_out. Qed.

Lemma success_run (w : world) :
  print_build_success w =
    (Return tt,
     {| fs := fs w; stdout := stdout w ++ banner; written := written w |}).
Proof. unfold print_build_success. run. now normalize_out. Qed.

Lemma artifact_ne_header (x : string) : path_join artifacts_dir x <> build_info_path.
Proof. intros H. differ H. Qed.

Lemma ota_name_ne_header (x : string) : path_join ota_dir x <> build_info_path.
Proof. intros H. differ H. Qed.

Lemma artifact_ne_ota_name (x y : string) : path_join artifacts_dir x <> path_join ota_dir y.
Proof. intros H. differ H. Qed.

Lemma artifact_ne_ota_dir (x : string) : path_join artifacts_dir x <> ota_dir.
Proof. intros H. differ H. Qed.

End EndToEnd.

(** X12.  A complete release build, end to end.  With an environment whose
    name contains [release] or [ota] and no slash, the three build outputs
    and the header present as regular files, a version without a slash,
    both output directories free to be made and no directory in the way of
    a target, [main] returns: it has printed the summary and the size
    report, written five files (three artifacts, then the package and its
    manifest, which carries the version of the header), deleted the
    header, and ended with the banner. *)
Theorem complete_release_build
    (e : pio_env) (t1 t2 : datetime) (w : world) (data delf dmap text : string) :
  let name := get (PIOENV e) "unknown" in
  let bin := firmware_dst name (strftime t1) in
  let v := header_version (fs w) in
  let ts := strftime t2 in
  let S := Z.of_nat (String.length data) in
  str_in "release" name || str_in "ota" name = true ->
  no_slash name = true ->
  valid_datetime t1 = true -> valid_datetime t2 = true ->
  fs w !! path_join (BUILD_DIR e) "firmware.bin" = Some (File data) ->
  fs w !! path_join (BUILD_DIR e) "firmware.elf" = Some (File delf) ->
  fs w !! path_join (BUILD_DIR e) "firmware.map" = Some (File dmap) ->
  fs w !! build_info_path = Some (File text) ->
  no_slash v = true ->
  is_file (fs w) artifacts_dir = false ->
  is_file (fs w) ota_dir = false ->
  is_dir (fs w) bin = false ->
  is_dir (fs w) (elf_dst name) = false ->
  is_dir (fs w) (map_dst name) = false ->
  is_dir (fs w) (ota_package v ts) = false ->
  is_dir (fs w) (version_file v ts) = false ->
  main (Some e) t1 t2 w =
    (Return tt,
     {| fs := delete build_info_path
              (<[version_file v ts :=
                   File (Json.dump {| version := v;
                                      timestamp := ts;
                                      environment := name;
                                      size := S;
                                      filename := ota_package_name v ts |})]>
              (<[ota_package v ts := File data]>
              (<[ota_dir := Dir]>
              (<[map_dst name := File dmap]>
              (<[elf_dst name := File delf]>
              (<[bin := File data]>
              (<[artifacts_dir := Dir]> (fs w))))))));
        stdout := stdout w ++
                  [Rule; Title; Rule;
                   Environment (get (PIOENV e) "Unknown");
                   Platform (get (PIOPLATFORM e) "Unknown");
                   Framework (get (PIOFRAMEWORK e) "Unknown"); Rule;
                   Analyzing; FirmwareSize S] ++
                  (if max_app_size <? S then [SizeExceeds; ConsiderOptimization]
                   else [RemainingSpace (format_2f (max_app_size - S) (1024 * 1024))]) ++
                  [Generating; FirmwareCopied bin; ElfCopied (elf_dst name);
                   MapCopied (map_dst name);
                   CreatingOta; OtaCreated (ota_package v ts);
                   VersionInfo (version_file v ts);
                   CleaningUp; CleanedUp] ++ banner;
        written := written w ++
                   [bin; elf_dst name; map_dst name;
                    ota_package v ts; version_file v ts] |}).
Proof.
  intros name bin v ts S Hgate Hname Hv1 Hv2 Hbin Helf Hmap Hhdr Hver
    Hart Hota Dbin Delf Dmap Dpkg Dvf.
  assert (Nsrc_bin := output_ne_bin e t1 Hname Hv1 "firmware.bin" eq_refl eq_refl).
  assert (Nsrc_elf := build_output_ne_artifact e Hname "firmware.bin" ".elf"
                        eq_refl eq_refl eq_refl).
  assert (Nsrc_map := build_output_ne_artifact e Hname "firmware.bin" ".map"
                        eq_refl eq_refl eq_refl).
  fold name in Nsrc_elf, Nsrc_map.
  fold (elf_dst name) in Nsrc_elf. fold (map_dst name) in Nsrc_map.
  fold bin in Nsrc_bin.
  set (f3 := <[map_dst name := File dmap]>
             (<[elf_dst name := File delf]>
             (<[bin := File data]> (<[artifacts_dir := Dir]> (fs w))))).
  assert (Hkeep : forall p, p <> artifacts_dir -> p <> bin -> p <> elf_dst name ->
                            p <> map_dst name -> f3 !! p = fs w !! p).
  { intros p H1 H2 H3 H4. unfold f3. now rewrite !lookup_insert_ne by ne. }
  assert (Hv3 : header_version f3 = v).
  { unfold header_version, f3, bin, elf_dst, map_dst, firmware_dst.
    now rewrite !lookup_insert_ne by (discriminate || apply artifact_ne_header). }
  assert (Hhdr3 : f3 !! build_info_path = Some (File text)).
  { unfold f3, bin, elf_dst, map_dst, firmware_dst.
    now rewrite !lookup_insert_ne by (discriminate || apply artifact_ne_header). }
  assert (Hkeep_ota : forall x, f3 !! path_join ota_dir x = fs w !! path_join ota_dir x).
  { intros x. apply Hkeep; intros H; differ H. }
  unfold main.
  rewrite (bind_run _ _ _ _ _ (summary_run e w)).
  erewrite bind_run by (apply analyze_run; exact Hbin). fold S.
  erewrite bind_run by (apply (artifacts_run e t1 Hname Hv1); cbn [fs]; eassumption).
  fold name bin f3.
  erewrite bind_run; first last.
  { apply (ota_package_run e t2 _ Hgate data); cbn [fs]; fold f3; rewrite ?Hv3; fold v ts.
    - rewrite Hkeep; [exact Hbin | now apply not_eq_sym, top_ne_join | ne..].
    - unfold is_file. rewrite Hkeep; [exact Hota | discriminate |..];
        apply not_eq_sym, artifact_ne_ota_dir.
    - exact Hver.
    - exact Hv2.
    - unfold is_dir, ota_package. now rewrite Hkeep_ota.
    - unfold is_dir, version_file. now rewrite Hkeep_ota. }
  cbn [fs stdout written]. fold f3. rewrite Hv3. fold name v ts.
  rewrite (bind_run _ _ _ _ _ (cleanup_run _)). cbn [fs stdout written].
  unfold version_file at 1, ota_package at 1.
  rewrite !lookup_insert_ne by (discriminate || apply ota_name_ne_header).
  fold (ota_package v ts) (version_file v ts).
  rewrite Hhdr3, success_run. cbn [fs stdout written].
  f_equal. f_equal; rewrite <- ?List.app_assoc; reflexivity.
Qed.

Lemma complete_release_build_witness :
  fst (main (Some Sample.release_env) Sample.noon Sample.noon_01
         (Sample.fresh Sample.release_fs)) = Return tt /\
  written (snd (main (Some Sample.release_env) Sample.noon Sample.noon_01
                  (Sample.fresh Sample.release_fs))) =
    ["build_artifacts/t-deck-pro-os_t-deck-release_20250714_120000.bin";
     "build_artifacts/t-deck-pro-os_t-deck-release.elf";
     "build_artifacts/t-deck-pro-os_t-deck-release.map";
     "ota_packages/t-deck-pro-os_v2.1.0_20250714_120001.bin";
     "ota_packages/version_v2.1.0_20250714_120001.json"].
Proof.
  rewrite (complete_release_build Sample.release_env Sample.noon Sample.noon_01
             (Sample.fresh Sample.release_fs)
             "BINARY IMAGE" "ELF SYMBOLS" "MEMORY MAP" Sample.header_text);
    try reflexivity.
  split; reflexivity.
Defined.

(** ** Runs that skip or fail *)

Section Skips.

Lemma main_without_env_run (t1 t2 : datetime) (w : world) :
  main None t1 t2 w =
    (Return tt,
     {| fs := match fs w !! build_info_path with
              | Some (File _) => delete build_info_path (fs w)
              | _ => fs w
              end;
        stdout := stdout w ++
                  [Rule; Title; Rule; Rule; Analyzing; SkipSizeAnalysis;
                   Generating; SkipArtifacts; CreatingOta; SkipOtaNoEnv; CleaningUp] ++
                  match fs w !! build_info_path with
                  | Some (File _) => [CleanedUp]
                  | Some Dir => [CouldNotRemove]
                  | None => []
                  end ++ banner;
        written := written w |}).
Proof.
  unfold main, print_build_summary, analyze_firmware_size, generate_build_artifacts,
    create_ota_package, cleanup_build_files, print_build_success.
  destruct (fs w !! build_info_path) as [[text|]|] eqn:Hh; exec; now normalize_out.
Qed.

Lemma inside_disjoint (p : string) :
  inside artifacts_dir p = true -> inside ota_dir p = true -> False.
Proof.
  unfold inside.
  intros [Ha%String.eqb_eq | Ha]%orb_true_iff [Ho%String.eqb_eq | Ho]%orb_true_iff.
  - rewrite Ha in Ho. differ Ho.
  - subst p. discriminate.
  - subst p. discriminate.
  - destruct p as [|c p]; [discriminate|].
    apply prefix_cons in Ha as [<- _]. apply prefix_cons in Ho as [Hc _]. discriminate.
Qed.

Lemma ota_skip_effects (e : pio_env) (now : datetime) (touch : string -> Prop) :
  str_in "release" (get (PIOENV e) "unknown") = false ->
  str_in "ota" (get (PIOENV e) "unknown") = false ->
  effects (create_ota_package (Some e) now) touch not_banner.
Proof.
  intros Hr Ho. unfold create_ota_package. rewrite Hr, Ho. cbn [negb andb].
  footprint; discriminate.
Qed.

End Skips.

(** X13.  Without an environment the script is a header remover: [main]
    returns, writes no file, prints that each environment-dependent step
    is skipped, and changes the file system only by deleting the header
    when it is a regular file; a directory of that name gives the warning
    instead. *)
Theorem main_without_env_outcomes (t1 t2 : datetime) (w : world) :
  main None t1 t2 w =
    (Return tt,
     {| fs := match fs w !! build_info_path with
              | Some (File _) => delete build_info_path (fs w)
              | _ => fs w
              end;
        stdout := stdout w ++
                  [Rule; Title; Rule; Rule; Analyzing; SkipSizeAnalysis;
                   Generating; SkipArtifacts; CreatingOta; SkipOtaNoEnv; CleaningUp] ++
                  match fs w !! build_info_path with
                  | Some (File _) => [CleanedUp]
                  | Some Dir => [CouldNotRemove]
                  | None => []
                  end ++ banner;
        written := written w |}).
Proof. apply main_without_env_run. Qed.

(** X14.  A build that is neither a release nor an OTA build leaves the
    OTA directory alone through the whole script: whether [main] returns
    or raises, [ota_packages] and every name under it are as before, and
    no file is written there. *)
Theorem plain_build_leaves_ota_directory
    (e : pio_env) (t1 t2 : datetime) (w : world) :
  str_in "release" (get (PIOENV e) "unknown") = false ->
  str_in "ota" (get (PIOENV e) "unknown") = false ->
  (forall p, inside ota_dir p = true ->
             fs (snd (main (Some e) t1 t2 w)) !! p = fs w !! p) /\
  exists l, written (snd (main (Some e) t1 t2 w)) = (written w ++ l)%list /\
            Forall (fun p => inside ota_dir p = false) l.
Proof.
  intros Hr Ho.
  set (touch := fun p => artifacts_touch (get (PIOENV e) "unknown") (strftime t1) p \/
                         p = build_info_path).
  assert (Hout : forall p, touch p -> inside ota_dir p = false).
  { intros p [H%artifacts_touch_inside | ->]; [|reflexivity].
    destruct (inside ota_dir p) eqn:Hp; [|reflexivity].
    now destruct (inside_disjoint p). }
  assert (Hm : effects (main (Some e) t1 t2) touch anything).
  { unfold main.
    apply effects_bind; [|intros _].
    { eapply effects_mono; [| |apply (summary_effects _ touch)]; [auto | intros; exact I]. }
    apply effects_bind; [|intros _].
    { eapply effects_mono; [| |apply (analyze_effects _ touch)]; [auto | intros; exact I]. }
    apply effects_bind; [|intros _].
    { eapply effects_mono; [| |apply artifacts_effects]; [intros p Hp; now left | intros; exact I]. }
    apply effects_bind; [|intros _].
    { eapply effects_mono; [| |apply (ota_skip_effects e t2 touch Hr Ho)];
        [auto | intros; exact I]. }
    apply effects_bind; [|intros _].
    { eapply effects_mono; [| |apply cleanup_effects]; [intros p Hp; now right | intros; exact I]. }
    apply success_effects. }
  destruct (Hm w) as (Hfs & (l & Hl & Hlt) & _). split.
  - intros p Hp. apply Hfs. intros H%Hout. congruence.
  - exists l. split; [assumption|]. eapply Forall_impl; [exact Hlt | exact Hout].
Qed.

Lemma plain_build_leaves_ota_directory_witness :
  fs (snd (main (Some Sample.debug_env) Sample.noon Sample.noon
             (Sample.fresh Sample.debug_fs))) !! ota_dir = None.
Proof.
  destruct (plain_build_leaves_ota_directory Sample.debug_env Sample.noon Sample.noon
              (Sample.fresh Sample.debug_fs)) as [H _]; [reflexivity..|].
  now rewrite H.
Defined.

Section PartialFailures.

Lemma copy2_dir_source (src dst : string) (w : world) :
  fs w !! src = Some Dir -> is_dir (fs w) dst = false -> src <> dst ->
  copy2 src dst w = (Raise IsADirectoryError, w).
Proof.
  intros Hsrc Hdst Hne. unfold copy2.
  assert (Ht : match fs w !! dst with
               | Some Dir => path_join dst (basename src)
               | _ => dst
               end = dst).
  { unfold is_dir in Hdst. destruct (fs w !! dst) as [[]|]; congruence. }
  rewrite Ht, Hsrc. apply String.eqb_neq in Hne. now rewrite Hne.
Qed.

Lemma dirname_of_nested (n : string) :
  no_slash n = false -> exists d, dirname n = Some d.
Proof.
  induction n as [|c n IH]; [discriminate|].
  rewrite no_slash_cons. simpl. destruct (dirname n) as [d|]; [eauto|].
  destruct (Ascii.eqb c SLASH); [eauto|]. simpl. intros H.
  destruct (IH H) as [d Hd]. discriminate.
Qed.

Lemma dirname_join_nested (a n d : string) :
  dirname n = Some d -> dirname (path_join a n) = Some (path_join a d).
Proof.
  intros Hn. unfold path_join. induction a as [|c a IH].
  - change ("" ++ "/" ++ n) with (String SLASH n).
    change ("" ++ "/" ++ d) with (String SLASH d). simpl. now rewrite Hn.
  - rewrite !(sapp_cons c a). simpl. now rewrite IH.
Qed.

End PartialFailures.

(** X15.  No rollback in the collector: when the binary has been copied
    and [firmware.elf] is a directory, the copy of the symbols raises
    [IsADirectoryError]; the copy of the binary stays, and the memory map
    is not looked at. *)
Theorem collector_fails_after_binary
    (e : pio_env) (now : datetime) (w : world) (data : string) :
  let name := get (PIOENV e) "unknown" in
  let bin := firmware_dst name (strftime now) in
  no_slash name = true ->
  valid_datetime now = true ->
  fs w !! path_join (BUILD_DIR e) "firmware.bin" = Some (File data) ->
  fs w !! path_join (BUILD_DIR e) "firmware.elf" = Some Dir ->
  is_file (fs w) artifacts_dir = false ->
  is_dir (fs w) bin = false ->
  is_dir (fs w) (elf_dst name) = false ->
  generate_build_artifacts (Some e) now w =
    (Raise IsADirectoryError,
     {| fs := <[bin := File data]> (<[artifacts_dir := Dir]> (fs w));
        stdout := stdout w ++ [Generating; FirmwareCopied bin];
        written := written w ++ [bin] |}).
Proof.
  intros name bin Hname Hnow Hbin Helf Hdir Dbin Delf.
  assert (Nbb := output_ne_bin e now Hname Hnow "firmware.bin" eq_refl eq_refl).
  assert (Neb := output_ne_bin e now Hname Hnow "firmware.elf" eq_refl eq_refl).
  assert (Nee := build_output_ne_artifact e Hname "firmware.elf" ".elf"
                   eq_refl eq_refl eq_refl).
  assert (Kbe := bin_ne_elf_dst e now).
  assert (Pbin := bin_dirname e now Hname Hnow).
  fold name in Nee, Kbe. fold (elf_dst name) in Nee. fold bin in Nbb, Neb, Kbe, Pbin.
  unfold generate_build_artifacts. fold name bin. steps.
  rewrite mkdir_run by (exact Hdir || reflexivity). go.
  erewrite (copy2_run _ bin artifacts_dir data); go; first last.
  { reflexivity. } { exact Pbin. } { exact Nbb. }
  { now rewrite is_dir_insert_ne by ne. } { reflexivity. }
  rewrite copy2_dir_source; first last.
  { exact Nee. }
  { cbn [fs]. now rewrite !is_dir_insert_ne by ne. }
  { cbn [fs]. now rewrite !lookup_insert_ne by ne. }
  now normalize_out.
Qed.

Lemma collector_fails_after_binary_witness :
  generate_build_artifacts (Some Sample.release_env) Sample.noon
      (Sample.fresh (<[".pio/build/t-deck-release/firmware.elf" := Dir]> Sample.release_fs)) =
    (Raise IsADirectoryError,
     {| fs := <["build_artifacts/t-deck-pro-os_t-deck-release_20250714_120000.bin" :=
                  File "BINARY IMAGE"]>
              (<[artifacts_dir := Dir]>
              (<[".pio/build/t-deck-release/firmware.elf" := Dir]> Sample.release_fs));
        stdout := [Generating;
                   FirmwareCopied
                     "build_artifacts/t-deck-pro-os_t-deck-release_20250714_120000.bin"];
        written := ["build_artifacts/t-deck-pro-os_t-deck-release_20250714_120000.bin"] |}).
Proof.
  rewrite (collector_fails_after_binary Sample.release_env Sample.noon
             (Sample.fresh (<[".pio/build/t-deck-release/firmware.elf" := Dir]>
                              Sample.release_fs)) "BINARY IMAGE"); reflexivity.
Defined.

(** X16.  A version with a slash breaks packaging.  When the header gives
    a version that contains a slash and nothing exists yet at or under
    [ota_packages], the package name lies in a directory that does not
    exist: the copy raises [FileNotFoundError], nothing is written, and
    the empty [ota_packages] directory is left behind. *)
Theorem slash_in_version_breaks_packaging
    (e : pio_env) (now : datetime) (w : world) (data : string) :
  let name := get (PIOENV e) "unknown" in
  str_in "release" name || str_in "ota" name = true ->
  fs w !! path_join (BUILD_DIR e) "firmware.bin" = Some (File data) ->
  no_slash (header_version (fs w)) = false ->
  (forall p, inside ota_dir p = true -> fs w !! p = None) ->
  create_ota_package (Some e) now w =
    (Raise FileNotFoundError,
     {| fs := <[ota_dir := Dir]> (fs w);
        stdout := stdout w ++ [CreatingOta];
        written := written w |}).
Proof.
  intros name Hgate Hsrc Hv Hempty.
  set (v := header_version (fs w)) in *. set (ts := strftime now).
  assert (Hota : fs w !! ota_dir = None) by (now apply Hempty).
  assert (Hpkg : fs w !! ota_package v ts = None)
    by (apply Hempty, inside_self_join).
  assert (Hnest : no_slash (ota_package_name v ts) = false).
  { unfold ota_package_name. now rewrite !no_slash_app, Hv, andb_false_r. }
  destruct (dirname_of_nested _ Hnest) as [d Hd].
  assert (Hdir : dirname (ota_package v ts) = Some (path_join ota_dir d))
    by (now apply dirname_join_nested).
  assert (Hparent : fs w !! path_join ota_dir d = None)
    by (apply Hempty, inside_self_join).
  assert (Nsrc : ota_dir <> path_join (BUILD_DIR e) "firmware.bin")
    by (now apply top_ne_join).
  unfold create_ota_package. fold name. steps.
  rewrite (gate_open _ Hgate). steps.
  assert (Hfree : is_file (fs w) ota_dir = false) by (unfold is_file; now rewrite Hota).
  rewrite mkdir_run by (exact Hfree || reflexivity). go.
  rewrite read_version_run. steps.
  rewrite (header_version_insert_ne _ _ _ header_ne_ota_dir). fold v ts.
  unfold copy2, write_text, open_w. cbn [fs].
  rewrite !(lookup_insert_ne _ ota_dir (ota_package v ts)) by ne.
  rewrite Hpkg, lookup_insert_ne, Hsrc by assumption.
  assert (Hne : path_join (BUILD_DIR e) "firmware.bin" <> ota_package v ts)
    by congruence.
  apply String.eqb_neq in Hne. rewrite Hne, Hdir.
  rewrite !lookup_insert_ne by ne. rewrite Hpkg, Hparent.
  now normalize_out.
Qed.

Lemma nothing_inside (f : gmap string node) (d : string) :
  forallb (fun pn => negb (inside d (fst pn))) (map_to_list f) = true ->
  forall p, inside d p = true -> f !! p = None.
Proof.
  intros Hall p Hp. destruct (f !! p) as [n|] eqn:Hl; [|reflexivity].
  apply elem_of_map_to_list, list_elem_of_In in Hl.
  rewrite forallb_forall in Hall. specialize (Hall _ Hl). cbn [fst] in Hall.
  now rewrite Hp in Hall.
Qed.

Lemma slash_in_version_breaks_packaging_witness :
  header_version branch_fs = "feature/ota-7" /\
  create_ota_package (Some Sample.release_env) Sample.noon (Sample.fresh branch_fs) =
    (Raise FileNotFoundError,
     {| fs := <[ota_dir := Dir]> branch_fs; stdout := [CreatingOta]; written := [] |}).
Proof.
  split; [reflexivity|].
  apply (slash_in_version_breaks_packaging Sample.release_env Sample.noon
           (Sample.fresh branch_fs) "BINARY IMAGE"); try reflexivity.
  now apply nothing_inside.
Defined.

(** ** The order of the packager's writes *)

Section WriteOrder.

Lemma mkdir_written (p : string) (w : world) :
  written (snd (mkdir_exist_ok p w)) = written w.
Proof.
  unfold mkdir_exist_ok. destruct (fs w !! p) as [[]|]; try reflexivity.
  now destruct (open_w (fs w) p).
Qed.

Lemma write_text_written (p text : string) (w : world) :
  (fst (write_text p text w) = Return tt /\
   written (snd (write_text p text w)) = (written w ++ [p])%list) \/
  (exists x, fst (write_text p text w) = Raise x /\
             written (snd (write_text p text w)) = written w).
Proof.
  unfold write_text. destruct (open_w (fs w) p) as [x|]; cbn [fst snd written].
  - right. now exists x.
  - now left.
Qed.

Lemma copy2_written (src dst : string) (w : world) :
  (fst (copy2 src dst w) = Return tt /\
   exists dst', (dst' = dst \/ dst' = path_join dst (basename src)) /\
                written (snd (copy2 src dst w)) = (written w ++ [dst'])%list) \/
  (exists x, fst (copy2 src dst w) = Raise x /\
             written (snd (copy2 src dst w)) = written w).
Proof.
  unfold copy2.
  set (dst' := match fs w !! dst with Some Dir => _ | _ => dst end).
  assert (Hd : dst' = dst \/ dst' = path_join dst (basename src)).
  { subst dst'. destruct (fs w !! dst) as [[]|]; auto. }
  destruct (fs w !! src) as [[data|]|]; [| |right; now eexists].
  - destruct (String.eqb src dst'); [right; now eexists|].
    destruct (write_text_written dst' data w) as [[Hr Hw] | Hx]; [left | now right].
    split; [assumption|]. now exists dst'.
  - destruct (String.eqb src dst'); right; now eexists.
Qed.

End WriteOrder.

(** X17.  The manifest is written last and never alone.  For every
    environment, clock reading and state, the files the packager writes
    are none, or the package only, or the package and then the manifest;
    when it returns they are none or both.  The package is at its stamped
    name, or inside it when that name is a directory. *)
Theorem manifest_never_without_package
    (env : option pio_env) (now : datetime) (w : world) :
  let v := header_version (fs w) in
  let ts := strftime now in
  let r := create_ota_package env now w in
  exists l, written (snd r) = (written w ++ l)%list /\
    (l = [] \/
     exists p, (p = ota_package v ts \/ p = path_join (ota_package v ts) "firmware.bin") /\
               ((l = [p] /\ fst r <> Return tt) \/ l = [p; version_file v ts])).
Proof.
  intros v ts r. subst r.
  assert (Hnone : forall (o : outcome unit) (w1 : world),
            written w1 = written w ->
            exists l, written (snd (o, w1)) = (written w ++ l)%list /\
              (l = [] \/
               exists p, (p = ota_package v ts \/
                          p = path_join (ota_package v ts) "firmware.bin") /\
                         ((l = [p] /\ fst (o, w1) <> Return tt) \/
                          l = [p; version_file v ts]))).
  { intros o w1 H. exists []. cbn [snd]. rewrite List.app_nil_r. auto. }
  unfold create_ota_package. destruct env as [e|]; steps; [|now apply Hnone].
  destruct (negb (str_in "release" (get (PIOENV e) "unknown")) &&
            negb (str_in "ota" (get (PIOENV e) "unknown"))); steps;
    [now apply Hnone|].
  pose proof (mkdir_written ota_dir
                {| fs := fs w; stdout := stdout w ++ [CreatingOta];
                   written := written w |}) as Hmk.
  destruct (mkdir_exist_ok ota_dir _) as [[[]|x] w1] eqn:Emk; cbn [snd written] in Hmk;
    [|now apply Hnone].
  assert (Hver : header_version (fs w1) = v).
  { apply mkdir_inv in Emk as [-> | ->]; cbn [fs]; [reflexivity|].
    now rewrite header_version_insert_ne by discriminate. }
  steps. set (src := path_join (BUILD_DIR e) "firmware.bin").
  destruct (fs w1 !! src) as [n|] eqn:Hsrc; steps; [|now apply Hnone].
  rewrite read_version_run. steps. rewrite Hver. fold ts.
  assert (Hbase : basename src = "firmware.bin") by (now apply basename_join).
  destruct (copy2_written src (ota_package v ts) w1) as
    [[Hret (p & Hp & Hw2)] | (x & Hx & Hw2)];
    destruct (copy2 src (ota_package v ts) w1) as [[[]|x2] w2];
    cbn [fst snd] in *; try discriminate.
  2: { apply Hnone. congruence. }
  rewrite Hbase in Hp.
  destruct (fs w2 !! src) as [[d|]|]; steps.
  - destruct (write_text_written (version_file v ts)
                (Json.dump {| version := v; timestamp := ts;
                              environment := get (PIOENV e) "unknown";
                              size := Z.of_nat (String.length d);
                              filename := basename (ota_package v ts) |}) w2)
      as [[Hr Hw3] | (x & Hx & Hw3)];
      destruct (write_text _ _ w2) as [[[]|x3] w3]; cbn [fst snd] in *;
      try discriminate; cbn [fst snd written].
    + exists [p; version_file v ts]. rewrite Hw3, Hw2, Hmk, <- List.app_assoc.
      split; [reflexivity|]. right. exists p. auto.
    + exists [p]. rewrite Hw3, Hw2, Hmk. split; [reflexivity|]. right. exists p.
      split; [assumption|]. left. split; [reflexivity | discriminate].
  - destruct (write_text_written (version_file v ts)
                (Json.dump {| version := v; timestamp := ts;
                              environment := get (PIOENV e) "unknown";
                              size := DIR_ST_SIZE;
                              filename := basename (ota_package v ts) |}) w2)
      as [[Hr Hw3] | (x & Hx & Hw3)];
      destruct (write_text _ _ w2) as [[[]|x3] w3]; cbn [fst snd] in *;
      try discriminate; cbn [fst snd written].
    + exists [p; version_file v ts]. rewrite Hw3, Hw2, Hmk, <- List.app_assoc.
      split; [reflexivity|]. right. exists p. auto.
    + exists [p]. rewrite Hw3, Hw2, Hmk. split; [reflexivity|]. right. exists p.
      split; [assumption|]. left. split; [reflexivity | discriminate].
  - exists [p]. rewrite Hw2, Hmk. split; [reflexivity|]. right. exists p.
    split; [assumption|]. left. split; [reflexivity | discriminate].
Qed.

(** ** The footprint of the OTA packager *)

Section OtaFootprint.

Variables (e : pio_env) (now : datetime).

Let name := get (PIOENV e) "unknown".
Let src := path_join (BUILD_DIR e) "firmware.bin".
Let ts := strftime now.

(** Lines 147-166, for the version read. *)
Let package_and_manifest (v : string) : M unit :=
  copy2 src (ota_package v ts) ;;
  size <- st_size src ;;
  write_text (version_file v ts)
    (Json.dump {| version := v;
                  timestamp := ts;
                  environment := name;
                  size := size;
                  filename := basename (ota_package v ts) |}) ;;
  print (OtaCreated (ota_package v ts)) ;;
  print (VersionInfo (version_file v ts)).

Lemma package_and_manifest_effects (v : string) :
  effects (package_and_manifest v) (fun p => In p (ota_names v ts)) anything.
Proof.
  unfold package_and_manifest, src. footprint; try exact I;
    rewrite ?basename_join by reflexivity; unfold ota_names; simpl; tauto.
Qed.

(** Whatever the packager does, it changes and writes nothing but its
    directory, the package and the manifest named after the version of the
    header and the reading of the clock. *)
Lemma ota_footprint (w : world) :
  let v := header_version (fs w) in
  let r := create_ota_package (Some e) now w in
  (forall p, ~ In p (ota_names v ts) -> fs (snd r) !! p = fs w !! p) /\
  exists l, written (snd r) = (written w ++ l)%list /\
            Forall (fun p => In p (ota_names v ts)) l.
Proof.
  intros v r. subst r.
  assert (Hskip : (forall p, ~ In p (ota_names v ts) -> fs w !! p = fs w !! p) /\
                  exists l, written w = (written w ++ l)%list /\
                            Forall (fun p => In p (ota_names v ts)) l).
  { split; [reflexivity|]. exists []. now rewrite List.app_nil_r. }
  unfold create_ota_package. fold name src. steps.
  destruct (negb (str_in "release" name) && negb (str_in "ota" name)); steps;
    [exact Hskip|].
  assert (Hmk : effects (mkdir_exist_ok ota_dir) (fun p => In p (ota_names v ts)) anything)
    by (apply effects_mkdir; now left).
  specialize (Hmk {| fs := fs w; stdout := stdout w ++ [CreatingOta];
                     written := written w |}).
  destruct Hmk as (Hfs1 & (l1 & Hl1 & Hf1) & _).
  destruct (mkdir_exist_ok ota_dir _) as [[[]|x] w1] eqn:Emk;
    cbn [fst snd fs written] in *.
  2: { split; [assumption|]. now exists l1. }
  assert (Hver : header_version (fs w1) = v).
  { apply mkdir_inv in Emk as [-> | ->]; cbn [fs]; [reflexivity|].
    now rewrite header_version_insert_ne by discriminate. }
  steps. destruct (fs w1 !! src) as [n|] eqn:Hsrc; steps.
  2: { split; [assumption|]. now exists l1. }
  rewrite read_version_run. steps. rewrite Hver. fold ts.
  destruct (package_and_manifest_effects v w1) as (Hfs2 & (l2 & Hl2 & Hf2) & _).
  match goal with
  | |- context [written (snd ?t)] => change t with (package_and_manifest v w1)
  end.
  split.
  - intros p Hp. now rewrite Hfs2, Hfs1.
  - exists (l1 ++ l2)%list. rewrite Hl2, Hl1, <- List.app_assoc.
    split; [reflexivity | now apply Forall_app].
Qed.

End OtaFootprint.

(** X4.  The OTA packager stays in its directory.  When the version the
    header gives has no slash and the clock reads a four-digit year, the
    package and the manifest are single names directly under
    [ota_packages]; for every environment and state, and whether it
    returns or raises, the packager changes no node and writes no file
    other than that directory, the package (or the copy inside a directory
    of the package's name) and the manifest, so nothing outside
    [ota_packages] is changed or written. *)
Theorem ota_stays_in_directory
    (env : option pio_env) (now : datetime) (w : world) :
  no_slash (header_version (fs w)) = true ->
  valid_datetime now = true ->
  let v := header_version (fs w) in
  let ts := strftime now in
  let r := create_ota_package env now w in
  (dirname (ota_package v ts) = Some ota_dir /\
   dirname (version_file v ts) = Some ota_dir /\
   dirname (path_join (ota_package v ts) "firmware.bin") = Some (ota_package v ts)) /\
  (forall p, ~ In p (ota_names v ts) -> fs (snd r) !! p = fs w !! p) /\
  (exists l, written (snd r) = (written w ++ l)%list /\
             Forall (fun p => In p (ota_names v ts)) l) /\
  (forall p, In p (ota_names v ts) -> inside ota_dir p = true) /\
  (forall p, inside ota_dir p = false -> fs (snd r) !! p = fs w !! p).
Proof.
  intros Hv Hnow v ts r.
  assert (Hin : forall p, In p (ota_names v ts) -> inside ota_dir p = true).
  { intros p. unfold ota_names. simpl In.
    intros [<- | [<- | [<- | [<- | []]]]];
      first [ reflexivity | apply inside_self_join | apply inside_self_join2 ]. }
  assert (Hfoot : (forall p, ~ In p (ota_names v ts) -> fs (snd r) !! p = fs w !! p) /\
                  exists l, written (snd r) = (written w ++ l)%list /\
                            Forall (fun p => In p (ota_names v ts)) l).
  { subst r. destruct env as [e|]; [apply ota_footprint|].
    split; [reflexivity|]. exists []. cbn. now rewrite List.app_nil_r. }
  destruct Hfoot as [Hfs Hwr].
  split; [|split; [|split; [|split]]]; try assumption.
  - split; [|split].
    + apply dirname_join. now apply ota_package_name_no_slash.
    + apply dirname_join. now apply version_file_name_no_slash.
    + now apply dirname_join.
  - intros p Hp. apply Hfs. intros H%Hin. congruence.
Qed.

Lemma ota_stays_in_directory_witness :
  fs (snd (create_ota_package (Some Sample.release_env) Sample.noon
             (Sample.fresh Sample.release_fs))) !! build_info_path =
    Some (File Sample.header_text).
Proof.
  pose proof (ota_stays_in_directory (Some Sample.release_env) Sample.noon
                (Sample.fresh Sample.release_fs) eq_refl eq_refl) as H.
  cbv zeta in H. destruct H as (_ & _ & _ & _ & H).
  rewrite H by reflexivity. reflexivity.
Defined.
